(** * wems-server: the weekly expense report of [app.py]

    A shallow embedding of the two computing routes of the server,
    [split_expense] (lines 170-186) and [weekly_report] (lines 188-262),
    followed by the properties of the aggregation and settlement loops.

    Conventions of the embedding.
    - Python numbers (JSON item costs, their sums and quotients) are the
      exact rationals [Q]: [+], [-], [/] and [min] are exact, [==] on
      numbers is [Qeq].  Rounding of binary floating point is not modelled.
      A statement that equates numbers with [=] follows the program
      addition by addition and division by division, in the program's
      order; a statement with [==] is one of exact arithmetic.
    - A Python [dict] is an insertion-ordered association list with at most
      one binding per key ([dict]); [d[k]] on a missing key raises
      [KeyError], division by a zero length raises [ZeroDivisionError].
    - The Mongo queries are inputs: [expenses] is the list the date-range
      query returned, in the order the cursor yields it, and the roster is
      the list [Roommate.objects()] yields.
    - The expenses of the embedding are those whose references resolve and
      whose items are complete: the purchaser and every consumer carry an
      id and a name, every item an ['item'] name and a numeric ['cost'].
      What the routes raise on other documents (the [DoesNotExist] or the
      [AttributeError] of a reference to a deleted roommate in
      [weekly_report], the [KeyError] of an item without ['cost']) is
      outside the embedding.  The roster of [split_expense] may lack a
      consumer. *)

From Stdlib Require Import List String Bool Arith ZArith QArith Lia Lqa.
Import ListNotations.

Local Open Scope Q_scope.

(** ** Exceptions and the error monad *)

Inductive exn : Type :=
| ZeroDivisionError
| KeyError (k : string).

Inductive result (A : Type) : Type :=
| Ok (a : A)
| Raise (e : exn).

Arguments Ok {A} a.
Arguments Raise {A} e.

Definition bind {A B : Type} (c : result A) (k : A -> result B) : result B :=
  match c with
  | Ok a => k a
  | Raise e => Raise e
  end.

Notation "x <- c ;; k" := (bind c (fun x => k))
  (at level 61, c at next level, right associativity).

(** A [for] loop whose body may raise: the first exception ends the loop. *)
Fixpoint foldM {A B : Type} (f : A -> B -> result A) (l : list B) (a : A)
  : result A :=
  match l with
  | [] => Ok a
  | x :: l' => a' <- f a x ;; foldM f l' a'
  end.

(** ** Numbers *)

(** [x < y] on numbers, as a test. *)
Definition Qltb (x y : Q) : bool := negb (Qle_bool y x).

(** Python's [min(a, b)]: the first argument unless the second is smaller. *)
Definition pymin (a b : Q) : Q := if Qltb b a then b else a.

(** [x / len(l)]: true division, raising on an empty [l]. *)
Definition pydiv (x : Q) (n : nat) : result Q :=
  match n with
  | O => Raise ZeroDivisionError
  | S _ => Ok (x / inject_Z (Z.of_nat n))
  end.

(** Sum of a list of numbers, for statements. *)
Definition Qsum (l : list Q) : Q := fold_right Qplus 0 l.

(** ** Dictionaries *)

Definition dict (V : Type) : Type := list (string * V).

Module Dict.
Section Ops.
Context {V : Type}.

(** [d.get(k)] *)
Fixpoint get (d : dict V) (k : string) : option V :=
  match d with
  | [] => None
  | (k', v) :: d' => if String.eqb k' k then Some v else get d' k
  end.

(** [k in d] *)
Definition contains (d : dict V) (k : string) : bool :=
  match get d k with
  | Some _ => true
  | None => false
  end.

(** [d[k]] as an expression *)
Definition getitem (d : dict V) (k : string) : result V :=
  match get d k with
  | Some v => Ok v
  | None => Raise (KeyError k)
  end.

(** [d.get(k, dflt)] *)
Definition get_default (d : dict V) (k : string) (dflt : V) : V :=
  match get d k with
  | Some v => v
  | None => dflt
  end.

(** [d[k] = v]: a present key keeps its place, a new key goes last. *)
Fixpoint set (d : dict V) (k : string) (v : V) : dict V :=
  match d with
  | [] => [(k, v)]
  | (k', v') :: d' =>
      if String.eqb k' k then (k', v) :: d' else (k', v') :: set d' k v
  end.

Definition keys (d : dict V) : list string := map fst d.
Definition values (d : dict V) : list V := map snd d.
End Ops.
End Dict.

(** [b @ k]: the number stored for [k], zero when there is none
    ([d.get(k, 0)]). *)
Local Notation "b @ k" := (Dict.get_default b k 0) (at level 20, no associativity).

(** ** The documents *)

Module Roommate.
(** [email], [password] and [phone] are never read by the two routes. *)
Record t : Type := { id : string; name : string }.
End Roommate.

Module Item.
(** One element of [Expense.items]: [{'item': ..., 'cost': ...}]. *)
Record t : Type := { item : string; cost : Q }.
End Item.

Module Expense.
(** [date] and [meal_type] are read by the query only. *)
Record t : Type := {
  items : list Item.t;
  purchased_by : Roommate.t;
  consumed_by : list Roommate.t
}.
End Expense.

(** [sum(item['cost'] for item in expense.items)] *)
Definition sum_cost (its : list Item.t) : Q :=
  fold_left (fun acc it => acc + Item.cost it) its 0.

(** ** [split_expense] *)

Module Split.
(** A value of [roommate_expenses]. *)
Record entry : Type := { name : string; amount : Q }.
End Split.

(** Line 177: the dict comprehension over the roster. *)
Definition roommate_expenses_init (roster : list Roommate.t) : dict Split.entry :=
  fold_left
    (fun d roommate =>
       Dict.set d (Roommate.id roommate)
         {| Split.name := Roommate.name roommate; Split.amount := 0 |})
    roster [].

(** Lines 183-184: one consumer of one expense. *)
Definition add_split (split_amount : Q) (roommate_expenses : dict Split.entry)
    (roommate : Roommate.t) : result (dict Split.entry) :=
  e <- Dict.getitem roommate_expenses (Roommate.id roommate) ;;
  Ok (Dict.set roommate_expenses (Roommate.id roommate)
        {| Split.name := Split.name e;
           Split.amount := Split.amount e + split_amount |}).

(** Lines 180-184: one expense. *)
Definition split_one (roommate_expenses : dict Split.entry) (expense : Expense.t)
  : result (dict Split.entry) :=
  let total_cost := sum_cost (Expense.items expense) in
  split_amount <- pydiv total_cost (List.length (Expense.consumed_by expense)) ;;
  foldM (add_split split_amount) (Expense.consumed_by expense) roommate_expenses.

Definition split_expense (roster : list Roommate.t) (expenses : list Expense.t)
  : result (dict Split.entry) :=
  foldM split_one expenses (roommate_expenses_init roster).

(** ** [weekly_report]: aggregation (lines 196-228) *)

(** An element of [owed_by] / [owes_to]: [{'user': ..., 'amount': ...}]. *)
Record debt : Type := { user : string; amount : Q }.

Module Report.
(** A value of [report]. *)
Record t : Type := {
  name : string;
  total_amount : Q;
  total_items : nat;
  items : dict Q;
  owed_by : list debt;
  owes_to : list debt
}.

(** Lines 209-216. *)
Definition fresh (nm : string) : t :=
  {| name := nm; total_amount := 0; total_items := 0; items := [];
     owed_by := []; owes_to := [] |}.
End Report.

(** Lines 223-226: one item of the expense, on the consumer's record. *)
Definition add_item (r : Report.t) (it : Item.t) : result Report.t :=
  let r1 :=
    if Dict.contains (Report.items r) (Item.item it) then r
    else {| Report.name := Report.name r;
            Report.total_amount := Report.total_amount r;
            Report.total_items := S (Report.total_items r);
            Report.items := Dict.set (Report.items r) (Item.item it) 0;
            Report.owed_by := Report.owed_by r;
            Report.owes_to := Report.owes_to r |} in
  old <- Dict.getitem (Report.items r1) (Item.item it) ;;
  Ok {| Report.name := Report.name r1;
        Report.total_amount := Report.total_amount r1;
        Report.total_items := Report.total_items r1;
        Report.items := Dict.set (Report.items r1) (Item.item it) (old + Item.cost it);
        Report.owed_by := Report.owed_by r1;
        Report.owes_to := Report.owes_to r1 |}.

(** Line 228. *)
Definition add_total (r : Report.t) (x : Q) : Report.t :=
  {| Report.name := Report.name r;
     Report.total_amount := Report.total_amount r + x;
     Report.total_items := Report.total_items r;
     Report.items := Report.items r;
     Report.owed_by := Report.owed_by r;
     Report.owes_to := Report.owes_to r |}.

(** The three dicts the first loop fills. *)
Record agg : Type := {
  report : dict Report.t;
  spending : dict Q;
  consumption : dict Q
}.

Definition agg_init : agg := {| report := []; spending := []; consumption := [] |}.

(** Lines 207-228: one consumer of one expense.  [report[roommate_id]] is
    one mutable record during the item loop: it is read once, updated by
    the items and by line 228, and stored back. *)
Definition consume (expense : Expense.t) (st : agg) (roommate : Roommate.t)
  : result agg :=
  let roommate_id := Roommate.id roommate in
  let report1 :=
    if Dict.contains (report st) roommate_id then report st
    else Dict.set (report st) roommate_id (Report.fresh (Roommate.name roommate)) in
  let consumption1 :=
    if Dict.contains (consumption st) roommate_id then consumption st
    else Dict.set (consumption st) roommate_id 0 in
  c <- Dict.getitem consumption1 roommate_id ;;
  share <- pydiv (sum_cost (Expense.items expense))
                 (List.length (Expense.consumed_by expense)) ;;
  let consumption2 := Dict.set consumption1 roommate_id (c + share) in
  r <- Dict.getitem report1 roommate_id ;;
  r1 <- foldM add_item (Expense.items expense) r ;;
  let r2 := add_total r1 (sum_cost (Expense.items expense)) in
  Ok {| report := Dict.set report1 roommate_id r2;
        spending := spending st;
        consumption := consumption2 |}.

(** Lines 201-228: one expense. *)
Definition process_expense (st : agg) (expense : Expense.t) : result agg :=
  let purchaser_id := Roommate.id (Expense.purchased_by expense) in
  let spending1 :=
    if Dict.contains (spending st) purchaser_id then spending st
    else Dict.set (spending st) purchaser_id 0 in
  s <- Dict.getitem spending1 purchaser_id ;;
  let spending2 :=
    Dict.set spending1 purchaser_id (s + sum_cost (Expense.items expense)) in
  foldM (consume expense) (Expense.consumed_by expense)
    {| report := report st; spending := spending2; consumption := consumption st |}.

Definition aggregate (expenses : list Expense.t) : result agg :=
  foldM process_expense expenses agg_init.

(** Lines 230-234: a balance for every key of [spending]. *)
Definition compute_balances (st : agg) : dict Q :=
  fold_left
    (fun balances (kv : string * Q) =>
       let (roommate_id, total_spent) := kv in
       let total_consumed := Dict.get_default (consumption st) roommate_id 0 in
       Dict.set balances roommate_id (total_spent - total_consumed))
    (spending st) [].

(** ** [weekly_report]: settlement (lines 236-252) *)

(** One pass through the body of the inner loop, as an observable event:
    [t_from] (the debtor, [other_id]) pays [t_amount] to [t_to] (the
    creditor, [roommate_id]).  The code stores the same event twice, by
    display name, in [owed_by] and [owes_to]; [trace] keeps it by id. *)
Record transfer : Type := { t_from : string; t_to : string; t_amount : Q }.

Record settle_state : Type := {
  s_report : dict Report.t;
  balances : dict Q;
  trace : list transfer
}.

Definition add_owed_by (r : Report.t) (d : debt) : Report.t :=
  {| Report.name := Report.name r;
     Report.total_amount := Report.total_amount r;
     Report.total_items := Report.total_items r;
     Report.items := Report.items r;
     Report.owed_by := Report.owed_by r ++ [d];
     Report.owes_to := Report.owes_to r |}.

Definition add_owes_to (r : Report.t) (d : debt) : Report.t :=
  {| Report.name := Report.name r;
     Report.total_amount := Report.total_amount r;
     Report.total_items := Report.total_items r;
     Report.items := Report.items r;
     Report.owed_by := Report.owed_by r;
     Report.owes_to := Report.owes_to r ++ [d] |}.

(** Lines 241-250: the body of the inner loop once [amount] is known. *)
Definition pay (roommate_id other_id : string) (amount : Q) (st : settle_state)
  : result settle_state :=
  creditor <- Dict.getitem (s_report st) roommate_id ;;
  other <- Dict.getitem (s_report st) other_id ;;
  let report1 :=
    Dict.set (s_report st) roommate_id
      (add_owed_by creditor {| user := Report.name other; amount := amount |}) in
  other1 <- Dict.getitem report1 other_id ;;
  creditor1 <- Dict.getitem report1 roommate_id ;;
  let report2 :=
    Dict.set report1 other_id
      (add_owes_to other1 {| user := Report.name creditor1; amount := amount |}) in
  b <- Dict.getitem (balances st) roommate_id ;;
  let balances1 := Dict.set (balances st) roommate_id (b - amount) in
  ob <- Dict.getitem balances1 other_id ;;
  let balances2 := Dict.set balances1 other_id (ob + amount) in
  Ok {| s_report := report2;
        balances := balances2;
        trace := trace st ++
                 [{| t_from := other_id; t_to := roommate_id; t_amount := amount |}] |}.

(** Lines 238-252: the inner loop over [balances.items()].  The keys are
    fixed when the loop starts, every value is read when its key is reached;
    [balance] is the value the outer loop read and is not read again. *)
Fixpoint settle_with (roommate_id : string) (balance : Q) (others : list string)
    (st : settle_state) : result settle_state :=
  match others with
  | [] => Ok st
  | other_id :: rest =>
      other_balance <- Dict.getitem (balances st) other_id ;;
      if negb (String.eqb other_id roommate_id) && Qltb other_balance 0 then
        let amount := pymin balance (- other_balance) in
        st1 <- pay roommate_id other_id amount st ;;
        b <- Dict.getitem (balances st1) roommate_id ;;
        if Qeq_bool b 0 then Ok st1
        else settle_with roommate_id balance rest st1
      else settle_with roommate_id balance rest st
  end.

(** Lines 236-252: the outer loop over [balances.items()]. *)
Fixpoint settle_all (ids : list string) (st : settle_state) : result settle_state :=
  match ids with
  | [] => Ok st
  | roommate_id :: rest =>
      balance <- Dict.getitem (balances st) roommate_id ;;
      if Qltb 0 balance then
        st1 <- settle_with roommate_id balance (Dict.keys (balances st)) st ;;
        settle_all rest st1
      else settle_all rest st
  end.

Definition settle (st : settle_state) : result settle_state :=
  settle_all (Dict.keys (balances st)) st.

(** The state the settlement loop starts from: the report and the
    balances of lines 230-234, no transfer yet. *)
Definition settle_input (st : agg) : settle_state :=
  {| s_report := report st; balances := compute_balances st; trace := [] |}.

(** Lines 196-252, with the trace. *)
Definition weekly_run (expenses : list Expense.t) : result settle_state :=
  st <- aggregate expenses ;;
  settle (settle_input st).

(** Lines 254-262: the records of [report], in insertion order. *)
Definition weekly_report (expenses : list Expense.t) : result (list Report.t) :=
  st <- weekly_run expenses ;;
  Ok (Dict.values (s_report st)).

(** ** Replaying transfers (the checks of the settlement properties) *)

(** Subtract the amount from the creditor, add it to the debtor. *)
Definition replay_one (b : dict Q) (t : transfer) : dict Q :=
  let b1 := Dict.set b (t_to t) (Dict.get_default b (t_to t) 0 - t_amount t) in
  Dict.set b1 (t_from t) (Dict.get_default b1 (t_from t) 0 + t_amount t).

Definition replay (b : dict Q) (ts : list transfer) : dict Q :=
  fold_left replay_one ts b.

(** The positive balances of a map. *)
Definition credits (b : dict Q) : list Q :=
  filter (fun x => Qltb 0 x) (Dict.values b).

(** The persons with a nonzero balance. *)
Definition active (b : dict Q) : list string :=
  Dict.keys (filter (fun kv => negb (Qeq_bool (snd kv) 0)) b).

(** The negative balances of a map. *)
Definition debits (b : dict Q) : list Q :=
  filter (fun x => Qltb x 0) (Dict.values b).

(** ** Totals of a week *)

(** What an expense is worth to its consumers: all of it, unless nobody
    consumed. *)
Definition consumed_cost (expense : Expense.t) : Q :=
  match Expense.consumed_by expense with
  | [] => 0
  | _ :: _ => sum_cost (Expense.items expense)
  end.

(** The persons who purchase, and the persons who consume, in a week. *)
Definition purchasers (expenses : list Expense.t) : list string :=
  map (fun e => Roommate.id (Expense.purchased_by e)) expenses.

Definition consumers (expenses : list Expense.t) : list string :=
  flat_map (fun e => map Roommate.id (Expense.consumed_by e)) expenses.

(** The money spent, and the money consumed, in a week. *)
Definition spent_total (expenses : list Expense.t) : Q :=
  Qsum (map (fun e => sum_cost (Expense.items e)) expenses).

Definition consumed_total (expenses : list Expense.t) : Q :=
  Qsum (map consumed_cost expenses).

(** ** Predicates on the report *)

(** The number of distinct item names of a record. *)
Definition distinct_names (r : Report.t) : nat :=
  List.length (nodup string_dec (Dict.keys (Report.items r))).

(** The names of a record's [items] are distinct and [total_items] counts
    them. *)
Definition counted (r : Report.t) : Prop :=
  NoDup (Dict.keys (Report.items r)) /\
  Report.total_items r = distinct_names r.

(** The full item costs of a record add up to its [total_amount]. *)
Definition items_total (r : Report.t) : Prop :=
  Qsum (Dict.values (Report.items r)) == Report.total_amount r.

(** A property of every record of the report. *)
Definition report_all (Pr : Report.t -> Prop) (st : agg) : Prop :=
  Forall Pr (Dict.values (report st)).

(** ** The settlement loops on the balances alone *)

(** The transfers of the inner loop, read off the balances alone. *)
Fixpoint plan_with (roommate_id : string) (balance : Q) (others : list string)
    (b : dict Q) : list transfer :=
  match others with
  | [] => []
  | other_id :: rest =>
      let other_balance := Dict.get_default b other_id 0 in
      if negb (String.eqb other_id roommate_id) && Qltb other_balance 0 then
        let t := {| t_from := other_id; t_to := roommate_id;
                    t_amount := pymin balance (- other_balance) |} in
        let b1 := replay_one b t in
        if Qeq_bool (Dict.get_default b1 roommate_id 0) 0 then [t]
        else t :: plan_with roommate_id balance rest b1
      else plan_with roommate_id balance rest b
  end.

(** The transfers of the outer loop, read off the balances alone. *)
Fixpoint plan_all (ids : list string) (b : dict Q) : list transfer :=
  match ids with
  | [] => []
  | roommate_id :: rest =>
      let balance := Dict.get_default b roommate_id 0 in
      if Qltb 0 balance then
        let ts := plan_with roommate_id balance (Dict.keys b) b in
        (ts ++ plan_all rest (replay b ts))%list
      else plan_all rest b
  end.

Definition plan (b : dict Q) : list transfer := plan_all (Dict.keys b) b.

(** Every person with a balance has a record in the report. *)
Definition covers (rep : dict Report.t) (b : dict Q) : Prop :=
  incl (Dict.keys b) (Dict.keys rep).

(** ** Sample weeks *)

Definition ann : Roommate.t := {| Roommate.id := "A"; Roommate.name := "Ann" |}.
Definition bob : Roommate.t := {| Roommate.id := "B"; Roommate.name := "Bob" |}.
Definition cid : Roommate.t := {| Roommate.id := "C"; Roommate.name := "Cid" |}.
Definition dee : Roommate.t := {| Roommate.id := "D"; Roommate.name := "Dee" |}.

(** A roommate deleted from the roster whom an expense still names. *)
Definition zed : Roommate.t := {| Roommate.id := "Z"; Roommate.name := "Zed" |}.

Definition household : list Roommate.t := [ann; bob; cid; dee].

(** An expense of one item. *)
Definition bought (what : string) (price : Q) (buyer : Roommate.t)
    (eaters : list Roommate.t) : Expense.t :=
  {| Expense.items := [{| Item.item := what; Item.cost := price |}];
     Expense.purchased_by := buyer;
     Expense.consumed_by := eaters |}.

(** Ann buys meat for 20 and rice for 10; Ann, Bob and Cid eat. *)
Definition shared_meal : Expense.t :=
  {| Expense.items := [{| Item.item := "meat"; Item.cost := 20 |};
                       {| Item.item := "rice"; Item.cost := 10 |}];
     Expense.purchased_by := ann;
     Expense.consumed_by := [ann; bob; cid] |}.

(** An expense nobody consumed. *)
Definition unshared : Expense.t := bought "meat" 20 ann [].

(** Everybody buys a snack for themselves; then Ann buys for Bob (3) and
    for Cid (7), and Dee buys for Cid (13).  The balances are
    A: +10, B: -3, C: -20, D: +13. *)
Definition four_way_week : list Expense.t :=
  [ bought "snack" 1 ann [ann]; bought "snack" 1 bob [bob];
    bought "snack" 1 cid [cid]; bought "snack" 1 dee [dee];
    bought "lunch" 3 ann [bob]; bought "lunch" 7 ann [cid];
    bought "dinner" 13 dee [cid] ].

(** Ann and Bob buy a snack for themselves; then Ann buys for Bob (3) and
    for Cid (5): Cid never buys.  The balances are A: +8, B: -3. *)
Definition uneven_week : list Expense.t :=
  [ bought "snack" 2 ann [ann]; bought "snack" 2 bob [bob];
    bought "lunch" 3 ann [bob]; bought "lunch" 5 ann [cid] ].

(** Two reports for the balances A: +5, B: -3, with different records. *)
Definition two_balances : dict Q := [("A"%string, 5); ("B"%string, -(3))].

Definition plain_report : dict Report.t :=
  [("A"%string, Report.fresh "Ann"); ("B"%string, Report.fresh "Bob")].

Definition other_report : dict Report.t :=
  [("B"%string, add_total (Report.fresh "Robert") 12);
   ("C"%string, Report.fresh "Cid");
   ("A"%string, Report.fresh "Anna")].

(** ** What a week means for one person *)

(** How many times [k] is among the consumers of an expense. *)
Definition times_consumed (k : string) (e : Expense.t) : nat :=
  count_occ string_dec (map Roommate.id (Expense.consumed_by e)) k.

(** The share of one consumer of an expense: [total / len(consumed_by)]. *)
Definition share_of (e : Expense.t) : Q :=
  sum_cost (Expense.items e)
  / inject_Z (Z.of_nat (List.length (Expense.consumed_by e))).

(** What [k] paid for, what [k] consumed by shares, and the full cost of
    what [k] took part in. *)
Definition spent_by (k : string) (expenses : list Expense.t) : Q :=
  Qsum (map (fun e =>
               if String.eqb (Roommate.id (Expense.purchased_by e)) k
               then sum_cost (Expense.items e) else 0) expenses).

Definition consumed_by_shares (k : string) (expenses : list Expense.t) : Q :=
  Qsum (map (fun e => inject_Z (Z.of_nat (times_consumed k e)) * share_of e)
            expenses).

Definition charged_in_full (k : string) (expenses : list Expense.t) : Q :=
  Qsum (map (fun e => inject_Z (Z.of_nat (times_consumed k e))
                      * sum_cost (Expense.items e)) expenses).

(** [report[k]['total_amount']], zero without a record. *)
Definition total_amount_of (rep : dict Report.t) (k : string) : Q :=
  match Dict.get rep k with
  | Some r => Report.total_amount r
  | None => 0
  end.

(** [roommate_expenses[k]['amount']], zero without an entry. *)
Definition amount_of (d : dict Split.entry) (k : string) : Q :=
  match Dict.get d k with
  | Some e => Split.amount e
  | None => 0
  end.

(** The consumers of a week who purchase nothing in it. *)
Definition free_riders (expenses : list Expense.t) (ids : list string) : list string :=
  filter (fun k => negb (existsb (String.eqb k) (purchasers expenses))) ids.

(** ** Transfers that are in order *)



(** ** The debts a report records for a transfer sequence *)

(** [report[k]['name']], empty without a record. *)
Definition name_of (rep : dict Report.t) (k : string) : string :=
  match Dict.get rep k with
  | Some r => Report.name r
  | None => EmptyString
  end.

(** What lines 241-244 append to [k]'s [owed_by] for the transfers [ts]:
    one debt per transfer paid to [k], under the payer's display name. *)
Definition owed_by_of (rep : dict Report.t) (k : string) (ts : list transfer)
  : list debt :=
  map (fun t => {| user := name_of rep (t_from t); amount := t_amount t |})
      (filter (fun t => String.eqb (t_to t) k) ts).

(** What lines 245-248 append to [k]'s [owes_to]: one debt per transfer [k]
    pays, under the receiver's display name. *)
Definition owes_to_of (rep : dict Report.t) (k : string) (ts : list transfer)
  : list debt :=
  map (fun t => {| user := name_of rep (t_to t); amount := t_amount t |})
      (filter (fun t => String.eqb (t_from t) k) ts).

(** [rep'] is [rep] after recording the transfers [ts]: the same persons,
    every record unchanged but for the debts appended to [owed_by] and
    [owes_to]. *)
Definition records_transfers (rep : dict Report.t) (ts : list transfer)
    (rep' : dict Report.t) : Prop :=
  Dict.keys rep' = Dict.keys rep /\
  forall k r,
    Dict.get rep k = Some r ->
    exists r',
      Dict.get rep' k = Some r' /\
      Report.name r' = Report.name r /\
      Report.total_amount r' = Report.total_amount r /\
      Report.total_items r' = Report.total_items r /\
      Report.items r' = Report.items r /\
      Report.owed_by r' = (Report.owed_by r ++ owed_by_of rep k ts)%list /\
      Report.owes_to r' = (Report.owes_to r ++ owes_to_of rep k ts)%list.

(** ** The week of a request (lines 172-176 and 190-194) *)

Module Date.
(** A [datetime.date] is its proleptic Gregorian ordinal ([toordinal()]):
    1 is 0001-01-01, a Monday, and 3652059 is 9999-12-31. *)
Definition min : Z := 1%Z.
Definition max : Z := 3652059%Z.

Definition valid (d : Z) : Prop := (min <= d <= max)%Z.

(** [d.weekday()]: Monday is 0, Sunday is 6. *)
Definition weekday (d : Z) : Z := ((d + 6) mod 7)%Z.

(** [d + timedelta(days=n)]; [None] is the [OverflowError] of a result
    outside [date.min .. date.max]. *)
Definition add_days (d n : Z) : option Z :=
  let o := (d + n)%Z in
  if ((min <=? o) && (o <=? max))%Z then Some o else None.
End Date.

Module Stored.
(** An [Expense] document of the collection: the two fields the loops never
    read, and the rest. *)
Record t : Type := { date : Z; meal_type : string; fields : Expense.t }.
End Stored.

(** Lines 172-174: Monday and Sunday of the week of [start_date]; [None] is
    an [OverflowError]. *)
Definition week_of (start_date : Z) : option (Z * Z) :=
  match Date.add_days start_date (- Date.weekday start_date) with
  | None => None
  | Some start_of_week =>
      match Date.add_days start_of_week 6 with
      | None => None
      | Some end_of_week => Some (start_of_week, end_of_week)
      end
  end.

(** Line 176: [Expense.objects(date__gte=..., date__lte=...)], in the order
    of the collection. *)
Definition expenses_between (db : list Stored.t) (lo hi : Z) : list Expense.t :=
  map Stored.fields
      (filter (fun x => ((lo <=? Stored.date x) && (Stored.date x <=? hi))%Z) db).

(** What a route does with a request whose [start_date] parses. *)
Inductive response (A : Type) : Type :=
| Returns (a : A)
| Raises (x : exn)
| RaisesOverflowError.

Arguments Returns {A} a.
Arguments Raises {A} x.
Arguments RaisesOverflowError {A}.

Definition respond {A B : Type} (f : A -> B) (r : result A) : response B :=
  match r with
  | Ok a => Returns (f a)
  | Raise x => Raises x
  end.

(** Lines 170-186. *)
Definition split_expense_route (roster : list Roommate.t) (db : list Stored.t)
    (start_date : Z) : response (dict Split.entry) :=
  match week_of start_date with
  | None => RaisesOverflowError
  | Some (start_of_week, end_of_week) =>
      respond (fun d => d)
        (split_expense roster (expenses_between db start_of_week end_of_week))
  end.

(** The body of the answer of [weekly_report] (lines 258-262), the dates as
    ordinals. *)
Record weekly_answer : Type := {
  week_start_date : Z;
  week_end_date : Z;
  report_rows : list Report.t
}.

(** Lines 188-262. *)
Definition weekly_report_route (db : list Stored.t) (start_date : Z)
  : response weekly_answer :=
  match week_of start_date with
  | None => RaisesOverflowError
  | Some (start_of_week, end_of_week) =>
      respond
        (fun rows => {| week_start_date := start_of_week;
                        week_end_date := end_of_week;
                        report_rows := rows |})
        (weekly_report (expenses_between db start_of_week end_of_week))
  end.

(** ** The checks of [add_expense] (lines 90-104) *)

(** A JSON value, as [request.json] holds it. *)
#[local] Unset Elimination Schemes.
Inductive json : Type :=
| JNull
| JBool (b : bool)
| JNumber (q : Q)
| JString (s : string)
| JArray (l : list json)
| JObject (o : list (string * json)).
#[local] Set Elimination Schemes.

(** Python's truth value of a JSON value ([not v] is its negation). *)
Definition truthy (v : json) : bool :=
  match v with
  | JNull => false
  | JBool b => b
  | JNumber q => negb (Qeq_bool q 0)
  | JString s => negb (String.eqb s EmptyString)
  | JArray l => match l with [] => false | _ :: _ => true end
  | JObject o => match o with [] => false | _ :: _ => true end
  end.

(** [isinstance(v, dict)] and [isinstance(v, str)]. *)
Definition is_dict (v : json) : bool :=
  match v with JObject _ => true | _ => false end.

Definition is_str (v : json) : bool :=
  match v with JString _ => true | _ => false end.

(** [isinstance(v, list) and all(p(x) for x in v)] *)
Definition is_list_of (p : json -> bool) (v : json) : bool :=
  match v with JArray l => forallb p l | _ => false end.

Definition required_fields : list string :=
  ["date"; "mealType"; "items"; "purchasedBy"; "consumedBy"]%string.

(** What the checks can raise on a body: the [TypeError] of a membership
    test or of a subscript the type of the body does not support, and the
    [KeyError] of a dict.  The handler of line 136 answers both alike. *)
Inductive check_error : Type :=
| TypeError
| MissingKey (k : string).

(** [field == v] for a string [field] and an element [v] of a list. *)
Definition is_string (field : string) (v : json) : bool :=
  match v with JString s => String.eqb s field | _ => false end.

(** [field in s] for two strings: [field] occurs in [s]. *)
Definition occurs_in (field s : string) : bool :=
  match String.index 0 field s with Some _ => true | None => false end.

(** [field in data]: a key of a dict, an element of a list, a part of a
    string; [None], a boolean and a number are not iterable. *)
Definition has_field (data : json) (field : string) : bool + check_error :=
  match data with
  | JObject o => inl (Dict.contains o field)
  | JArray l => inl (existsb (is_string field) l)
  | JString s => inl (occurs_in field s)
  | JNull | JBool _ | JNumber _ => inr TypeError
  end.

(** [data[field]] for a string [field]: only a dict takes it. *)
Definition subscript (data : json) (field : string) : json + check_error :=
  match data with
  | JObject o =>
      match Dict.get o field with
      | Some v => inl v
      | None => inr (MissingKey field)
      end
  | _ => inr TypeError
  end.

(** [field not in data or not data[field]] *)
Definition absent_or_empty (data : json) (field : string) : bool + check_error :=
  match has_field data field with
  | inr e => inr e
  | inl false => inl true
  | inl true =>
      match subscript data field with
      | inr e => inr e
      | inl v => inl (negb (truthy v))
      end
  end.

(** Line 94: the comprehension, field by field; the first exception ends
    it. *)
Fixpoint missing_among (data : json) (fields : list string)
  : list string + check_error :=
  match fields with
  | [] => inl []
  | field :: rest =>
      match absent_or_empty data field with
      | inr e => inr e
      | inl b =>
          match missing_among data rest with
          | inr e => inr e
          | inl missing => inl (if b then field :: missing else missing)
          end
      end
  end.

Definition missing_fields (data : json) : list string + check_error :=
  missing_among data required_fields.

(** Lines 93-104 inside the [try]: the answer that rejects the body
    (message and status), or [None] when the body goes on to line 107. *)
Definition add_expense_guard (data : json)
  : option (string * nat) + check_error :=
  match missing_fields data with
  | inr e => inr e
  | inl ((_ :: _) as missing) =>
      inl (Some (("Missing or empty required fields: "
                  ++ String.concat ", " missing)%string, 400%nat))
  | inl [] =>
      match subscript data "items" with
      | inr e => inr e
      | inl items =>
          if negb (is_list_of is_dict items) then
            inl (Some ("Items must be a list of dictionaries"%string, 400%nat))
          else
            match subscript data "consumedBy" with
            | inr e => inr e
            | inl consumedBy =>
                if negb (is_list_of is_str consumedBy) then
                  inl (Some ("ConsumedBy must be a list of roommate IDs"%string,
                             400%nat))
                else inl None
            end
      end
  end.

(** The answer of line 138. *)
Definition server_error : string * nat :=
  ("An error occurred while adding the expense"%string, 500%nat).

(** The same under the handlers of lines 132-138: neither exception of the
    checks is a [DoesNotExist] or a [ValueError], so either is a 500. *)
Definition add_expense_checks (data : json) : option (string * nat) :=
  match add_expense_guard data with
  | inl r => r
  | inr _ => Some server_error
  end.

(** What line 94 finds for one field of an object. *)
Definition lacks (o : dict json) (field : string) : bool :=
  match Dict.get o field with
  | None => true
  | Some v => negb (truthy v)
  end.

(** A body the checks let through. *)
Definition well_formed_expense (data : json) : Prop :=
  exists o,
    data = JObject o /\
    (exists v, Dict.get o "date" = Some v /\ truthy v = true) /\
    (exists v, Dict.get o "mealType" = Some v /\ truthy v = true) /\
    (exists v, Dict.get o "purchasedBy" = Some v /\ truthy v = true) /\
    (exists l, Dict.get o "items" = Some (JArray l) /\ l <> [] /\
               Forall (fun v => is_dict v = true) l) /\
    (exists l, Dict.get o "consumedBy" = Some (JArray l) /\ l <> [] /\
               Forall (fun v => is_str v = true) l).

(** ** [add_roommate] and [login] (lines 48-80) *)

Module Account.
(** A [Roommate] document with all its fields. *)
Record t : Type := {
  id : string;
  name : string;
  email : string;
  password : string;
  phone : string
}.
End Account.

(** The documents [Roommate.objects.get(name=..., password=...)] looks at. *)
Definition matching (db : list Account.t) (name password : string)
  : list Account.t :=
  filter (fun a => String.eqb (Account.name a) name
                   && String.eqb (Account.password a) password) db.

(** What [login] does when both [uname] and [upass] are strings: the 200
    answer with the name and the id, the 401 answer of [DoesNotExist], or
    the [MultipleObjectsReturned] that [get] raises and nothing catches. *)
Inductive login_answer : Type :=
| LoginSuccessful (name userId : string)
| InvalidNameOrPassword
| MultipleObjectsReturned.

(** Lines 65-80. *)
Definition login (db : list Account.t) (name password : string) : login_answer :=
  match matching db name password with
  | [] => InvalidNameOrPassword
  | [roommate] => LoginSuccessful (Account.name roommate) (Account.id roommate)
  | _ :: _ :: _ => MultipleObjectsReturned
  end.

(** Lines 53-57: the collection after [roommate.save()], [new_id] being the
    id the document gets. *)
Definition add_roommate (new_id : string) (db : list Account.t)
    (uname uemail upass uphone : string) : list Account.t :=
  (db ++ [{| Account.id := new_id; Account.name := uname;
             Account.email := uemail; Account.password := upass;
             Account.phone := uphone |}])%list.

(** ** More samples *)

(** A collection with the shared meal on day 739001 (a Tuesday). *)
Definition one_meal_db : list Stored.t :=
  [{| Stored.date := 739001%Z; Stored.meal_type := "lunch";
      Stored.fields := shared_meal |}].

(** ** What the loops add up, in the order they add it *)

(** The costs of the items named [n] of an expense, in item order: what
    lines 222-226 add to [items[n]] for one consumer. *)
Definition costs_named (n : string) (its : list Item.t) : list Q :=
  map Item.cost (filter (fun it => String.eqb (Item.item it) n) its).

(** For every expense in turn and every listing of [k] among its consumers
    in turn: the costs of its items named [n] (lines 222-226), its total
    (line 228), and its share (lines 184 and 220). *)
Definition costs_charged (k n : string) (expenses : list Expense.t) : list Q :=
  flat_map
    (fun e =>
       flat_map
         (fun c => if String.eqb (Roommate.id c) k
                   then costs_named n (Expense.items e) else [])
         (Expense.consumed_by e))
    expenses.

Definition totals_charged (k : string) (expenses : list Expense.t) : list Q :=
  flat_map
    (fun e =>
       flat_map
         (fun c => if String.eqb (Roommate.id c) k
                   then [sum_cost (Expense.items e)] else [])
         (Expense.consumed_by e))
    expenses.

Definition shares_charged (k : string) (expenses : list Expense.t) : list Q :=
  flat_map
    (fun e =>
       flat_map
         (fun c => if String.eqb (Roommate.id c) k then [share_of e] else [])
         (Expense.consumed_by e))
    expenses.

(** [x = 0; for c in l: x += c]: the additions of the program, one by one
    and in its order. *)
Definition running_sum (l : list Q) : Q := fold_left Qplus l 0.

(** [report[k]['items'][n]], zero without a record or an entry. *)
Definition item_total_of (rep : dict Report.t) (k n : string) : Q :=
  match Dict.get rep k with
  | Some r => Report.items r @ n
  | None => 0
  end.

(** * Properties *)

(** ** The error monad *)

Lemma bind_Ok_inv {A B : Type} (c : result A) (k : A -> result B) (b : B) :
  bind c k = Ok b -> exists a, c = Ok a /\ k a = Ok b.
Proof.
  destruct c as [a|e]; simpl; intros H.
  - exists a. split; [reflexivity | exact H].
  - discriminate H.
Qed.

(** An invariant of the body, on the elements of the list, is an invariant
    of the loop. *)
Lemma foldM_invariant {A B : Type} (P : A -> Prop) (f : A -> B -> result A)
    (l : list B) :
  (forall a x a', In x l -> P a -> f a x = Ok a' -> P a') ->
  forall a a', P a -> foldM f l a = Ok a' -> P a'.
Proof.
  induction l as [|x l IH]; simpl; intros Hstep a a' Ha H.
  - injection H as <-. exact Ha.
  - apply bind_Ok_inv in H. destruct H as [a1 [H1 H2]].
    apply (IH (fun a0 x0 a0' Hin => Hstep a0 x0 a0' (or_intror Hin)) a1 a').
    + apply (Hstep a x a1); [now left | exact Ha | exact H1].
    + exact H2.
Qed.

(** A body that cannot raise under the invariant makes a loop that cannot. *)
Lemma foldM_total {A B : Type} (P : A -> Prop) (f : A -> B -> result A) :
  (forall a x, P a -> exists a', f a x = Ok a' /\ P a') ->
  forall l a, P a -> exists a', foldM f l a = Ok a' /\ P a'.
Proof.
  intros Hstep l. induction l as [|x l IH]; simpl; intros a Ha.
  - exists a. split; [reflexivity | exact Ha].
  - destruct (Hstep a x Ha) as [a1 [H1 P1]]. rewrite H1. simpl.
    apply IH. exact P1.
Qed.

(** ** Dictionaries *)

Section DictFacts.
Context {V : Type}.
Implicit Types (d : dict V) (k : string) (v : V).

Lemma get_set_same d k v : Dict.get (Dict.set d k v) k = Some v.
Proof.
  induction d as [|[k' v'] d IH]; simpl.
  - rewrite String.eqb_refl. reflexivity.
  - destruct (String.eqb k' k) eqn:E; simpl; rewrite E; [reflexivity | exact IH].
Qed.

Lemma get_set_other d k k' v :
  k <> k' -> Dict.get (Dict.set d k v) k' = Dict.get d k'.
Proof.
  intros Hne. induction d as [|[k0 v0] d IH]; simpl.
  - apply String.eqb_neq in Hne. rewrite Hne. reflexivity.
  - destruct (String.eqb k0 k) eqn:E; simpl.
    + apply String.eqb_eq in E. subst k0.
      apply String.eqb_neq in Hne. rewrite Hne. reflexivity.
    + rewrite IH. reflexivity.
Qed.

Lemma get_in_keys d k : Dict.get d k <> None <-> In k (Dict.keys d).
Proof.
  induction d as [|[k' v'] d IH]; simpl.
  - split; [intros H; now elim H | intros []].
  - destruct (String.eqb_spec k' k) as [->|Hne].
    + split; [intros _; now left | intros _; discriminate].
    + rewrite IH. split; [intros H; now right | intros [H|H]; [contradiction | exact H]].
Qed.

Lemma get_None_keys d k : Dict.get d k = None <-> ~ In k (Dict.keys d).
Proof.
  rewrite <- get_in_keys. destruct (Dict.get d k); split; intros H.
  - discriminate H.
  - elim H. discriminate.
  - intros H'. now apply H'.
  - reflexivity.
Qed.

Lemma in_keys_get d k : In k (Dict.keys d) -> exists v, Dict.get d k = Some v.
Proof.
  intros H. apply get_in_keys in H.
  destruct (Dict.get d k) as [v|]; [now exists v | now elim H].
Qed.

Lemma contains_true d k : Dict.contains d k = true <-> In k (Dict.keys d).
Proof.
  unfold Dict.contains. rewrite <- get_in_keys.
  destruct (Dict.get d k); split; intros H; try discriminate; try reflexivity.
  now elim H.
Qed.

Lemma keys_set_present d k v :
  In k (Dict.keys d) -> Dict.keys (Dict.set d k v) = Dict.keys d.
Proof.
  induction d as [|[k' v'] d IH]; simpl; intros H.
  - destruct H.
  - destruct (String.eqb_spec k' k) as [->|Hne]; simpl.
    + reflexivity.
    + f_equal. apply IH. destruct H as [H|H]; [contradiction | exact H].
Qed.

Lemma keys_set_absent d k v :
  ~ In k (Dict.keys d) -> Dict.keys (Dict.set d k v) = (Dict.keys d ++ [k])%list.
Proof.
  induction d as [|[k' v'] d IH]; simpl; intros H.
  - reflexivity.
  - destruct (String.eqb_spec k' k) as [->|Hne]; simpl.
    + elim H. now left.
    + f_equal. apply IH. intros H'. apply H. now right.
Qed.

Lemma in_keys_set d k k' v :
  In k' (Dict.keys (Dict.set d k v)) <-> k' = k \/ In k' (Dict.keys d).
Proof.
  rewrite <- !get_in_keys.
  destruct (string_dec k k') as [->|Hne].
  - rewrite get_set_same. split; [intros _; now left | intros _; discriminate].
  - rewrite get_set_other by exact Hne.
    split; [intros H; now right | intros [H|H]; [congruence | exact H]].
Qed.

Lemma NoDup_keys_set d k v :
  NoDup (Dict.keys d) -> NoDup (Dict.keys (Dict.set d k v)).
Proof.
  intros H. destruct (in_dec string_dec k (Dict.keys d)) as [Hin|Hnin].
  - rewrite keys_set_present by exact Hin. exact H.
  - rewrite keys_set_absent by exact Hnin.
    apply NoDup_app; [exact H | repeat constructor; intros [] | ].
    intros x Hx [<-|[]]. contradiction.
Qed.

Lemma length_keys d : List.length (Dict.keys d) = List.length d.
Proof. apply length_map. Qed.

(** Values: a property of every value survives storing a value that has it. *)
Lemma Forall_values_set (P : V -> Prop) d k v :
  Forall P (Dict.values d) -> P v -> Forall P (Dict.values (Dict.set d k v)).
Proof.
  intros Hd Hv. induction d as [|[k' v'] d IH]; simpl.
  - constructor; [exact Hv | constructor].
  - inversion Hd as [|? ? Hv' Hd']; subst.
    destruct (String.eqb k' k); simpl; constructor; auto.
Qed.

Lemma Forall_values_get (P : V -> Prop) d k v :
  Forall P (Dict.values d) -> Dict.get d k = Some v -> P v.
Proof.
  intros Hd. induction d as [|[k' v'] d IH]; simpl; intros H.
  - discriminate H.
  - inversion Hd as [|? ? Hv' Hd']; subst.
    destruct (String.eqb k' k).
    + injection H as <-. exact Hv'.
    + apply IH; assumption.
Qed.
End DictFacts.

(** [if k not in d: d[k] = v]: afterwards the key is bound, to its former
    value if it had one and to [v] otherwise. *)
Lemma setdefault_get {V : Type} (d : dict V) (k : string) (v : V) :
  exists x,
    Dict.get (if Dict.contains d k then d else Dict.set d k v) k = Some x /\
    x = Dict.get_default d k v.
Proof.
  unfold Dict.contains, Dict.get_default.
  destruct (Dict.get d k) as [x|] eqn:E.
  - exists x. split; [exact E | reflexivity].
  - exists v. split; [apply get_set_same | reflexivity].
Qed.

(** ** Sums over a dict of numbers *)

Lemma Qsum_app (l1 l2 : list Q) : Qsum (l1 ++ l2) == Qsum l1 + Qsum l2.
Proof.
  induction l1 as [|x l1 IH]; simpl.
  - ring.
  - rewrite IH. ring.
Qed.

Lemma Qsum_set (d : dict Q) (k : string) (v : Q) :
  Qsum (Dict.values (Dict.set d k v))
  == Qsum (Dict.values d) - Dict.get_default d k 0 + v.
Proof.
  unfold Dict.get_default.
  induction d as [|[k' v'] d IH]; simpl.
  - ring.
  - destruct (String.eqb k' k); simpl.
    + ring.
    + rewrite IH. ring.
Qed.

Lemma sum_cost_from (its : list Item.t) (a : Q) :
  fold_left (fun acc it => acc + Item.cost it) its a == a + sum_cost its.
Proof.
  unfold sum_cost. revert a.
  induction its as [|it its IH]; simpl; intros a.
  - ring.
  - rewrite IH. rewrite (IH (0 + Item.cost it)). ring.
Qed.

Lemma sum_cost_cons (it : Item.t) (its : list Item.t) :
  sum_cost (it :: its) == Item.cost it + sum_cost its.
Proof.
  unfold sum_cost at 1. simpl. rewrite sum_cost_from. ring.
Qed.

(** ** Aggregation: the item counter and the item totals *)

Lemma counted_length (r : Report.t) :
  NoDup (Dict.keys (Report.items r)) ->
  distinct_names r = List.length (Report.items r).
Proof.
  intros H. unfold distinct_names.
  rewrite nodup_fixed_point by exact H. apply length_keys.
Qed.

Lemma counted_fresh (nm : string) : counted (Report.fresh nm).
Proof. split; [constructor | reflexivity]. Qed.

(** What one item does to a record (lines 223-226). *)
Lemma add_item_spec (r : Report.t) (it : Item.t) :
  exists r',
    add_item r it = Ok r' /\
    Report.name r' = Report.name r /\
    Report.total_amount r' = Report.total_amount r /\
    Report.owed_by r' = Report.owed_by r /\
    Report.owes_to r' = Report.owes_to r /\
    Qsum (Dict.values (Report.items r'))
      == Qsum (Dict.values (Report.items r)) + Item.cost it /\
    (counted r -> counted r').
Proof.
  unfold add_item.
  destruct (Dict.contains (Report.items r) (Item.item it)) eqn:C.
  - assert (Hin : In (Item.item it) (Dict.keys (Report.items r)))
      by (apply contains_true; exact C).
    destruct (in_keys_get _ _ Hin) as [old Hold].
    unfold Dict.getitem. rewrite Hold. simpl.
    eexists. split; [reflexivity|]. simpl.
    split; [reflexivity|]. split; [reflexivity|].
    split; [reflexivity|]. split; [reflexivity|]. split.
    + rewrite Qsum_set. unfold Dict.get_default. rewrite Hold. ring.
    + intros [Hnd Hc]. split.
      * apply NoDup_keys_set. exact Hnd.
      * simpl. rewrite Hc. unfold distinct_names. simpl.
        rewrite keys_set_present by exact Hin. reflexivity.
  - assert (Hnin : ~ In (Item.item it) (Dict.keys (Report.items r))).
    { intros Hin. apply contains_true in Hin. congruence. }
    simpl. unfold Dict.getitem. rewrite get_set_same. simpl.
    eexists. split; [reflexivity|]. simpl.
    split; [reflexivity|]. split; [reflexivity|].
    split; [reflexivity|]. split; [reflexivity|]. split.
    + rewrite !Qsum_set. unfold Dict.get_default. rewrite get_set_same.
      apply get_None_keys in Hnin. rewrite Hnin. ring.
    + intros [Hnd Hc].
      assert (Hnd' : NoDup (Dict.keys (Dict.set (Dict.set (Report.items r)
                        (Item.item it) 0) (Item.item it) (0 + Item.cost it))))
        by (apply NoDup_keys_set, NoDup_keys_set; exact Hnd).
      split; [exact Hnd'|]. simpl. rewrite Hc.
      rewrite !counted_length by (simpl; assumption). simpl.
      rewrite <- !length_keys.
      rewrite keys_set_present by (apply in_keys_set; now left).
      rewrite keys_set_absent by exact Hnin.
      rewrite length_app. simpl. lia.
Qed.

(** The item loop of one consumer (lines 222-226). *)
Lemma add_items_spec (its : list Item.t) (r : Report.t) :
  exists r',
    foldM add_item its r = Ok r' /\
    Report.name r' = Report.name r /\
    Report.total_amount r' = Report.total_amount r /\
    Report.owed_by r' = Report.owed_by r /\
    Report.owes_to r' = Report.owes_to r /\
    Qsum (Dict.values (Report.items r'))
      == Qsum (Dict.values (Report.items r)) + sum_cost its /\
    (counted r -> counted r').
Proof.
  revert r. induction its as [|it its IH]; intros r; simpl.
  - exists r. split; [reflexivity|].
    split; [reflexivity|]. split; [reflexivity|].
    split; [reflexivity|]. split; [reflexivity|]. split.
    + unfold sum_cost. simpl. ring.
    + auto.
  - destruct (add_item_spec r it) as [r1 [H1 [Hn [Ht [Hb [Ho [Hs Hc]]]]]]].
    rewrite H1. simpl.
    destruct (IH r1) as [r2 [H2 [Hn2 [Ht2 [Hb2 [Ho2 [Hs2 Hc2]]]]]]].
    exists r2. split; [exact H2|].
    split; [congruence|]. split; [congruence|].
    split; [congruence|]. split; [congruence|]. split.
    + rewrite Hs2, Hs, sum_cost_cons. ring.
    + auto.
Qed.

(** A property of records that holds of a fresh record and survives one
    consumer step holds of every record of the report, whatever the
    expenses; and on the expenses of the embedding the aggregation loop
    does not raise. *)
Section ReportInvariant.
Variable Pr : Report.t -> Prop.
Hypothesis Pr_fresh : forall nm, Pr (Report.fresh nm).
Hypothesis Pr_consume :
  forall its r r1,
    Pr r -> foldM add_item its r = Ok r1 -> Pr (add_total r1 (sum_cost its)).

Lemma consume_keeps (expense : Expense.t) (st : agg) (roommate : Roommate.t) :
  Expense.consumed_by expense <> [] ->
  report_all Pr st ->
  exists st', consume expense st roommate = Ok st' /\ report_all Pr st'.
Proof.
  intros Hne Hall. unfold consume.
  destruct (setdefault_get (consumption st) (Roommate.id roommate) 0)
    as [c [Hc _]].
  unfold Dict.getitem at 1. rewrite Hc. simpl.
  destruct (Expense.consumed_by expense) as [|r0 rs] eqn:Ecs; [now elim Hne|].
  simpl List.length. unfold pydiv. simpl bind.
  destruct (setdefault_get (report st) (Roommate.id roommate)
              (Report.fresh (Roommate.name roommate))) as [r [Hr Hr']].
  unfold Dict.getitem at 1. rewrite Hr. simpl.
  destruct (add_items_spec (Expense.items expense) r) as [r1 [H1 _]].
  rewrite H1. simpl.
  eexists. split; [reflexivity|].
  unfold report_all. simpl.
  assert (Pr_r : Pr r).
  { subst r. unfold Dict.get_default.
    destruct (Dict.get (report st) (Roommate.id roommate)) as [x|] eqn:E.
    - eapply Forall_values_get; eassumption.
    - apply Pr_fresh. }
  apply Forall_values_set.
  - destruct (Dict.contains (report st) (Roommate.id roommate)).
    + exact Hall.
    + apply Forall_values_set; [exact Hall | apply Pr_fresh].
  - eapply Pr_consume; eassumption.
Qed.

Lemma process_expense_keeps (st : agg) (expense : Expense.t) :
  report_all Pr st ->
  exists st', process_expense st expense = Ok st' /\ report_all Pr st'.
Proof.
  intros Hall. unfold process_expense.
  destruct (setdefault_get (spending st)
              (Roommate.id (Expense.purchased_by expense)) 0) as [s [Hs _]].
  unfold Dict.getitem. rewrite Hs. simpl.
  destruct (Expense.consumed_by expense) as [|r0 rs] eqn:Ecs.
  - simpl. eexists. split; [reflexivity | exact Hall].
  - rewrite <- Ecs. apply foldM_total with (P := report_all Pr).
    + intros a x Ha. apply consume_keeps; [rewrite Ecs; discriminate | exact Ha].
    + exact Hall.
Qed.

Lemma aggregate_keeps (expenses : list Expense.t) :
  exists st, aggregate expenses = Ok st /\ report_all Pr st.
Proof.
  unfold aggregate. apply foldM_total with (P := report_all Pr).
  - intros a x Ha. apply process_expense_keeps. exact Ha.
  - constructor.
Qed.
End ReportInvariant.

(** On the expenses of the embedding (references that resolve, items with
    a cost) the aggregation loop does not raise. *)
Lemma aggregate_total (expenses : list Expense.t) :
  exists st, aggregate expenses = Ok st.
Proof.
  destruct (aggregate_keeps (fun _ => True)) with (expenses := expenses)
    as [st [H _]]; auto.
  exists st. exact H.
Qed.

Lemma counted_consume (its : list Item.t) (r r1 : Report.t) :
  counted r -> foldM add_item its r = Ok r1 -> counted (add_total r1 (sum_cost its)).
Proof.
  intros Hr H.
  destruct (add_items_spec its r) as [r' [H' [_ [_ [_ [_ [_ Hc]]]]]]].
  rewrite H in H'. injection H' as <-.
  exact (Hc Hr).
Qed.

Lemma items_total_consume (its : list Item.t) (r r1 : Report.t) :
  items_total r -> foldM add_item its r = Ok r1 ->
  items_total (add_total r1 (sum_cost its)).
Proof.
  unfold items_total. intros Hr H.
  destruct (add_items_spec its r) as [r' [H' [_ [Ht [_ [_ [Hs _]]]]]]].
  rewrite H in H'. injection H' as <-.
  simpl. rewrite Hs, Ht, Hr. reflexivity.
Qed.

(** C10.  In the weekly report, [total_items] of every person record equals
    the number of distinct item names of the record's [items] mapping: this
    holds of the report after any sequence of expenses (the aggregation
    never raises), and every expense-processing step preserves it. *)
Theorem total_items_counts_distinct_names :
  (forall expenses,
      exists st, aggregate expenses = Ok st /\
        forall roommate_id r,
          Dict.get (report st) roommate_id = Some r ->
          Report.total_items r = distinct_names r) /\
  (forall st expense,
      Forall counted (Dict.values (report st)) ->
      exists st', process_expense st expense = Ok st' /\
        Forall counted (Dict.values (report st'))).
Proof.
  split.
  - intros expenses.
    destruct (aggregate_keeps counted counted_fresh counted_consume expenses)
      as [st [H Hall]].
    exists st. split; [exact H|].
    intros roommate_id r Hr.
    apply (Forall_values_get counted _ _ _ Hall Hr).
  - intros st expense Hall.
    apply (process_expense_keeps counted counted_fresh counted_consume st expense Hall).
Qed.

(** ** [split_expense] *)

Lemma roommate_expenses_from_keys (roster : list Roommate.t) (d : dict Split.entry)
    (k : string) :
  In k (Dict.keys
          (fold_left
             (fun d roommate =>
                Dict.set d (Roommate.id roommate)
                  {| Split.name := Roommate.name roommate; Split.amount := 0 |})
             roster d))
  <-> In k (Dict.keys d) \/ In k (map Roommate.id roster).
Proof.
  revert d. induction roster as [|p roster IH]; intros d; simpl.
  - tauto.
  - rewrite IH, in_keys_set. intuition congruence.
Qed.

Lemma roommate_expenses_from_zero (roster : list Roommate.t) (d : dict Split.entry) :
  Forall (fun e => Split.amount e = 0) (Dict.values d) ->
  Forall (fun e => Split.amount e = 0)
    (Dict.values
       (fold_left
          (fun d roommate =>
             Dict.set d (Roommate.id roommate)
               {| Split.name := Roommate.name roommate; Split.amount := 0 |})
          roster d)).
Proof.
  revert d. induction roster as [|p roster IH]; intros d Hd; simpl.
  - exact Hd.
  - apply IH. apply Forall_values_set; [exact Hd | reflexivity].
Qed.

Lemma roommate_expenses_from_NoDup (roster : list Roommate.t) (d : dict Split.entry) :
  NoDup (Dict.keys d) ->
  NoDup (Dict.keys
           (fold_left
              (fun d roommate =>
                 Dict.set d (Roommate.id roommate)
                   {| Split.name := Roommate.name roommate; Split.amount := 0 |})
              roster d)).
Proof.
  revert d. induction roster as [|p roster IH]; intros d Hd; simpl.
  - exact Hd.
  - apply IH. apply NoDup_keys_set. exact Hd.
Qed.

(** Line 184 keeps the keys and touches the consumer's entry only. *)
Lemma add_split_spec (x : Q) (d d' : dict Split.entry) (roommate : Roommate.t) :
  add_split x d roommate = Ok d' ->
  Dict.keys d' = Dict.keys d /\
  forall k, k <> Roommate.id roommate -> Dict.get d' k = Dict.get d k.
Proof.
  unfold add_split, Dict.getitem. intros H.
  destruct (Dict.get d (Roommate.id roommate)) as [e|] eqn:E; simpl in H;
    [|discriminate H].
  injection H as <-. split.
  - apply keys_set_present. apply get_in_keys. rewrite E. discriminate.
  - intros k Hk. apply get_set_other. congruence.
Qed.

Lemma add_split_ok (x : Q) (d : dict Split.entry) (roommate : Roommate.t) :
  In (Roommate.id roommate) (Dict.keys d) ->
  exists d', add_split x d roommate = Ok d'.
Proof.
  intros Hin. destruct (in_keys_get _ _ Hin) as [e He].
  unfold add_split, Dict.getitem. rewrite He. simpl. eexists. reflexivity.
Qed.

Lemma add_splits_ok (x : Q) (l : list Roommate.t) (d : dict Split.entry) :
  (forall c, In c l -> In (Roommate.id c) (Dict.keys d)) ->
  exists d', foldM (add_split x) l d = Ok d' /\ Dict.keys d' = Dict.keys d.
Proof.
  revert d. induction l as [|c l IH]; intros d Hin; simpl.
  - exists d. split; reflexivity.
  - destruct (add_split_ok x d c) as [d1 H1]; [apply Hin; now left|].
    rewrite H1. simpl.
    destruct (add_split_spec _ _ _ _ H1) as [Hk _].
    destruct (IH d1) as [d2 [H2 Hk2]].
    + intros c' Hc'. rewrite Hk. apply Hin. now right.
    + exists d2. split; [exact H2 | congruence].
Qed.

(** Lines 180-184 on an expense with consumers, all of them in the dict. *)
Lemma split_one_ok (d : dict Split.entry) (expense : Expense.t) :
  Expense.consumed_by expense <> [] ->
  (forall c, In c (Expense.consumed_by expense) -> In (Roommate.id c) (Dict.keys d)) ->
  exists d', split_one d expense = Ok d' /\ Dict.keys d' = Dict.keys d.
Proof.
  intros Hne Hin. unfold split_one.
  destruct (List.length (Expense.consumed_by expense)) as [|n] eqn:El.
  - apply length_zero_iff_nil in El. contradiction.
  - unfold pydiv. simpl bind. apply add_splits_ok. exact Hin.
Qed.

(** Lines 180-184: the keys stay, and so does the entry of everyone who is
    not a consumer of the expense. *)
Lemma split_one_spec (d d' : dict Split.entry) (expense : Expense.t) :
  split_one d expense = Ok d' ->
  Dict.keys d' = Dict.keys d /\
  forall k, ~ In k (map Roommate.id (Expense.consumed_by expense)) ->
            Dict.get d' k = Dict.get d k.
Proof.
  unfold split_one. intros H.
  apply bind_Ok_inv in H. destruct H as [x [_ H]].
  revert d d' H. induction (Expense.consumed_by expense) as [|c l IH];
    simpl; intros d d' H.
  - injection H as <-. split; reflexivity.
  - apply bind_Ok_inv in H. destruct H as [d1 [H1 H2]].
    destruct (add_split_spec _ _ _ _ H1) as [Hk Hg].
    destruct (IH _ _ H2) as [Hk2 Hg2].
    split; [congruence|].
    intros k Hnin. rewrite Hg2 by tauto. apply Hg. intros ->. tauto.
Qed.

(** C9.  Whenever [split_expense] returns its mapping, the mapping has
    exactly one entry for every person of the roster, and a person who is in
    no expense's consumer group has the amount zero. *)
Theorem split_expense_covers_roster
    (roster : list Roommate.t) (expenses : list Expense.t)
    (roommate_expenses : dict Split.entry) :
  split_expense roster expenses = Ok roommate_expenses ->
  forall p, In p roster ->
    count_occ string_dec (Dict.keys roommate_expenses) (Roommate.id p) = 1%nat /\
    exists e,
      Dict.get roommate_expenses (Roommate.id p) = Some e /\
      ((forall expense,
           In expense expenses ->
           ~ In (Roommate.id p) (map Roommate.id (Expense.consumed_by expense))) ->
       Split.amount e = 0).
Proof.
  unfold split_expense. intros H p Hp.
  set (init := roommate_expenses_init roster) in *.
  assert (Hkeys : Dict.keys roommate_expenses = Dict.keys init).
  { apply (foldM_invariant (fun d => Dict.keys d = Dict.keys init)
             split_one expenses) with (a := init); auto.
    intros a x a' _ Ha Hx. apply split_one_spec in Hx. destruct Hx. congruence. }
  assert (Hin : In (Roommate.id p) (Dict.keys init)).
  { apply roommate_expenses_from_keys. right. apply in_map. exact Hp. }
  split.
  - rewrite Hkeys. apply NoDup_count_occ'; [|exact Hin].
    apply roommate_expenses_from_NoDup. constructor.
  - destruct (in_keys_get roommate_expenses (Roommate.id p)) as [e He];
      [rewrite Hkeys; exact Hin|].
    exists e. split; [exact He|]. intros Hout.
    assert (Hsame : Dict.get roommate_expenses (Roommate.id p)
                    = Dict.get init (Roommate.id p)).
    { apply (foldM_invariant
               (fun d => Dict.get d (Roommate.id p) = Dict.get init (Roommate.id p))
               split_one expenses) with (a := init); auto.
      intros a x a' Hx Ha Hs. apply split_one_spec in Hs.
      destruct Hs as [_ Hg]. rewrite Hg; [exact Ha | apply Hout; exact Hx]. }
    rewrite He in Hsame. symmetry in Hsame.
    apply (Forall_values_get (fun e => Split.amount e = 0) init _ _
             (roommate_expenses_from_zero roster [] (Forall_nil _)) Hsame).
Qed.

(** The loop of [split_expense] returns when no consumer group is empty and
    every consumer has an entry. *)
Lemma split_loop_total (expenses : list Expense.t) (d : dict Split.entry) :
  (forall expense, In expense expenses -> Expense.consumed_by expense <> []) ->
  (forall expense c, In expense expenses -> In c (Expense.consumed_by expense) ->
                     In (Roommate.id c) (Dict.keys d)) ->
  exists d', foldM split_one expenses d = Ok d'.
Proof.
  revert d. induction expenses as [|e es IH]; intros d Hne Hin; simpl.
  - exists d. reflexivity.
  - destruct (split_one_ok d e) as [d1 [H1 Hk]].
    + apply Hne. now left.
    + intros c Hc. apply (Hin e c); [now left | exact Hc].
    + rewrite H1. simpl. apply IH.
      * intros e' He'. apply Hne. now right.
      * intros e' c He' Hc. rewrite Hk. apply (Hin e' c); [now right | exact Hc].
Qed.

(** [split_expense] returns when no consumer group is empty and every
    consumer is in the roster. *)
Lemma split_expense_returns (roster : list Roommate.t) (expenses : list Expense.t) :
  (forall expense, In expense expenses -> Expense.consumed_by expense <> []) ->
  (forall expense c,
      In expense expenses -> In c (Expense.consumed_by expense) ->
      In (Roommate.id c) (map Roommate.id roster)) ->
  exists roommate_expenses, split_expense roster expenses = Ok roommate_expenses.
Proof.
  intros Hne Hin. unfold split_expense. apply split_loop_total; [exact Hne|].
  intros expense c He Hc.
  apply roommate_expenses_from_keys. right. apply (Hin expense c He Hc).
Qed.

(** An empty consumer group stops the loop with [ZeroDivisionError] when
    the consumers before it are in the dict. *)
Lemma split_loop_empty_group (expenses : list Expense.t) (d : dict Split.entry) :
  (forall expense c, In expense expenses -> In c (Expense.consumed_by expense) ->
                     In (Roommate.id c) (Dict.keys d)) ->
  (exists expense, In expense expenses /\ Expense.consumed_by expense = []) ->
  foldM split_one expenses d = Raise ZeroDivisionError.
Proof.
  revert d. induction expenses as [|e es IH]; intros d Hin [e0 [He0 Hempty]].
  - destruct He0.
  - simpl. destruct (Expense.consumed_by e) as [|c cs] eqn:Ecs.
    + unfold split_one. rewrite Ecs. reflexivity.
    + destruct (split_one_ok d e) as [d1 [H1 Hk]].
      * rewrite Ecs. discriminate.
      * intros c' Hc'. apply (Hin e c'); [now left | exact Hc'].
      * rewrite H1. simpl. apply IH.
        -- intros e' c' He' Hc'. rewrite Hk. apply (Hin e' c'); [now right | exact Hc'].
        -- exists e0. split; [|exact Hempty].
           destruct He0 as [->|He0]; [congruence | exact He0].
Qed.

(** ** Settlement *)

Lemma replay_one_keys (b : dict Q) (t : transfer) :
  In (t_from t) (Dict.keys b) -> In (t_to t) (Dict.keys b) ->
  Dict.keys (replay_one b t) = Dict.keys b.
Proof.
  intros Hf Ht. unfold replay_one.
  rewrite keys_set_present; rewrite keys_set_present; auto.
Qed.

Lemma replay_one_sum (b : dict Q) (t : transfer) :
  Qsum (Dict.values (replay_one b t)) == Qsum (Dict.values b).
Proof.
  unfold replay_one. rewrite !Qsum_set. ring.
Qed.

Lemma replay_app (b : dict Q) (ts1 ts2 : list transfer) :
  replay b (ts1 ++ ts2) = replay (replay b ts1) ts2.
Proof. unfold replay. apply fold_left_app. Qed.

Lemma replay_sum (ts : list transfer) (b : dict Q) :
  Qsum (Dict.values (replay b ts)) == Qsum (Dict.values b).
Proof.
  revert b. induction ts as [|t ts IH]; intros b.
  - reflexivity.
  - change (replay b (t :: ts)) with (replay (replay_one b t) ts).
    rewrite (IH (replay_one b t)). apply replay_one_sum.
Qed.

(** Lines 241-250, when both persons have a balance and a record. *)
Lemma pay_spec (roommate_id other_id : string) (amount : Q) (st : settle_state) :
  covers (s_report st) (balances st) ->
  In roommate_id (Dict.keys (balances st)) ->
  In other_id (Dict.keys (balances st)) ->
  let t := {| t_from := other_id; t_to := roommate_id; t_amount := amount |} in
  exists st',
    pay roommate_id other_id amount st = Ok st' /\
    Dict.keys (s_report st') = Dict.keys (s_report st) /\
    balances st' = replay_one (balances st) t /\
    trace st' = (trace st ++ [t])%list.
Proof.
  intros Hcov Hr Ho t. unfold pay.
  destruct (in_keys_get _ _ (Hcov _ Hr)) as [creditor Hc].
  destruct (in_keys_get _ _ (Hcov _ Ho)) as [other Hoth].
  unfold Dict.getitem at 1. rewrite Hc. simpl.
  unfold Dict.getitem at 1. rewrite Hoth. simpl.
  set (report1 := Dict.set (s_report st) roommate_id _).
  assert (K1 : Dict.keys report1 = Dict.keys (s_report st))
    by (apply keys_set_present; apply Hcov; exact Hr).
  destruct (in_keys_get report1 other_id) as [other1 Ho1];
    [rewrite K1; apply Hcov; exact Ho|].
  destruct (in_keys_get report1 roommate_id) as [creditor1 Hc1];
    [rewrite K1; apply Hcov; exact Hr|].
  unfold Dict.getitem at 1. rewrite Ho1. simpl.
  unfold Dict.getitem at 1. rewrite Hc1. simpl.
  destruct (in_keys_get _ _ Hr) as [b Hb].
  unfold Dict.getitem at 1. rewrite Hb. simpl.
  set (balances1 := Dict.set (balances st) roommate_id (b - amount)).
  destruct (in_keys_get balances1 other_id) as [ob Hob].
  { unfold balances1. apply in_keys_set. now right. }
  unfold Dict.getitem at 1. rewrite Hob. simpl.
  eexists. split; [reflexivity|]. simpl. split; [|split].
  - rewrite keys_set_present; [exact K1|].
    rewrite K1. apply Hcov. exact Ho.
  - unfold replay_one, t. simpl. unfold Dict.get_default.
    rewrite Hb. fold balances1. rewrite Hob. reflexivity.
  - reflexivity.
Qed.

(** The inner loop cannot raise when every balance has a record; its
    transfers are those of [plan_with] and its balances their replay. *)
Lemma settle_with_spec (roommate_id : string) (balance : Q) (others : list string) :
  forall st,
    covers (s_report st) (balances st) ->
    In roommate_id (Dict.keys (balances st)) ->
    incl others (Dict.keys (balances st)) ->
    exists st',
      settle_with roommate_id balance others st = Ok st' /\
      Dict.keys (s_report st') = Dict.keys (s_report st) /\
      Dict.keys (balances st') = Dict.keys (balances st) /\
      trace st' = (trace st ++ plan_with roommate_id balance others (balances st))%list /\
      balances st' = replay (balances st)
                       (plan_with roommate_id balance others (balances st)).
Proof.
  induction others as [|other_id rest IH]; intros st Hcov Hr Hothers;
    cbn [settle_with plan_with].
  - exists st. rewrite app_nil_r. repeat split; reflexivity.
  - assert (Ho : In other_id (Dict.keys (balances st)))
      by (apply Hothers; now left).
    assert (Hrest : incl rest (Dict.keys (balances st)))
      by (intros k Hk; apply Hothers; now right).
    destruct (in_keys_get _ _ Ho) as [ob Hob].
    assert (Hgd : Dict.get_default (balances st) other_id 0 = ob)
      by (unfold Dict.get_default; rewrite Hob; reflexivity).
    rewrite Hgd. unfold Dict.getitem at 1. rewrite Hob. simpl bind.
    destruct (negb (String.eqb other_id roommate_id) && Qltb ob 0) eqn:G.
    + set (amount := pymin balance (- ob)).
      destruct (pay_spec roommate_id other_id amount st Hcov Hr Ho)
        as [st1 [H1 [K1 [B1 T1]]]].
      rewrite H1. simpl bind.
      assert (KB1 : Dict.keys (balances st1) = Dict.keys (balances st)).
      { rewrite B1. apply replay_one_keys; assumption. }
      destruct (in_keys_get (balances st1) roommate_id) as [b Hb];
        [rewrite KB1; exact Hr|].
      unfold Dict.getitem at 1. rewrite Hb. simpl bind.
      rewrite <- B1.
      assert (Hgb : Dict.get_default (balances st1) roommate_id 0 = b)
        by (unfold Dict.get_default; rewrite Hb; reflexivity).
      rewrite Hgb.
      destruct (Qeq_bool b 0).
      * exists st1. split; [reflexivity|]. split; [exact K1|].
        split; [exact KB1|]. split; [exact T1 | exact B1].
      * destruct (IH st1) as [st2 [H2 [K2 [KB2 [T2 B2]]]]].
        -- unfold covers. rewrite K1, KB1. exact Hcov.
        -- rewrite KB1. exact Hr.
        -- rewrite KB1. exact Hrest.
        -- exists st2. split; [exact H2|].
           split; [congruence|]. split; [congruence|]. split.
           ++ rewrite T2, T1, <- app_assoc. reflexivity.
           ++ rewrite B2. simpl. rewrite B1. reflexivity.
    + apply IH; assumption.
Qed.

(** The same for the outer loop. *)
Lemma settle_all_spec (ids : list string) :
  forall st,
    covers (s_report st) (balances st) ->
    incl ids (Dict.keys (balances st)) ->
    exists st',
      settle_all ids st = Ok st' /\
      Dict.keys (s_report st') = Dict.keys (s_report st) /\
      Dict.keys (balances st') = Dict.keys (balances st) /\
      trace st' = (trace st ++ plan_all ids (balances st))%list /\
      balances st' = replay (balances st) (plan_all ids (balances st)).
Proof.
  induction ids as [|roommate_id rest IH]; intros st Hcov Hids;
    cbn [settle_all plan_all].
  - exists st. rewrite app_nil_r. repeat split; reflexivity.
  - assert (Hr : In roommate_id (Dict.keys (balances st)))
      by (apply Hids; now left).
    assert (Hrest : incl rest (Dict.keys (balances st)))
      by (intros k Hk; apply Hids; now right).
    destruct (in_keys_get _ _ Hr) as [balance Hb].
    assert (Hgd : Dict.get_default (balances st) roommate_id 0 = balance)
      by (unfold Dict.get_default; rewrite Hb; reflexivity).
    rewrite Hgd. unfold Dict.getitem at 1. rewrite Hb. simpl bind.
    destruct (Qltb 0 balance).
    + destruct (settle_with_spec roommate_id balance (Dict.keys (balances st)) st
                  Hcov Hr (incl_refl _)) as [st1 [H1 [K1 [KB1 [T1 B1]]]]].
      rewrite H1. simpl bind.
      destruct (IH st1) as [st2 [H2 [K2 [KB2 [T2 B2]]]]].
      * unfold covers. rewrite K1, KB1. exact Hcov.
      * rewrite KB1. exact Hrest.
      * exists st2. split; [exact H2|].
        split; [congruence|]. split; [congruence|]. split.
        -- rewrite T2, T1, B1, <- app_assoc. reflexivity.
        -- rewrite B2, B1, replay_app. reflexivity.
    + apply IH; assumption.
Qed.

(** Settlement, when every person with a balance has a record. *)
Lemma settle_spec (st : settle_state) :
  covers (s_report st) (balances st) ->
  exists st',
    settle st = Ok st' /\
    Dict.keys (balances st') = Dict.keys (balances st) /\
    trace st' = (trace st ++ plan (balances st))%list /\
    balances st' = replay (balances st) (plan (balances st)).
Proof.
  intros Hcov. unfold settle, plan.
  destruct (settle_all_spec (Dict.keys (balances st)) st Hcov (incl_refl _))
    as [st' [H [_ [KB [T B]]]]].
  exists st'. repeat split; assumption.
Qed.

(** ** Settlement of a balanced map *)

Lemma val_set_same (b : dict Q) (k : string) (v : Q) : (Dict.set b k v) @ k = v.
Proof. unfold Dict.get_default. rewrite get_set_same. reflexivity. Qed.

Lemma val_set_other (b : dict Q) (k k' : string) (v : Q) :
  k <> k' -> (Dict.set b k v) @ k' = b @ k'.
Proof.
  intros H. unfold Dict.get_default. rewrite get_set_other by exact H. reflexivity.
Qed.

(** What a transfer does to the three kinds of persons. *)
Lemma val_replay_one (b : dict Q) (t : transfer) (k : string) :
  t_from t <> t_to t ->
  (replay_one b t) @ k =
    if String.eqb k (t_from t) then b @ k + t_amount t
    else if String.eqb k (t_to t) then b @ k - t_amount t
    else b @ k.
Proof.
  intros Hne. unfold replay_one.
  destruct (String.eqb_spec k (t_from t)) as [->|Hf].
  - rewrite val_set_same, val_set_other by congruence. reflexivity.
  - rewrite val_set_other by congruence.
    destruct (String.eqb_spec k (t_to t)) as [->|Ht].
    + apply val_set_same.
    + apply val_set_other. congruence.
Qed.

Lemma Qltb_true (x y : Q) : Qltb x y = true <-> x < y.
Proof.
  unfold Qltb. rewrite negb_true_iff, <- not_true_iff_false, Qle_bool_iff.
  split; [apply Qnot_le_lt | apply Qlt_not_le].
Qed.

Lemma Qltb_false (x y : Q) : Qltb x y = false <-> y <= x.
Proof.
  unfold Qltb. rewrite negb_false_iff. apply Qle_bool_iff.
Qed.

Lemma pymin_cases (a b : Q) :
  (b < a /\ pymin a b = b) \/ (a <= b /\ pymin a b = a).
Proof.
  unfold pymin. destruct (Qltb b a) eqn:E.
  - left. split; [apply Qltb_true; exact E | reflexivity].
  - right. split; [apply Qltb_false; exact E | reflexivity].
Qed.

(** The inner loop on the balances: its unfolding. *)
Lemma replay_plan_with_cons (rid : string) (balance : Q) (o : string)
    (rest : list string) (b : dict Q) :
  replay b (plan_with rid balance (o :: rest) b) =
    if negb (String.eqb o rid) && Qltb (b @ o) 0 then
      let t := {| t_from := o; t_to := rid;
                  t_amount := pymin balance (- (b @ o)) |} in
      if Qeq_bool ((replay_one b t) @ rid) 0 then replay_one b t
      else replay (replay_one b t) (plan_with rid balance rest (replay_one b t))
    else replay b (plan_with rid balance rest b).
Proof.
  cbn [plan_with].
  destruct (negb (String.eqb o rid) && Qltb (b @ o) 0); [|reflexivity].
  cbv zeta.
  destruct (Qeq_bool _ 0); reflexivity.
Qed.

(** One turn of a creditor whose balance is at most [balance]: nobody else
    changes sign, the creditor's balance does not grow, and if it stays
    positive then every person the loop went through is out of debt. *)
Lemma inner_loop_signs (rid : string) (balance : Q) (others : list string) :
  0 < balance ->
  forall b,
    b @ rid <= balance ->
    let b' := replay b (plan_with rid balance others b) in
    (forall k, k <> rid ->
        (b @ k <= 0 -> b' @ k <= 0) /\ (0 <= b @ k -> 0 <= b' @ k)) /\
    b' @ rid <= b @ rid /\
    (0 < b' @ rid -> forall k, In k others -> k <> rid -> 0 <= b' @ k).
Proof.
  intros Hbal. induction others as [|o rest IH]; intros b Hr.
  - cbn. split; [|split].
    + intros k _. split; auto.
    + apply Qle_refl.
    + intros _ k [].
  - cbv zeta. rewrite replay_plan_with_cons.
    destruct (negb (String.eqb o rid) && Qltb (b @ o) 0) eqn:G.
    + apply andb_true_iff in G. destruct G as [Gne Glt].
      apply negb_true_iff in Gne. apply String.eqb_neq in Gne.
      apply Qltb_true in Glt.
      cbv zeta.
      set (a := pymin balance (- (b @ o))).
      set (t := {| t_from := o; t_to := rid; t_amount := a |}).
      assert (Hval : forall k, (replay_one b t) @ k =
                 if String.eqb k o then b @ k + a
                 else if String.eqb k rid then b @ k - a else b @ k).
      { intros k. apply (val_replay_one b t k). exact Gne. }
      assert (Hrid : (replay_one b t) @ rid = b @ rid - a).
      { rewrite Hval. apply not_eq_sym in Gne. apply String.eqb_neq in Gne.
        rewrite Gne, String.eqb_refl. reflexivity. }
      assert (Ho : (replay_one b t) @ o = b @ o + a).
      { rewrite Hval, String.eqb_refl. reflexivity. }
      assert (Hk : forall k, k <> rid -> k <> o -> (replay_one b t) @ k = b @ k).
      { intros k H1 H2. rewrite Hval.
        apply String.eqb_neq in H1, H2. rewrite H1, H2. reflexivity. }
      assert (Ha : 0 < a /\ a <= - (b @ o) /\ a <= balance /\
                   (a < balance -> a = - (b @ o))).
      { unfold a. destruct (pymin_cases balance (- (b @ o))) as [[H1 H2]|[H1 H2]];
          rewrite H2.
        - split; [lra|]. split; [lra|]. split; [lra|]. intros _. reflexivity.
        - split; [lra|]. split; [lra|]. split; [lra|]. intros H. lra. }
      destruct Ha as [Ha0 [Hao [Hab Hfull]]].
      destruct (Qeq_bool ((replay_one b t) @ rid) 0) eqn:Z.
      * apply Qeq_bool_iff in Z. split; [|split].
        -- intros k Hkr. destruct (string_dec k o) as [->|Hko].
           ++ rewrite Ho. split; intros; lra.
           ++ rewrite Hk by assumption. split; auto.
        -- rewrite Hrid. lra.
        -- intros Hpos. rewrite Z in Hpos. lra.
      * destruct (IH (replay_one b t)) as [IH1 [IH2 IH3]]; [rewrite Hrid; lra|].
        split; [|split].
        -- intros k Hkr. destruct (IH1 k Hkr) as [I1 I2].
           destruct (string_dec k o) as [->|Hko].
           ++ rewrite Ho in I1, I2. split; intros; [apply I1 | apply I2]; lra.
           ++ rewrite Hk in I1, I2 by assumption. split; assumption.
        -- rewrite Hrid in IH2. lra.
        -- intros Hpos k [<-|Hin] Hkr.
           ++ apply (IH1 o Hkr). rewrite Ho.
              rewrite Hrid in IH2.
              assert (Hlt : a < balance) by lra.
              rewrite (Hfull Hlt). lra.
           ++ apply IH3; assumption.
    + destruct (IH b Hr) as [IH1 [IH2 IH3]].
      split; [exact IH1 | split; [exact IH2|]].
      intros Hpos k [<-|Hin] Hkr.
      * apply (IH1 o Hkr).
        apply andb_false_iff in G. destruct G as [G|G].
        -- apply negb_false_iff, String.eqb_eq in G. contradiction.
        -- apply Qltb_false in G. exact G.
      * apply IH3; assumption.
Qed.

Lemma plan_with_keys (rid : string) (balance : Q) (others : list string) :
  forall b,
    In rid (Dict.keys b) -> incl others (Dict.keys b) ->
    Dict.keys (replay b (plan_with rid balance others b)) = Dict.keys b.
Proof.
  induction others as [|o rest IH]; intros b Hr Hothers.
  - reflexivity.
  - assert (Ho : In o (Dict.keys b)) by (apply Hothers; now left).
    assert (Hrest : incl rest (Dict.keys b))
      by (intros k Hk; apply Hothers; now right).
    rewrite replay_plan_with_cons.
    destruct (negb (String.eqb o rid) && Qltb (b @ o) 0); [|apply IH; assumption].
    cbv zeta.
    set (t := {| t_from := o; t_to := rid;
                 t_amount := pymin balance (- (b @ o)) |}).
    assert (K : Dict.keys (replay_one b t) = Dict.keys b)
      by (apply replay_one_keys; assumption).
    destruct (Qeq_bool _ 0); [exact K|].
    rewrite IH; rewrite ?K; auto.
Qed.

(** With distinct keys, a property of the balance of every key is a
    property of every value. *)
Lemma Forall_values_of_keys (P : Q -> Prop) (b : dict Q) :
  NoDup (Dict.keys b) ->
  (forall k, In k (Dict.keys b) -> P (b @ k)) ->
  Forall P (Dict.values b).
Proof.
  induction b as [|[k0 v0] b IH]; simpl; intros Hnd H.
  - constructor.
  - inversion Hnd as [|? ? Hnin Hnd']; subst. constructor.
    + specialize (H k0 (or_introl eq_refl)).
      unfold Dict.get_default in H. simpl in H.
      rewrite String.eqb_refl in H. exact H.
    + apply IH; [exact Hnd'|]. intros k Hk.
      specialize (H k (or_intror Hk)).
      unfold Dict.get_default in *. simpl in H.
      destruct (String.eqb_spec k0 k) as [->|Hne]; [contradiction | exact H].
Qed.

Lemma value_of_key (b : dict Q) (k : string) :
  In k (Dict.keys b) -> In (b @ k) (Dict.values b).
Proof.
  induction b as [|[k0 v0] b IH]; simpl; intros H.
  - destruct H.
  - unfold Dict.get_default. simpl.
    destruct (String.eqb_spec k0 k) as [->|Hne].
    + now left.
    + right. apply IH. destruct H as [H|H]; [contradiction | exact H].
Qed.

Lemma Qsum_nonneg (l : list Q) : Forall (fun x => 0 <= x) l -> 0 <= Qsum l.
Proof.
  induction 1 as [|x l Hx _ IH]; simpl; lra.
Qed.

Lemma Qsum_pos (l : list Q) (x : Q) :
  Forall (fun x => 0 <= x) l -> In x l -> 0 < x -> 0 < Qsum l.
Proof.
  induction 1 as [|y l Hy Hl IH]; simpl; intros Hin Hx.
  - destruct Hin.
  - destruct Hin as [->|Hin].
    + pose proof (Qsum_nonneg l Hl). lra.
    + specialize (IH Hin Hx). lra.
Qed.

Lemma Qsum_nonpos_zero (l : list Q) :
  Forall (fun x => x <= 0) l -> Qsum l == 0 -> Forall (fun x => x == 0) l.
Proof.
  induction 1 as [|x l Hx Hl IH]; simpl; intros Hs.
  - constructor.
  - assert (Hle : Qsum l <= 0).
    { clear -Hl. induction Hl as [|y l Hy _ IH]; simpl; lra. }
    constructor; [lra | apply IH; lra].
Qed.

(** The outer loop on a balanced map: once the persons whose turn has passed
    are out of credit, everybody is out of credit at the end. *)
Lemma outer_loop_signs (ids : list string) :
  forall b,
    NoDup (Dict.keys b) ->
    Qsum (Dict.values b) == 0 ->
    incl ids (Dict.keys b) ->
    (forall k, In k (Dict.keys b) -> ~ In k ids -> b @ k <= 0) ->
    let b' := replay b (plan_all ids b) in
    Dict.keys b' = Dict.keys b /\
    forall k, In k (Dict.keys b) -> b' @ k <= 0.
Proof.
  induction ids as [|rid rest IH]; intros b Hnd Hsum Hids Hdone.
  - cbn. split; [reflexivity|]. intros k Hk. apply Hdone; [exact Hk | intros []].
  - assert (Hr : In rid (Dict.keys b)) by (apply Hids; now left).
    assert (Hrest : incl rest (Dict.keys b))
      by (intros k Hk; apply Hids; now right).
    cbv zeta. cbn [plan_all].
    destruct (Qltb 0 (b @ rid)) eqn:G.
    + apply Qltb_true in G. cbv zeta.
      set (ts := plan_with rid (b @ rid) (Dict.keys b) b).
      rewrite replay_app.
      assert (K : Dict.keys (replay b ts) = Dict.keys b)
        by (apply plan_with_keys; [exact Hr | apply incl_refl]).
      destruct (inner_loop_signs rid (b @ rid) (Dict.keys b) G b (Qle_refl _))
        as [I1 [I2 I3]]. fold ts in I1, I2, I3.
      assert (S1 : Qsum (Dict.values (replay b ts)) == 0)
        by (rewrite replay_sum; exact Hsum).
      assert (Hcleared : (replay b ts) @ rid <= 0).
      { destruct (Qlt_le_dec 0 ((replay b ts) @ rid)) as [Hpos|Hle]; [|exact Hle].
        exfalso.
        assert (Hall : Forall (fun x => 0 <= x) (Dict.values (replay b ts))).
        { apply Forall_values_of_keys; [rewrite K; exact Hnd|].
          intros k Hk. rewrite K in Hk.
          destruct (string_dec k rid) as [->|Hne]; [lra|].
          apply I3; assumption. }
        pose proof (Qsum_pos _ _ Hall
                      (value_of_key (replay b ts) rid ltac:(rewrite K; exact Hr))
                      Hpos).
        lra. }
      destruct (IH (replay b ts)) as [K2 H2].
      * rewrite K. exact Hnd.
      * exact S1.
      * rewrite K. exact Hrest.
      * intros k Hk Hnin. rewrite K in Hk.
        destruct (string_dec k rid) as [->|Hne]; [exact Hcleared|].
        apply (I1 k Hne). apply Hdone; [exact Hk|].
        intros [H|H]; [congruence | contradiction].
      * split; [congruence|]. intros k Hk. apply H2. rewrite K. exact Hk.
    + apply Qltb_false in G.
      apply IH; try assumption.
      intros k Hk Hnin.
      destruct (string_dec k rid) as [->|Hne]; [exact G|].
      apply Hdone; [exact Hk|].
      intros [H|H]; [congruence | contradiction].
Qed.

(** Settlement of a balanced map leaves every balance at zero (exact
    arithmetic), whatever the order of the persons. *)
Lemma settle_clears_balanced (st : settle_state) :
  covers (s_report st) (balances st) ->
  NoDup (Dict.keys (balances st)) ->
  Qsum (Dict.values (balances st)) == 0 ->
  exists st',
    settle st = Ok st' /\
    trace st' = (trace st ++ plan (balances st))%list /\
    balances st' = replay (balances st) (plan (balances st)) /\
    Forall (fun x => x == 0) (Dict.values (balances st')).
Proof.
  intros Hcov Hnd Hsum.
  destruct (settle_spec st Hcov) as [st' [H [K [T B]]]].
  exists st'. split; [exact H|]. split; [exact T|]. split; [exact B|].
  destruct (outer_loop_signs (Dict.keys (balances st)) (balances st)
              Hnd Hsum (incl_refl _)) as [_ Hle].
  { intros k Hk Hnin. contradiction. }
  fold (plan (balances st)) in Hle. rewrite <- B in Hle.
  apply Qsum_nonpos_zero.
  - apply Forall_values_of_keys; [rewrite K; exact Hnd|].
    intros k Hk. apply Hle. rewrite <- K. exact Hk.
  - rewrite B, replay_sum. exact Hsum.
Qed.

(** A purchaser who consumes nothing has no record in [report]: settling
    that person's credit raises. *)
Lemma settle_needs_consumer_record :
  weekly_run [bought "lunch" 6 ann [bob]; bought "snack" 1 bob [bob]]
    = Raise (KeyError "A").
Proof. vm_compute. reflexivity. Qed.

(** ** The sum of the weekly balances *)

Lemma Qsum_setdefault (d : dict Q) (k : string) :
  Qsum (Dict.values (if Dict.contains d k then d else Dict.set d k 0))
  == Qsum (Dict.values d).
Proof.
  unfold Dict.contains. destruct (Dict.get d k) eqn:E.
  - reflexivity.
  - rewrite Qsum_set. unfold Dict.get_default. rewrite E. ring.
Qed.

Lemma keys_setdefault {V : Type} (d : dict V) (k k' : string) (v : V) :
  In k' (Dict.keys (if Dict.contains d k then d else Dict.set d k v))
  <-> k' = k \/ In k' (Dict.keys d).
Proof.
  destruct (Dict.contains d k) eqn:E.
  - apply contains_true in E. split; [now right | intros [->|H]; assumption].
  - apply in_keys_set.
Qed.

Lemma NoDup_setdefault {V : Type} (d : dict V) (k : string) (v : V) :
  NoDup (Dict.keys d) ->
  NoDup (Dict.keys (if Dict.contains d k then d else Dict.set d k v)).
Proof.
  intros H. destruct (Dict.contains d k); [exact H | apply NoDup_keys_set; exact H].
Qed.

(** [d[k] += x] after [if k not in d: d[k] = 0]. *)
Lemma add_to_spec (d : dict Q) (k : string) (x : Q) :
  let d1 := if Dict.contains d k then d else Dict.set d k 0 in
  exists c,
    Dict.get d1 k = Some c /\
    Qsum (Dict.values (Dict.set d1 k (c + x))) == Qsum (Dict.values d) + x /\
    (forall k', In k' (Dict.keys (Dict.set d1 k (c + x)))
                <-> k' = k \/ In k' (Dict.keys d)) /\
    (NoDup (Dict.keys d) -> NoDup (Dict.keys (Dict.set d1 k (c + x)))).
Proof.
  intros d1. destruct (setdefault_get d k 0) as [c [Hc _]]. fold d1 in Hc.
  exists c. split; [exact Hc|]. split; [|split].
  - rewrite Qsum_set. unfold Dict.get_default. rewrite Hc.
    unfold d1. rewrite Qsum_setdefault. ring.
  - intros k'. rewrite in_keys_set. unfold d1. rewrite keys_setdefault. tauto.
  - intros H. apply NoDup_keys_set. apply NoDup_setdefault. exact H.
Qed.

(** Lines 218-220 for one consumer: what happens to [spending] and
    [consumption]. *)
Lemma consume_money (expense : Expense.t) (st st' : agg) (roommate : Roommate.t) :
  consume expense st roommate = Ok st' ->
  spending st' = spending st /\
  Qsum (Dict.values (consumption st'))
    == Qsum (Dict.values (consumption st))
       + sum_cost (Expense.items expense)
         / inject_Z (Z.of_nat (List.length (Expense.consumed_by expense))) /\
  (forall k, In k (Dict.keys (consumption st'))
             <-> k = Roommate.id roommate \/ In k (Dict.keys (consumption st))) /\
  (NoDup (Dict.keys (consumption st)) -> NoDup (Dict.keys (consumption st'))).
Proof.
  unfold consume. intros H.
  destruct (add_to_spec (consumption st) (Roommate.id roommate)
              (sum_cost (Expense.items expense)
               / inject_Z (Z.of_nat (List.length (Expense.consumed_by expense)))))
    as [c [Hc [Hs [Hk Hn]]]].
  unfold Dict.getitem at 1 in H. rewrite Hc in H. simpl bind in H.
  apply bind_Ok_inv in H. destruct H as [share [Hshare H]].
  assert (Eshare : share = sum_cost (Expense.items expense)
            / inject_Z (Z.of_nat (List.length (Expense.consumed_by expense)))).
  { unfold pydiv in Hshare.
    destruct (List.length (Expense.consumed_by expense)); [discriminate Hshare|].
    injection Hshare as <-. reflexivity. }
  subst share.
  apply bind_Ok_inv in H. destruct H as [r [_ H]].
  apply bind_Ok_inv in H. destruct H as [r1 [_ H]].
  injection H as <-. simpl.
  split; [reflexivity|]. split; [exact Hs|]. split; [exact Hk | exact Hn].
Qed.

(** The consumers of an expense, by id. *)
Lemma consume_all_money (expense : Expense.t) (l : list Roommate.t) :
  forall st st',
    foldM (consume expense) l st = Ok st' ->
    spending st' = spending st /\
    Qsum (Dict.values (consumption st'))
      == Qsum (Dict.values (consumption st))
         + inject_Z (Z.of_nat (List.length l))
           * (sum_cost (Expense.items expense)
              / inject_Z (Z.of_nat (List.length (Expense.consumed_by expense)))) /\
    (forall k, In k (Dict.keys (consumption st'))
               <-> In k (map Roommate.id l) \/ In k (Dict.keys (consumption st))) /\
    (NoDup (Dict.keys (consumption st)) -> NoDup (Dict.keys (consumption st'))).
Proof.
  induction l as [|c l IH]; intros st st' H.
  - injection H as <-. split; [reflexivity|]. split; [|split].
    + simpl. ring.
    + intros k. simpl. tauto.
    + auto.
  - cbn [foldM] in H. apply bind_Ok_inv in H. destruct H as [st1 [H1 H2]].
    apply consume_money in H1. destruct H1 as [S1 [Q1 [K1 N1]]].
    apply IH in H2. destruct H2 as [S2 [Q2 [K2 N2]]].
    split; [congruence|]. split; [|split].
    + rewrite Q2, Q1.
      change (List.length (c :: l)) with (S (List.length l)).
      rewrite Nat2Z.inj_succ, <- Z.add_1_r, inject_Z_plus. ring.
    + intros k. rewrite K2, K1. simpl. intuition congruence.
    + auto.
Qed.

(** Lines 201-220: one expense adds its cost to [spending] and, when it has
    consumers, to [consumption]. *)
Lemma process_expense_money (st st' : agg) (expense : Expense.t) :
  process_expense st expense = Ok st' ->
  Qsum (Dict.values (spending st'))
    == Qsum (Dict.values (spending st)) + sum_cost (Expense.items expense) /\
  Qsum (Dict.values (consumption st'))
    == Qsum (Dict.values (consumption st)) + consumed_cost expense /\
  (forall k, In k (Dict.keys (spending st'))
             <-> k = Roommate.id (Expense.purchased_by expense)
                 \/ In k (Dict.keys (spending st))) /\
  (forall k, In k (Dict.keys (consumption st'))
             <-> In k (map Roommate.id (Expense.consumed_by expense))
                 \/ In k (Dict.keys (consumption st))) /\
  (NoDup (Dict.keys (spending st)) -> NoDup (Dict.keys (spending st'))) /\
  (NoDup (Dict.keys (consumption st)) -> NoDup (Dict.keys (consumption st'))).
Proof.
  unfold process_expense. intros H.
  destruct (add_to_spec (spending st) (Roommate.id (Expense.purchased_by expense))
              (sum_cost (Expense.items expense))) as [s [Hs [Hsum [Hk Hn]]]].
  unfold Dict.getitem at 1 in H. rewrite Hs in H. simpl bind in H.
  apply consume_all_money in H. simpl in H.
  destruct H as [S1 [Q1 [K1 N1]]]. rewrite S1.
  split; [exact Hsum|]. split; [|split; [exact Hk|split; [exact K1|split; assumption]]].
  rewrite Q1. unfold consumed_cost.
  destruct (Expense.consumed_by expense) as [|c l].
  - simpl. ring.
  - set (n := inject_Z (Z.of_nat (List.length (c :: l)))).
    assert (Hn0 : ~ n == 0).
    { unfold n. change 0 with (inject_Z 0). rewrite inject_Z_injective.
      simpl. lia. }
    field. exact Hn0.
Qed.

(** The first loop, from any state: the sums and the keys of [spending] and
    [consumption]. *)
Lemma aggregate_money (expenses : list Expense.t) :
  forall st st',
    foldM process_expense expenses st = Ok st' ->
    Qsum (Dict.values (spending st'))
      == Qsum (Dict.values (spending st)) + spent_total expenses /\
    Qsum (Dict.values (consumption st'))
      == Qsum (Dict.values (consumption st)) + consumed_total expenses /\
    (forall k, In k (Dict.keys (spending st'))
               <-> In k (purchasers expenses) \/ In k (Dict.keys (spending st))) /\
    (forall k, In k (Dict.keys (consumption st'))
               <-> In k (consumers expenses) \/ In k (Dict.keys (consumption st))) /\
    (NoDup (Dict.keys (spending st)) -> NoDup (Dict.keys (spending st'))) /\
    (NoDup (Dict.keys (consumption st)) -> NoDup (Dict.keys (consumption st'))).
Proof.
  induction expenses as [|e es IH]; intros st st' H.
  - injection H as <-. unfold spent_total, consumed_total, purchasers, consumers.
    simpl.
    split; [ring|]. split; [ring|].
    split; [intros k; tauto|]. split; [intros k; tauto|]. auto.
  - cbn [foldM] in H. apply bind_Ok_inv in H. destruct H as [st1 [H1 H2]].
    apply process_expense_money in H1.
    destruct H1 as [S1 [C1 [KS1 [KC1 [NS1 NC1]]]]].
    apply IH in H2. destruct H2 as [S2 [C2 [KS2 [KC2 [NS2 NC2]]]]].
    split; [|split; [|split; [|split; [|split]]]].
    + rewrite S2, S1. unfold spent_total. simpl. ring.
    + rewrite C2, C1. unfold consumed_total. simpl. ring.
    + intros k. rewrite KS2, KS1. unfold purchasers. simpl.
      intuition congruence.
    + intros k. rewrite KC2, KC1. unfold consumers. simpl.
      rewrite in_app_iff. tauto.
    + auto.
    + auto.
Qed.

Lemma set_absent {V : Type} (d : dict V) (k : string) (v : V) :
  ~ In k (Dict.keys d) -> Dict.set d k v = (d ++ [(k, v)])%list.
Proof.
  induction d as [|[k' v'] d IH]; simpl; intros H.
  - reflexivity.
  - destruct (String.eqb_spec k' k) as [->|Hne].
    + elim H. now left.
    + f_equal. apply IH. tauto.
Qed.

(** Lines 230-234 on a [spending] with distinct keys: one balance per key,
    in the same order. *)
Lemma compute_balances_from (c : dict Q) (l : dict Q) :
  forall acc,
    NoDup (Dict.keys acc ++ Dict.keys l) ->
    fold_left
      (fun balances (kv : string * Q) =>
         let (roommate_id, total_spent) := kv in
         let total_consumed := Dict.get_default c roommate_id 0 in
         Dict.set balances roommate_id (total_spent - total_consumed))
      l acc
    = (acc ++ map (fun kv => (fst kv, snd kv - c @ fst kv)) l)%list.
Proof.
  induction l as [|[k v] l IH]; intros acc Hnd; simpl.
  - rewrite app_nil_r. reflexivity.
  - simpl in Hnd. pose proof (NoDup_remove_2 _ _ _ Hnd) as Hnin.
    rewrite set_absent by (intros H; apply Hnin; apply in_app_iff; now left).
    rewrite IH.
    + rewrite <- app_assoc. reflexivity.
    + unfold Dict.keys in *. rewrite map_app. simpl.
      rewrite <- app_assoc. exact Hnd.
Qed.

Lemma compute_balances_map (st : agg) :
  NoDup (Dict.keys (spending st)) ->
  compute_balances st
  = map (fun kv => (fst kv, snd kv - consumption st @ fst kv)) (spending st).
Proof.
  intros H. unfold compute_balances.
  rewrite compute_balances_from; [reflexivity | exact H].
Qed.

Lemma Qsum_balances (c l : dict Q) :
  Qsum (Dict.values (map (fun kv => (fst kv, snd kv - c @ fst kv)) l))
  == Qsum (Dict.values l) - Qsum (map (fun k => c @ k) (Dict.keys l)).
Proof.
  induction l as [|[k v] l IH]; simpl.
  - ring.
  - rewrite IH. ring.
Qed.

(** Looking every key of [K] up in [c] finds every value of [c] once, when
    [K] has all the keys of [c]. *)
Lemma Qsum_lookup_all (c : dict Q) :
  forall K,
    NoDup K -> NoDup (Dict.keys c) -> incl (Dict.keys c) K ->
    Qsum (map (fun k => c @ k) K) == Qsum (Dict.values c).
Proof.
  induction c as [|[k0 v0] c IH]; intros K HK Hc Hincl.
  - simpl. clear. induction K as [|k K IH]; simpl; [reflexivity|].
    rewrite IH. unfold Dict.get_default. simpl. ring.
  - simpl in Hc. inversion Hc as [|? ? Hnin Hc']; subst.
    destruct (in_split k0 K) as [K1 [K2 ->]]; [apply Hincl; now left|].
    pose proof (NoDup_remove_1 _ _ _ HK) as HK'.
    pose proof (NoDup_remove_2 _ _ _ HK) as Hk0.
    assert (Hext : forall L, ~ In k0 L ->
              map (fun k => ((k0, v0) :: c) @ k) L = map (fun k => c @ k) L).
    { intros L HL. apply map_ext_in. intros k Hk.
      unfold Dict.get_default. simpl.
      destruct (String.eqb_spec k0 k) as [->|Hne]; [contradiction | reflexivity]. }
    rewrite map_app, Qsum_app. simpl.
    rewrite !Hext by (intros H; apply Hk0; apply in_app_iff; tauto).
    assert (Hhead : ((k0, v0) :: c) @ k0 = v0).
    { unfold Dict.get_default. simpl. rewrite String.eqb_refl. reflexivity. }
    rewrite Hhead.
    rewrite <- (IH (K1 ++ K2)%list HK' Hc').
    + rewrite map_app, Qsum_app. ring.
    + intros k Hk.
      assert (Hin : In k (K1 ++ k0 :: K2)) by (apply Hincl; now right).
      apply in_app_iff in Hin. apply in_app_iff.
      destruct Hin as [H|[H|H]]; [now left | subst k; contradiction | now right].
Qed.

(** The balances of a week add up to what was spent less what the
    purchasers consumed. *)
Lemma weekly_balances_sum (expenses : list Expense.t) (st : agg) :
  aggregate expenses = Ok st ->
  Qsum (Dict.values (compute_balances st))
  == spent_total expenses
     - Qsum (map (fun k => consumption st @ k) (Dict.keys (spending st))).
Proof.
  intros H. apply aggregate_money in H.
  destruct H as [S [_ [_ [_ [NS _]]]]].
  rewrite compute_balances_map by (apply NS; constructor).
  rewrite Qsum_balances, S. simpl. ring.
Qed.

(** When every expense has a consumer and every consumer also purchases in
    the week, the balances add up to zero (exact arithmetic). *)
Lemma weekly_balances_balanced (expenses : list Expense.t) (st : agg) :
  aggregate expenses = Ok st ->
  (forall e, In e expenses -> Expense.consumed_by e <> []) ->
  incl (consumers expenses) (purchasers expenses) ->
  Qsum (Dict.values (compute_balances st)) == 0.
Proof.
  intros H Hne Hincl.
  rewrite (weekly_balances_sum expenses st H).
  apply aggregate_money in H.
  destruct H as [_ [C [KS [KC [NS NC]]]]].
  rewrite Qsum_lookup_all.
  - rewrite C. simpl.
    assert (E : consumed_total expenses == spent_total expenses).
    { unfold consumed_total, spent_total. clear -Hne.
      induction expenses as [|e es IH]; simpl; [reflexivity|].
      rewrite IH by (intros e' He'; apply Hne; now right).
      unfold consumed_cost.
      destruct (Expense.consumed_by e) eqn:E; [|reflexivity].
      elim (Hne e (or_introl eq_refl)). exact E. }
    rewrite E. ring.
  - apply NS. constructor.
  - apply NC. constructor.
  - intros k Hk. apply KS. left. apply Hincl.
    apply KC in Hk. destruct Hk as [Hk|[]]. exact Hk.
Qed.

(** The records of [report] are those of the consumers. *)
Lemma consume_report_keys (expense : Expense.t) (st st' : agg)
    (roommate : Roommate.t) :
  consume expense st roommate = Ok st' ->
  forall k, In k (Dict.keys (report st'))
            <-> k = Roommate.id roommate \/ In k (Dict.keys (report st)).
Proof.
  unfold consume. intros H.
  apply bind_Ok_inv in H. destruct H as [c [_ H]].
  apply bind_Ok_inv in H. destruct H as [share [_ H]].
  apply bind_Ok_inv in H. destruct H as [r [_ H]].
  apply bind_Ok_inv in H. destruct H as [r1 [_ H]].
  injection H as <-. simpl. intros k.
  rewrite in_keys_set, keys_setdefault. tauto.
Qed.

Lemma consume_all_report_keys (expense : Expense.t) (l : list Roommate.t) :
  forall st st',
    foldM (consume expense) l st = Ok st' ->
    forall k, In k (Dict.keys (report st'))
              <-> In k (map Roommate.id l) \/ In k (Dict.keys (report st)).
Proof.
  induction l as [|c l IH]; intros st st' H k.
  - injection H as <-. simpl. tauto.
  - cbn [foldM] in H. apply bind_Ok_inv in H. destruct H as [st1 [H1 H2]].
    rewrite (IH _ _ H2 k), (consume_report_keys _ _ _ _ H1 k). simpl.
    intuition congruence.
Qed.

Lemma aggregate_report_keys (expenses : list Expense.t) :
  forall st st',
    foldM process_expense expenses st = Ok st' ->
    forall k, In k (Dict.keys (report st'))
              <-> In k (consumers expenses) \/ In k (Dict.keys (report st)).
Proof.
  induction expenses as [|e es IH]; intros st st' H k.
  - injection H as <-. unfold consumers. simpl. tauto.
  - cbn [foldM] in H. apply bind_Ok_inv in H. destruct H as [st1 [H1 H2]].
    rewrite (IH _ _ H2 k). unfold process_expense in H1.
    apply bind_Ok_inv in H1. destruct H1 as [s [_ H1]].
    rewrite (consume_all_report_keys _ _ _ _ H1 k). unfold consumers. simpl.
    rewrite in_app_iff. tauto.
Qed.

(** A week in which every expense has a consumer and the purchasers are the
    consumers: [weekly_report] returns, and its settlement leaves every
    balance at zero (exact arithmetic). *)
Lemma weekly_run_clears (expenses : list Expense.t) :
  (forall e, In e expenses -> Expense.consumed_by e <> []) ->
  incl (consumers expenses) (purchasers expenses) ->
  incl (purchasers expenses) (consumers expenses) ->
  exists st',
    weekly_run expenses = Ok st' /\
    Forall (fun x => x == 0) (Dict.values (balances st')).
Proof.
  intros Hne Hcp Hpc. unfold weekly_run.
  destruct (aggregate_total expenses) as [st Hagg]. rewrite Hagg. simpl bind.
  pose proof (weekly_balances_balanced expenses st Hagg Hne Hcp) as Hzero.
  pose proof (aggregate_report_keys expenses _ _ Hagg) as KR.
  apply aggregate_money in Hagg.
  destruct Hagg as [_ [_ [KS [_ [NS _]]]]].
  assert (Hkeys : Dict.keys (compute_balances st) = Dict.keys (spending st)).
  { rewrite compute_balances_map by (apply NS; constructor).
    unfold Dict.keys. rewrite map_map. reflexivity. }
  destruct (settle_clears_balanced (settle_input st)) as [st' [H [_ [_ Hall]]]].
  - unfold covers. simpl. rewrite Hkeys. intros k Hk.
    apply KR. left. apply Hpc. apply KS in Hk. destruct Hk as [Hk|[]]. exact Hk.
  - simpl. rewrite Hkeys. apply NS. constructor.
  - exact Hzero.
  - exists st'. split; assumption.
Qed.

(** * The properties of the specification *)

(** ** Aggregation *)

(** C1, on the code: for the shared meal (Ann pays 30, Ann, Bob and Cid
    consume 10 each) the loop of lines 231-234 gives a balance to the
    purchaser only, so the net amounts it produces add up to 20, not to 0:
    Bob and Cid consumed 10 each and have no balance at all. *)
Theorem weekly_balances_skip_pure_consumers :
  exists st,
    aggregate [shared_meal] = Ok st /\
    Dict.keys (compute_balances st) = ["A"%string] /\
    Qsum (Dict.values (compute_balances st)) == 20 /\
    ~ Qsum (Dict.values (compute_balances st)) == 0 /\
    Dict.keys (consumption st) = ["A"; "B"; "C"]%string /\
    Forall (fun c => c == 10) (Dict.values (consumption st)).
Proof.
  eexists. split; [vm_compute; reflexivity|].
  split; [reflexivity|].
  split; [vm_compute; reflexivity|].
  split; [intros H; vm_compute in H; discriminate H|].
  split; [reflexivity|].
  repeat constructor.
Qed.

(** ** Settlement *)

(** C6, as stated, fails: in the uneven week the credits are 8 and the
    debits 3, and settlement returns with the transfer of 3 from Bob to Ann;
    Ann keeps a balance of 5. *)
Lemma settle_accepts_imbalance :
  exists st st',
    aggregate uneven_week = Ok st /\
    Qsum (credits (compute_balances st)) == 8 /\
    - Qsum (debits (compute_balances st)) == 3 /\
    settle (settle_input st) = Ok st' /\
    trace st' = [{| t_from := "B"; t_to := "A"; t_amount := 3 |}] /\
    balances st' = [("A"%string, 5); ("B"%string, 0)].
Proof.
  do 2 eexists. split; [vm_compute; reflexivity|].
  split; [vm_compute; reflexivity|].
  split; [vm_compute; reflexivity|].
  split; [vm_compute; reflexivity|].
  split; reflexivity.
Qed.

(** C6, amended: for every balance map, balanced or not, whose persons all
    have a record in the report, settlement does not fail: it returns the
    transfers of the greedy loop and leaves the balances these transfers
    give; it compares no totals and rejects nothing. *)
Theorem settle_never_rejects (st : settle_state) :
  covers (s_report st) (balances st) ->
  exists st',
    settle st = Ok st' /\
    trace st' = (trace st ++ plan (balances st))%list /\
    balances st' = replay (balances st) (plan (balances st)).
Proof.
  intros Hcov. destruct (settle_spec st Hcov) as [st' [H [_ [T B]]]].
  exists st'. split; [exact H|]. split; [exact T | exact B].
Qed.

(** C8.  Two invocations of settlement on the same balance map yield the
    same transfer sequence (same pairs, same amounts, same order) and the
    same final balances, whatever the two reports hold, as long as each has
    a record for every person with a balance. *)
Theorem settle_deterministic (b : dict Q) (rep1 rep2 : dict Report.t) :
  covers rep1 b -> covers rep2 b ->
  exists st1 st2,
    settle {| s_report := rep1; balances := b; trace := [] |} = Ok st1 /\
    settle {| s_report := rep2; balances := b; trace := [] |} = Ok st2 /\
    trace st1 = trace st2 /\
    balances st1 = balances st2.
Proof.
  intros H1 H2.
  destruct (settle_spec {| s_report := rep1; balances := b; trace := [] |} H1)
    as [st1 [E1 [_ [T1 B1]]]].
  destruct (settle_spec {| s_report := rep2; balances := b; trace := [] |} H2)
    as [st2 [E2 [_ [T2 B2]]]].
  exists st1, st2. simpl in *. repeat split; congruence.
Qed.

(** C2, on the code: in the four-way week the balances A: +10, B: -3,
    C: -20, D: +13 add up to zero and replaying the transfers clears every
    balance, but the transfers add up to 26 while the positive balances add
    up to 23: Ann collects 13 for her 10 and passes 3 on to Dee. *)
Theorem four_way_transfers_exceed_credits :
  exists st st',
    aggregate four_way_week = Ok st /\
    compute_balances st
      = [("A", 10); ("B", -(3)); ("C", -(20)); ("D", 13)]%string /\
    Qsum (Dict.values (compute_balances st)) == 0 /\
    weekly_run four_way_week = Ok st' /\
    trace st'
      = [ {| t_from := "B"; t_to := "A"; t_amount := 3 |};
          {| t_from := "C"; t_to := "A"; t_amount := 10 |};
          {| t_from := "A"; t_to := "D"; t_amount := 3 |};
          {| t_from := "C"; t_to := "D"; t_amount := 10 |} ] /\
    replay (compute_balances st) (trace st')
      = [("A", 0); ("B", 0); ("C", 0); ("D", 0)]%string /\
    Qsum (map t_amount (trace st')) == 26 /\
    Qsum (credits (compute_balances st)) == 23.
Proof.
  do 2 eexists. split; [vm_compute; reflexivity|].
  split; [vm_compute; reflexivity|].
  split; [vm_compute; reflexivity|].
  split; [vm_compute; reflexivity|].
  split; [reflexivity|].
  split; [vm_compute; reflexivity|].
  split; vm_compute; reflexivity.
Qed.

(** C3, on the code: in the four-way week the second transfer pairs the
    creditor Ann with the debtor Cid.  After the first transfer Ann's
    remaining balance is 7 and Cid's is -20, so the amount should be
    min(7, 20) = 7; the code emits 10, the minimum against the balance Ann
    had when her turn started. *)
Theorem four_way_amount_uses_stale_balance :
  exists st st' t1 t2 rest,
    aggregate four_way_week = Ok st /\
    weekly_run four_way_week = Ok st' /\
    trace st' = t1 :: t2 :: rest /\
    Dict.get (replay (compute_balances st) [t1]) (t_to t2) = Some 7 /\
    Dict.get (replay (compute_balances st) [t1]) (t_from t2) = Some (-(20)) /\
    t_amount t2 = 10 /\
    pymin 7 (- -(20)) = 7 /\
    pymin 10 (- -(20)) = 10 /\
    Dict.get (replay (compute_balances st) [t1; t2]) (t_to t2) = Some (-(3)).
Proof.
  do 5 eexists. split; [vm_compute; reflexivity|].
  split; [vm_compute; reflexivity|].
  split; [reflexivity|].
  repeat split; vm_compute; reflexivity.
Qed.

(** C7, on the code: in the four-way week four persons have a nonzero
    balance and settlement emits four transfers, one more than N - 1. *)
Theorem four_way_transfer_count :
  exists st st',
    aggregate four_way_week = Ok st /\
    weekly_run four_way_week = Ok st' /\
    List.length (active (compute_balances st)) = 4%nat /\
    List.length (trace st') = 4%nat /\
    ~ (List.length (trace st')
       <= Nat.max 0 (List.length (active (compute_balances st)) - 1))%nat.
Proof.
  do 2 eexists. split; [vm_compute; reflexivity|].
  split; [vm_compute; reflexivity|].
  split; [reflexivity|].
  split; [reflexivity|].
  vm_compute. lia.
Qed.

(** ** Instances *)

Lemma total_items_counts_distinct_names_witness :
  (exists st r,
      aggregate [shared_meal] = Ok st /\
      Dict.get (report st) "B"%string = Some r /\
      Report.total_items r = distinct_names r /\
      Report.total_items r = 2%nat) /\
  (exists st',
      process_expense agg_init shared_meal = Ok st' /\
      Forall counted (Dict.values (report st'))).
Proof.
  destruct total_items_counts_distinct_names as [Hrun Hstep]. split.
  - destruct (Hrun [shared_meal]) as [st [Hagg Hall]].
    pose proof Hagg as Hst. vm_compute in Hst. injection Hst as Hst.
    exists st. eexists. split; [exact Hagg|].
    split; [rewrite <- Hst; reflexivity|].
    split; [|reflexivity].
    apply (Hall "B"%string). rewrite <- Hst. reflexivity.
  - apply (Hstep agg_init shared_meal). constructor.
Defined.

Lemma split_expense_covers_roster_witness :
  exists roommate_expenses,
    split_expense household [shared_meal] = Ok roommate_expenses /\
    count_occ string_dec (Dict.keys roommate_expenses) "D"%string = 1%nat /\
    exists e,
      Dict.get roommate_expenses "D"%string = Some e /\ Split.amount e = 0.
Proof.
  eexists. split; [vm_compute; reflexivity|].
  destruct (split_expense_covers_roster household [shared_meal] _ eq_refl dee)
    as [Hcount [e [He Hzero]]].
  - simpl. tauto.
  - split; [exact Hcount|]. exists e. split; [exact He|].
    apply Hzero. intros expense [<-|[]]. simpl.
    intros [H|[H|[H|[]]]]; discriminate H.
Defined.

Lemma settle_never_rejects_witness :
  exists st',
    settle {| s_report := plain_report; balances := two_balances; trace := [] |}
      = Ok st' /\
    trace st' = plan two_balances /\
    balances st' = replay two_balances (plan two_balances).
Proof.
  apply (settle_never_rejects
           {| s_report := plain_report; balances := two_balances; trace := [] |}).
  apply incl_refl.
Defined.

Lemma settle_deterministic_witness :
  exists st1 st2,
    settle {| s_report := plain_report; balances := two_balances; trace := [] |}
      = Ok st1 /\
    settle {| s_report := other_report; balances := two_balances; trace := [] |}
      = Ok st2 /\
    trace st1 = trace st2 /\
    balances st1 = balances st2.
Proof.
  apply (settle_deterministic two_balances plain_report other_report).
  - apply incl_refl.
  - intros k [<-|[<-|[]]]; simpl; tauto.
Defined.

(** * Further properties of the two routes *)

(** ** Aggregation, person by person *)

Lemma getitem_Some {V : Type} (d : dict V) (k : string) (v : V) :
  Dict.getitem d k = Ok v -> Dict.get d k = Some v.
Proof.
  unfold Dict.getitem. destruct (Dict.get d k); intros H;
    [injection H as <-; reflexivity | discriminate H].
Qed.

Lemma pydiv_Ok (x : Q) (n : nat) (q : Q) :
  pydiv x n = Ok q -> n <> O /\ q = x / inject_Z (Z.of_nat n).
Proof.
  unfold pydiv. destruct n; intros H; [discriminate H|].
  injection H as <-. split; [discriminate | reflexivity].
Qed.

Lemma count_cons_Q (l : list string) (k a : string) :
  inject_Z (Z.of_nat (count_occ string_dec (a :: l) k))
  == (if String.eqb a k then 1 else 0)
     + inject_Z (Z.of_nat (count_occ string_dec l k)).
Proof.
  simpl. destruct (string_dec a k) as [->|Hne].
  - rewrite String.eqb_refl, Nat2Z.inj_succ, <- Z.add_1_r, inject_Z_plus.
    change (inject_Z 1) with 1. ring.
  - apply String.eqb_neq in Hne. rewrite Hne. ring.
Qed.

(** [if k not in d: d[k] = v] changes no lookup but that of a new [k]. *)
Lemma get_setdefault_other {V : Type} (d : dict V) (k k' : string) (v : V) :
  k <> k' ->
  Dict.get (if Dict.contains d k then d else Dict.set d k v) k' = Dict.get d k'.
Proof.
  intros Hne. destruct (Dict.contains d k); [reflexivity|].
  apply get_set_other. exact Hne.
Qed.

(** [d[k] += x] after [if k not in d: d[k] = 0], seen from any key. *)
Lemma add_to_val (d : dict Q) (k k' : string) (x c : Q) :
  Dict.get (if Dict.contains d k then d else Dict.set d k 0) k = Some c ->
  (Dict.set (if Dict.contains d k then d else Dict.set d k 0) k (c + x)) @ k'
  = if String.eqb k k' then d @ k + x else d @ k'.
Proof.
  intros Hc.
  destruct (String.eqb_spec k k') as [<-|Hne].
  - rewrite val_set_same. f_equal.
    destruct (setdefault_get d k 0) as [c' [Hc' ->]]. congruence.
  - rewrite val_set_other by exact Hne.
    unfold Dict.get_default. rewrite get_setdefault_other by exact Hne. reflexivity.
Qed.

(** The state one consumer step leaves (lines 207-228). *)
Lemma consume_shape (expense : Expense.t) (st st' : agg) (roommate : Roommate.t) :
  consume expense st roommate = Ok st' ->
  let rid := Roommate.id roommate in
  let report1 :=
    if Dict.contains (report st) rid then report st
    else Dict.set (report st) rid (Report.fresh (Roommate.name roommate)) in
  let consumption1 :=
    if Dict.contains (consumption st) rid then consumption st
    else Dict.set (consumption st) rid 0 in
  exists c r r1,
    Dict.get consumption1 rid = Some c /\
    Dict.get report1 rid = Some r /\
    foldM add_item (Expense.items expense) r = Ok r1 /\
    Expense.consumed_by expense <> [] /\
    st' = {| report := Dict.set report1 rid
                         (add_total r1 (sum_cost (Expense.items expense)));
             spending := spending st;
             consumption := Dict.set consumption1 rid (c + share_of expense) |}.
Proof.
  unfold consume. intros H. cbv zeta.
  apply bind_Ok_inv in H. destruct H as [c [Hc H]].
  apply bind_Ok_inv in H. destruct H as [share [Hshare H]].
  apply bind_Ok_inv in H. destruct H as [r [Hr H]].
  apply bind_Ok_inv in H. destruct H as [r1 [Hr1 H]].
  apply pydiv_Ok in Hshare. destruct Hshare as [Hlen ->].
  exists c, r, r1.
  split; [apply getitem_Some; exact Hc|].
  split; [apply getitem_Some; exact Hr|].
  split; [exact Hr1|].
  split; [intros E; rewrite E in Hlen; now apply Hlen|].
  injection H as <-. reflexivity.
Qed.

(** One consumer of one expense, seen from any person. *)
Lemma consume_person (expense : Expense.t) (st st' : agg) (roommate : Roommate.t)
    (k : string) :
  consume expense st roommate = Ok st' ->
  consumption st' @ k
    = (if String.eqb (Roommate.id roommate) k
       then consumption st @ k + share_of expense else consumption st @ k) /\
  total_amount_of (report st') k
    = (if String.eqb (Roommate.id roommate) k
       then total_amount_of (report st) k + sum_cost (Expense.items expense)
       else total_amount_of (report st) k) /\
  (NoDup (Dict.keys (report st)) -> NoDup (Dict.keys (report st'))).
Proof.
  intros H. apply consume_shape in H. cbv zeta in H.
  destruct H as [c [r [r1 [Hc [Hr [Hr1 [_ ->]]]]]]]. simpl.
  split; [|split].
  - rewrite (add_to_val _ _ k _ _ Hc).
    destruct (String.eqb_spec (Roommate.id roommate) k) as [->|]; reflexivity.
  - unfold total_amount_of.
    destruct (String.eqb_spec (Roommate.id roommate) k) as [<-|Hne].
    + rewrite get_set_same. simpl.
      destruct (add_items_spec (Expense.items expense) r)
        as [r' [H' [_ [Ht _]]]].
      rewrite Hr1 in H'. injection H' as <-. rewrite Ht. f_equal.
      destruct (setdefault_get (report st) (Roommate.id roommate)
                  (Report.fresh (Roommate.name roommate))) as [r0 [Hr0 E0]].
      rewrite Hr in Hr0. injection Hr0 as <-. rewrite E0.
      unfold Dict.get_default.
      destruct (Dict.get (report st) (Roommate.id roommate)); reflexivity.
    + rewrite get_set_other by exact Hne.
      rewrite get_setdefault_other by exact Hne. reflexivity.
  - intros Hnd. apply NoDup_keys_set. apply NoDup_setdefault. exact Hnd.
Qed.

(** The consumers of one expense, seen from any person. *)
Lemma consume_all_person (expense : Expense.t) (k : string) (l : list Roommate.t) :
  forall st st',
    foldM (consume expense) l st = Ok st' ->
    consumption st' @ k
      == consumption st @ k
         + inject_Z (Z.of_nat (count_occ string_dec (map Roommate.id l) k))
           * share_of expense /\
    total_amount_of (report st') k
      == total_amount_of (report st) k
         + inject_Z (Z.of_nat (count_occ string_dec (map Roommate.id l) k))
           * sum_cost (Expense.items expense) /\
    (NoDup (Dict.keys (report st)) -> NoDup (Dict.keys (report st'))).
Proof.
  induction l as [|c l IH]; intros st st' H.
  - injection H as <-. cbn [map count_occ Z.of_nat].
    change (inject_Z 0) with 0. split; [ring|]. split; [ring | auto].
  - cbn [foldM] in H. apply bind_Ok_inv in H. destruct H as [st1 [H1 H2]].
    apply (consume_person _ _ _ _ k) in H1. destruct H1 as [C1 [T1 N1]].
    apply IH in H2. destruct H2 as [C2 [T2 N2]].
    change (map Roommate.id (c :: l)) with (Roommate.id c :: map Roommate.id l).
    split; [|split].
    + rewrite C2, C1, count_cons_Q.
      destruct (String.eqb (Roommate.id c) k); ring.
    + rewrite T2, T1, count_cons_Q.
      destruct (String.eqb (Roommate.id c) k); ring.
    + auto.
Qed.

(** One expense, seen from any person. *)
Lemma process_expense_person (st st' : agg) (expense : Expense.t) (k : string) :
  process_expense st expense = Ok st' ->
  spending st' @ k
    == spending st @ k
       + (if String.eqb (Roommate.id (Expense.purchased_by expense)) k
          then sum_cost (Expense.items expense) else 0) /\
  consumption st' @ k
    == consumption st @ k
       + inject_Z (Z.of_nat (times_consumed k expense)) * share_of expense /\
  total_amount_of (report st') k
    == total_amount_of (report st) k
       + inject_Z (Z.of_nat (times_consumed k expense))
         * sum_cost (Expense.items expense) /\
  (NoDup (Dict.keys (report st)) -> NoDup (Dict.keys (report st'))).
Proof.
  unfold process_expense. intros H.
  apply bind_Ok_inv in H. destruct H as [s [Hs H]].
  apply getitem_Some in Hs.
  pose proof (consume_all_money _ _ _ _ H) as [S _].
  apply (consume_all_person _ k) in H. simpl in H, S.
  destruct H as [C [T N]]. rewrite S.
  split; [|split; [exact C | split; [exact T | exact N]]].
  rewrite (add_to_val _ _ k _ _ Hs).
  destruct (String.eqb_spec (Roommate.id (Expense.purchased_by expense)) k)
    as [->|_]; ring.
Qed.

(** The first loop, from any state, seen from any person. *)
Lemma aggregate_person (k : string) (expenses : list Expense.t) :
  forall st st',
    foldM process_expense expenses st = Ok st' ->
    spending st' @ k == spending st @ k + spent_by k expenses /\
    consumption st' @ k == consumption st @ k + consumed_by_shares k expenses /\
    total_amount_of (report st') k
      == total_amount_of (report st) k + charged_in_full k expenses /\
    (NoDup (Dict.keys (report st)) -> NoDup (Dict.keys (report st'))).
Proof.
  unfold spent_by, consumed_by_shares, charged_in_full.
  induction expenses as [|e es IH]; intros st st' H.
  - injection H as <-. simpl. split; [ring|]. split; [ring|]. split; [ring|auto].
  - cbn [foldM] in H. apply bind_Ok_inv in H. destruct H as [st1 [H1 H2]].
    apply (process_expense_person _ _ _ k) in H1. destruct H1 as [S1 [C1 [T1 N1]]].
    apply IH in H2. destruct H2 as [S2 [C2 [T2 N2]]].
    split; [|split; [|split]].
    + rewrite S2, S1. simpl. ring.
    + rewrite C2, C1. simpl. ring.
    + rewrite T2, T1. simpl. ring.
    + auto.
Qed.

Lemma aggregate_report_NoDup (expenses : list Expense.t) (st : agg) :
  aggregate expenses = Ok st -> NoDup (Dict.keys (report st)).
Proof.
  intros H. apply (aggregate_person ""%string) in H.
  destruct H as [_ [_ [_ N]]]. apply N. constructor.
Qed.

(** The keys the first loop and lines 230-234 leave. *)
Lemma weekly_aggregation_footprint_aux (expenses : list Expense.t) :
  exists st,
    aggregate expenses = Ok st /\
    (forall k, In k (Dict.keys (spending st)) <-> In k (purchasers expenses)) /\
    (forall k, In k (Dict.keys (report st)) <-> In k (consumers expenses)) /\
    Dict.keys (compute_balances st) = Dict.keys (spending st).
Proof.
  destruct (aggregate_total expenses) as [st H]. exists st.
  split; [exact H|].
  pose proof (aggregate_report_keys expenses _ _ H) as KR.
  apply aggregate_money in H. destruct H as [_ [_ [KS [_ [NS _]]]]].
  simpl in KS, KR.
  split; [intros k; rewrite KS; tauto|].
  split; [intros k; rewrite KR; tauto|].
  rewrite compute_balances_map by (apply NS; constructor).
  unfold Dict.keys. rewrite map_map. reflexivity.
Qed.

(** X1.  When the first loop of [weekly_report] completes, it has left
    one [spending] entry per purchaser and one [report] record and one
    [consumption] entry per consumer, and nothing else; no key is
    repeated. *)
Theorem weekly_aggregation_footprint (expenses : list Expense.t) (st : agg) :
  aggregate expenses = Ok st ->
  (forall k, In k (Dict.keys (spending st)) <-> In k (purchasers expenses)) /\
  (forall k, In k (Dict.keys (report st)) <-> In k (consumers expenses)) /\
  (forall k, In k (Dict.keys (consumption st)) <-> In k (consumers expenses)) /\
  NoDup (Dict.keys (spending st)) /\
  NoDup (Dict.keys (report st)) /\
  NoDup (Dict.keys (consumption st)).
Proof.
  intros H.
  pose proof (aggregate_report_keys expenses _ _ H) as KR.
  pose proof (aggregate_report_NoDup expenses st H) as NR.
  apply aggregate_money in H. destruct H as [_ [_ [KS [KC [NS NC]]]]].
  simpl in KS, KC, KR.
  split; [intros k; rewrite KS; tauto|].
  split; [intros k; rewrite KR; tauto|].
  split; [intros k; rewrite KC; tauto|].
  split; [apply NS; constructor|].
  split; [exact NR | apply NC; constructor].
Qed.




Lemma get_filter_keys (c : dict Q) (p : string -> bool) (k : string) :
  p k = true ->
  Dict.get (filter (fun kv => p (fst kv)) c) k = Dict.get c k.
Proof.
  intros Hp. induction c as [|[k' v'] c IH]; simpl.
  - reflexivity.
  - destruct (String.eqb_spec k' k) as [->|Hne].
    + rewrite Hp. simpl. rewrite String.eqb_refl. reflexivity.
    + destruct (p k'); simpl.
      * apply String.eqb_neq in Hne. rewrite Hne. exact IH.
      * exact IH.
Qed.

Lemma Qsum_filter_split (c : dict Q) (p : string -> bool) :
  Qsum (Dict.values c)
  == Qsum (Dict.values (filter (fun kv => p (fst kv)) c))
     + Qsum (Dict.values (filter (fun kv => negb (p (fst kv))) c)).
Proof.
  induction c as [|[k v] c IH]; simpl.
  - ring.
  - rewrite IH. destruct (p k); simpl; ring.
Qed.

Lemma keys_filter (c : dict Q) (p : string -> bool) :
  Dict.keys (filter (fun kv => p (fst kv)) c) = filter p (Dict.keys c).
Proof.
  induction c as [|[k v] c IH]; simpl.
  - reflexivity.
  - destruct (p k); simpl; rewrite IH; reflexivity.
Qed.

Lemma existsb_eqb_In (k : string) (l : list string) :
  existsb (String.eqb k) l = true <-> In k l.
Proof.
  rewrite existsb_exists. split.
  - intros [x [Hx E]]. apply String.eqb_eq in E. subst. exact Hx.
  - intros H. exists k. split; [exact H | apply String.eqb_refl].
Qed.

(** With distinct keys, the values of a dict are the lookups of its keys. *)
Lemma values_lookup (c : dict Q) :
  NoDup (Dict.keys c) ->
  Dict.values c = map (fun k => c @ k) (Dict.keys c).
Proof.
  induction c as [|[k0 v0] c IH]; simpl; intros Hnd.
  - reflexivity.
  - inversion Hnd as [|? ? Hnin Hnd']; subst.
    unfold Dict.get_default at 1. simpl. rewrite String.eqb_refl. f_equal.
    rewrite IH by exact Hnd'. apply map_ext_in. intros k Hk.
    unfold Dict.get_default. simpl.
    destruct (String.eqb_spec k0 k) as [->|]; [contradiction | reflexivity].
Qed.

(** ** Aggregation, addition by addition *)

(** A loop whose body adds the numbers [g x] to a number [v] of the state
    adds the numbers of all its turns, in order. *)
Lemma foldM_running {S B : Type} (f : S -> B -> result S) (v : S -> Q)
    (g : B -> list Q) :
  (forall s x s', f s x = Ok s' -> v s' = fold_left Qplus (g x) (v s)) ->
  forall l s s',
    foldM f l s = Ok s' -> v s' = fold_left Qplus (flat_map g l) (v s).
Proof.
  intros Hstep l. induction l as [|x l IH]; intros s s' H.
  - injection H as <-. reflexivity.
  - cbn [foldM] in H. apply bind_Ok_inv in H. destruct H as [s1 [H1 H2]].
    simpl. rewrite fold_left_app, <- (Hstep _ _ _ H1). apply IH. exact H2.
Qed.

(** Lines 223-226 on one item, seen from any item name. *)
Lemma add_item_named (r r' : Report.t) (it : Item.t) (n : string) :
  add_item r it = Ok r' ->
  Report.items r' @ n
  = fold_left Qplus (costs_named n [it]) (Report.items r @ n).
Proof.
  unfold add_item. intros H.
  apply bind_Ok_inv in H. destruct H as [old [Hold H]].
  apply getitem_Some in Hold. injection H as <-. simpl Report.items.
  assert (E : Report.items
                (if Dict.contains (Report.items r) (Item.item it) then r
                 else {| Report.name := Report.name r;
                         Report.total_amount := Report.total_amount r;
                         Report.total_items := S (Report.total_items r);
                         Report.items := Dict.set (Report.items r) (Item.item it) 0;
                         Report.owed_by := Report.owed_by r;
                         Report.owes_to := Report.owes_to r |})
              = if Dict.contains (Report.items r) (Item.item it)
                then Report.items r
                else Dict.set (Report.items r) (Item.item it) 0)
    by (destruct (Dict.contains (Report.items r) (Item.item it)); reflexivity).
  rewrite E in Hold |- *.
  rewrite (add_to_val _ _ n _ _ Hold).
  unfold costs_named. simpl.
  destruct (String.eqb_spec (Item.item it) n) as [->|]; reflexivity.
Qed.

Lemma add_items_named (n : string) (its : list Item.t) :
  forall r r',
    foldM add_item its r = Ok r' ->
    Report.items r' @ n = fold_left Qplus (costs_named n its) (Report.items r @ n).
Proof.
  intros r r' H.
  assert (F : flat_map (fun it => costs_named n [it]) its = costs_named n its).
  { clear. induction its as [|it its IH]; [reflexivity|].
    change (flat_map (fun it0 => costs_named n [it0]) (it :: its))
      with (costs_named n [it] ++ flat_map (fun it0 => costs_named n [it0]) its).
    rewrite IH. unfold costs_named. simpl.
    destruct (String.eqb (Item.item it) n); reflexivity. }
  rewrite <- F.
  apply (foldM_running add_item (fun r => Report.items r @ n)
           (fun it => costs_named n [it])); [|exact H].
  intros s x s' Hs. apply add_item_named. exact Hs.
Qed.

(** Lines 222-226 for one consumer, seen from any person and item name. *)
Lemma consume_named (expense : Expense.t) (st st' : agg) (roommate : Roommate.t)
    (k n : string) :
  consume expense st roommate = Ok st' ->
  item_total_of (report st') k n
  = fold_left Qplus
      (if String.eqb (Roommate.id roommate) k
       then costs_named n (Expense.items expense) else [])
      (item_total_of (report st) k n).
Proof.
  intros H. apply consume_shape in H. cbv zeta in H.
  destruct H as [c [r [r1 [_ [Hr [Hr1 [_ ->]]]]]]]. simpl report.
  unfold item_total_of.
  destruct (String.eqb_spec (Roommate.id roommate) k) as [<-|Hne].
  - rewrite get_set_same. simpl Report.items.
    rewrite (add_items_named n _ _ _ Hr1). f_equal.
    destruct (setdefault_get (report st) (Roommate.id roommate)
                (Report.fresh (Roommate.name roommate))) as [r0 [Hr0 E0]].
    rewrite Hr in Hr0. injection Hr0 as <-. rewrite E0.
    unfold Dict.get_default at 2.
    destruct (Dict.get (report st) (Roommate.id roommate)); reflexivity.
  - rewrite get_set_other by exact Hne.
    rewrite get_setdefault_other by exact Hne. reflexivity.
Qed.

(** The first loop, from any state, number by number. *)
Lemma aggregate_running (k n : string) (expenses : list Expense.t) :
  forall st st',
    foldM process_expense expenses st = Ok st' ->
    item_total_of (report st') k n
      = fold_left Qplus (costs_charged k n expenses) (item_total_of (report st) k n) /\
    total_amount_of (report st') k
      = fold_left Qplus (totals_charged k expenses) (total_amount_of (report st) k) /\
    consumption st' @ k
      = fold_left Qplus (shares_charged k expenses) (consumption st @ k).
Proof.
  intros st st' H. split; [|split].
  - apply (foldM_running process_expense (fun s => item_total_of (report s) k n)
             (fun e => flat_map
                         (fun c => if String.eqb (Roommate.id c) k
                                   then costs_named n (Expense.items e) else [])
                         (Expense.consumed_by e))); [|exact H].
    intros s e s' Hs. unfold process_expense in Hs.
    apply bind_Ok_inv in Hs. destruct Hs as [sp [_ Hs]].
    apply (foldM_running (consume e) (fun s => item_total_of (report s) k n)
             (fun c => if String.eqb (Roommate.id c) k
                       then costs_named n (Expense.items e) else [])) in Hs.
    + exact Hs.
    + intros s0 c s0' H0. apply consume_named. exact H0.
  - apply (foldM_running process_expense (fun s => total_amount_of (report s) k)
             (fun e => flat_map
                         (fun c => if String.eqb (Roommate.id c) k
                                   then [sum_cost (Expense.items e)] else [])
                         (Expense.consumed_by e))); [|exact H].
    intros s e s' Hs. unfold process_expense in Hs.
    apply bind_Ok_inv in Hs. destruct Hs as [sp [_ Hs]].
    apply (foldM_running (consume e) (fun s => total_amount_of (report s) k)
             (fun c => if String.eqb (Roommate.id c) k
                       then [sum_cost (Expense.items e)] else [])) in Hs.
    + exact Hs.
    + intros s0 c s0' H0.
      destruct (consume_person _ _ _ _ k H0) as [_ [T _]]. rewrite T.
      destruct (String.eqb (Roommate.id c) k); reflexivity.
  - apply (foldM_running process_expense (fun s => consumption s @ k)
             (fun e => flat_map
                         (fun c => if String.eqb (Roommate.id c) k
                                   then [share_of e] else [])
                         (Expense.consumed_by e))); [|exact H].
    intros s e s' Hs. unfold process_expense in Hs.
    apply bind_Ok_inv in Hs. destruct Hs as [sp [_ Hs]].
    apply (foldM_running (consume e) (fun s => consumption s @ k)
             (fun c => if String.eqb (Roommate.id c) k
                       then [share_of e] else [])) in Hs.
    + exact Hs.
    + intros s0 c s0' H0.
      destruct (consume_person _ _ _ _ k H0) as [C _]. rewrite C.
      destruct (String.eqb (Roommate.id c) k); reflexivity.
Qed.

(** C4, as stated, fails: after the shared meal Bob's [items] hold the full
    costs 20 and 10, which add up to 30, while he consumed 10. *)
Lemma item_totals_exceed_consumption :
  exists st r c,
    aggregate [shared_meal] = Ok st /\
    Dict.get (report st) "B" = Some r /\
    Dict.get (consumption st) "B" = Some c /\
    Qsum (Dict.values (Report.items r)) == 30 /\
    c == 10 /\
    ~ Qsum (Dict.values (Report.items r)) == c.
Proof.
  do 3 eexists. split; [vm_compute; reflexivity|].
  split; [vm_compute; reflexivity|].
  split; [vm_compute; reflexivity|].
  split; [vm_compute; reflexivity|].
  split; [vm_compute; reflexivity|].
  intros H; vm_compute in H; discriminate H.
Qed.

(** C4, amended.  In the report the first loop of [weekly_report] leaves,
    for every person [k] with a record and every item name [n]: [items[n]]
    of the record is the running sum, from zero, of the full cost of every
    item named [n], once for every listing of [k] among the consumers of
    the item's expense, in the order of the loops; nothing is divided by
    the number of consumers.  [total_amount] is the running sum of the full
    totals of the same expenses.  The equalities are those of the program's
    own additions, one by one. *)
Theorem item_totals_take_full_costs
    (expenses : list Expense.t) (st : agg) (k : string) (r : Report.t) :
  aggregate expenses = Ok st ->
  Dict.get (report st) k = Some r ->
  (forall n, Report.items r @ n = running_sum (costs_charged k n expenses)) /\
  Report.total_amount r = running_sum (totals_charged k expenses).
Proof.
  intros H Hr. unfold running_sum. split.
  - intros n. destruct (aggregate_running k n expenses _ _ H) as [I _].
    unfold item_total_of in I. rewrite Hr in I. exact I.
  - destruct (aggregate_running k ""%string expenses _ _ H) as [_ [T _]].
    unfold total_amount_of in T. rewrite Hr in T. exact T.
Qed.

(** ** [split_expense]: outcomes and amounts *)

(** The consumer loop of one expense: when it returns and what it raises. *)
Lemma add_splits_outcome (x : Q) (l : list Roommate.t) :
  forall d,
    match foldM (add_split x) l d with
    | Ok d' =>
        (forall c, In c l -> In (Roommate.id c) (Dict.keys d)) /\
        Dict.keys d' = Dict.keys d
    | Raise ZeroDivisionError => False
    | Raise (KeyError k) =>
        In k (map Roommate.id l) /\ ~ In k (Dict.keys d)
    end.
Proof.
  induction l as [|c l IH]; intros d; cbn [foldM].
  - split; [intros c [] | reflexivity].
  - destruct (add_split x d c) as [d1|e] eqn:E1; simpl bind.
    + destruct (add_split_spec _ _ _ _ E1) as [K1 _].
      assert (Hc : In (Roommate.id c) (Dict.keys d)).
      { unfold add_split, Dict.getitem in E1.
        destruct (Dict.get d (Roommate.id c)) eqn:G; [|discriminate E1].
        apply get_in_keys. rewrite G. discriminate. }
      specialize (IH d1). destruct (foldM (add_split x) l d1) as [d2|[|k]].
      * destruct IH as [Hall K2]. split; [|congruence].
        intros c' [<-|Hc']; [exact Hc|]. rewrite <- K1. apply Hall. exact Hc'.
      * exact IH.
      * destruct IH as [Hin Hnin]. split; [simpl; now right|].
        rewrite <- K1. exact Hnin.
    + unfold add_split, Dict.getitem in E1.
      destruct (Dict.get d (Roommate.id c)) eqn:G; [discriminate E1|].
      simpl in E1. injection E1 as <-.
      split; [simpl; now left | apply get_None_keys; exact G].
Qed.

Lemma split_one_outcome (d : dict Split.entry) (e : Expense.t) :
  match split_one d e with
  | Ok d' =>
      Expense.consumed_by e <> [] /\
      (forall c, In c (Expense.consumed_by e) -> In (Roommate.id c) (Dict.keys d)) /\
      Dict.keys d' = Dict.keys d
  | Raise ZeroDivisionError => Expense.consumed_by e = []
  | Raise (KeyError k) =>
      In k (map Roommate.id (Expense.consumed_by e)) /\ ~ In k (Dict.keys d)
  end.
Proof.
  unfold split_one.
  destruct (Expense.consumed_by e) as [|c0 l] eqn:El.
  - reflexivity.
  - unfold pydiv. cbn [List.length bind].
    set (x := _ / _).
    pose proof (add_splits_outcome x (c0 :: l) d) as H.
    destruct (foldM (add_split x) (c0 :: l) d) as [d'|[|k]].
    + destruct H as [Hall K]. split; [discriminate|]. split; assumption.
    + destruct H.
    + exact H.
Qed.

Lemma split_loop_outcome (expenses : list Expense.t) :
  forall d,
    match foldM split_one expenses d with
    | Ok d' =>
        (forall e, In e expenses -> Expense.consumed_by e <> []) /\
        incl (consumers expenses) (Dict.keys d) /\
        Dict.keys d' = Dict.keys d
    | Raise ZeroDivisionError =>
        exists e, In e expenses /\ Expense.consumed_by e = []
    | Raise (KeyError k) =>
        In k (consumers expenses) /\ ~ In k (Dict.keys d)
    end.
Proof.
  induction expenses as [|e es IH]; intros d; cbn [foldM].
  - split; [intros e [] | split; [intros k [] | reflexivity]].
  - pose proof (split_one_outcome d e) as H1.
    destruct (split_one d e) as [d1|[|k]]; simpl bind.
    + destruct H1 as [Hne [Hin K1]].
      specialize (IH d1). destruct (foldM split_one es d1) as [d2|[|k]].
      * destruct IH as [Hne' [Hincl K2]]. split; [|split; [|congruence]].
        -- intros e' [<-|He']; [exact Hne | apply Hne'; exact He'].
        -- intros k Hk. unfold consumers in Hk. simpl in Hk.
           apply in_app_iff in Hk. destruct Hk as [Hk|Hk].
           ++ apply in_map_iff in Hk. destruct Hk as [c [<- Hc]]. apply Hin. exact Hc.
           ++ rewrite <- K1. apply Hincl. exact Hk.
      * destruct IH as [e' [He' Hempty]]. exists e'. split; [now right | exact Hempty].
      * destruct IH as [Hk Hnin]. split.
        -- unfold consumers. simpl. apply in_app_iff. now right.
        -- rewrite <- K1. exact Hnin.
    + exists e. split; [now left | exact H1].
    + destruct H1 as [Hk Hnin]. split; [|exact Hnin].
      unfold consumers. simpl. apply in_app_iff. now left.
Qed.

(** X6.  Whenever [split_expense] returns, no expense of the week has an
    empty consumer group and every consumer of the week is in the roster:
    the division of line 181 and the subscript of line 184 let no other
    week through. *)
Theorem split_expense_outcome
    (roster : list Roommate.t) (expenses : list Expense.t)
    (roommate_expenses : dict Split.entry) :
  split_expense roster expenses = Ok roommate_expenses ->
  (forall e, In e expenses -> Expense.consumed_by e <> []) /\
  incl (consumers expenses) (map Roommate.id roster).
Proof.
  intros Hout.
  pose proof (split_loop_outcome expenses (roommate_expenses_init roster)) as H.
  fold (split_expense roster expenses) in H.
  rewrite Hout in H. destruct H as [Hne [Hincl _]].
  split; [exact Hne|]. intros k Hk.
  specialize (Hincl k Hk). unfold roommate_expenses_init in Hincl.
  rewrite roommate_expenses_from_keys in Hincl. simpl in Hincl. tauto.
Qed.

Lemma amounts_set (d : dict Split.entry) (k : string) (e e' : Split.entry) :
  Dict.get d k = Some e ->
  Qsum (map Split.amount (Dict.values (Dict.set d k e')))
  == Qsum (map Split.amount (Dict.values d)) - Split.amount e + Split.amount e'.
Proof.
  induction d as [|[k0 e0] d IH]; simpl; intros H.
  - discriminate H.
  - destruct (String.eqb k0 k); simpl.
    + injection H as <-. ring.
    + rewrite IH by exact H. ring.
Qed.

(** Line 184, seen from any person. *)
Lemma add_split_person (x : Q) (d d' : dict Split.entry) (c : Roommate.t)
    (k : string) :
  add_split x d c = Ok d' ->
  amount_of d' k
    = (if String.eqb (Roommate.id c) k then amount_of d k + x else amount_of d k) /\
  Qsum (map Split.amount (Dict.values d'))
    == Qsum (map Split.amount (Dict.values d)) + x /\
  (forall e', Dict.get d' k = Some e' ->
     exists e, Dict.get d k = Some e /\ Split.name e' = Split.name e).
Proof.
  unfold add_split. intros H.
  apply bind_Ok_inv in H. destruct H as [e [He H]].
  apply getitem_Some in He. injection H as <-.
  split; [|split].
  - unfold amount_of.
    destruct (String.eqb_spec (Roommate.id c) k) as [<-|Hne].
    + rewrite get_set_same, He. reflexivity.
    + rewrite get_set_other by exact Hne. reflexivity.
  - rewrite (amounts_set _ _ _ _ He). simpl. ring.
  - intros e'. destruct (string_dec (Roommate.id c) k) as [<-|Hne].
    + rewrite get_set_same. intros E. injection E as <-.
      exists e. split; [exact He | reflexivity].
    + rewrite get_set_other by exact Hne. intros E.
      exists e'. split; [exact E | reflexivity].
Qed.

Lemma add_splits_person (x : Q) (k : string) (l : list Roommate.t) :
  forall d d',
    foldM (add_split x) l d = Ok d' ->
    amount_of d' k
      == amount_of d k
         + inject_Z (Z.of_nat (count_occ string_dec (map Roommate.id l) k)) * x /\
    Qsum (map Split.amount (Dict.values d'))
      == Qsum (map Split.amount (Dict.values d))
         + inject_Z (Z.of_nat (List.length l)) * x /\
    (forall e', Dict.get d' k = Some e' ->
       exists e, Dict.get d k = Some e /\ Split.name e' = Split.name e).
Proof.
  induction l as [|c l IH]; intros d d' H.
  - injection H as <-. cbn [map count_occ List.length Z.of_nat].
    change (inject_Z 0) with 0. split; [ring|]. split; [ring|].
    intros e' E. exists e'. split; [exact E | reflexivity].
  - cbn [foldM] in H. apply bind_Ok_inv in H. destruct H as [d1 [H1 H2]].
    apply (add_split_person _ _ _ _ k) in H1. destruct H1 as [A1 [S1 N1]].
    apply IH in H2. destruct H2 as [A2 [S2 N2]].
    change (map Roommate.id (c :: l)) with (Roommate.id c :: map Roommate.id l).
    split; [|split].
    + rewrite A2, A1, count_cons_Q.
      destruct (String.eqb (Roommate.id c) k); ring.
    + rewrite S2, S1.
      change (List.length (c :: l)) with (S (List.length l)).
      rewrite Nat2Z.inj_succ, <- Z.add_1_r, inject_Z_plus. ring.
    + intros e' E'. destruct (N2 e' E') as [e1 [E1 Hn1]].
      destruct (N1 e1 E1) as [e [E Hn]]. exists e. split; [exact E | congruence].
Qed.

Lemma split_one_person (d d' : dict Split.entry) (e : Expense.t) (k : string) :
  split_one d e = Ok d' ->
  amount_of d' k
    == amount_of d k + inject_Z (Z.of_nat (times_consumed k e)) * share_of e /\
  Qsum (map Split.amount (Dict.values d'))
    == Qsum (map Split.amount (Dict.values d)) + sum_cost (Expense.items e) /\
  (forall e', Dict.get d' k = Some e' ->
     exists e0, Dict.get d k = Some e0 /\ Split.name e' = Split.name e0).
Proof.
  unfold split_one. intros H.
  apply bind_Ok_inv in H. destruct H as [x [Hx H]].
  apply pydiv_Ok in Hx. destruct Hx as [Hlen ->].
  apply (add_splits_person _ k) in H. destruct H as [A [S N]].
  split; [exact A|]. split; [|exact N].
  rewrite S.
  set (n := inject_Z (Z.of_nat (List.length (Expense.consumed_by e)))).
  assert (Hn0 : ~ n == 0).
  { unfold n. change 0 with (inject_Z 0). rewrite inject_Z_injective. lia. }
  field. exact Hn0.
Qed.

Lemma split_loop_person (k : string) (expenses : list Expense.t) :
  forall d d',
    foldM split_one expenses d = Ok d' ->
    amount_of d' k == amount_of d k + consumed_by_shares k expenses /\
    Qsum (map Split.amount (Dict.values d'))
      == Qsum (map Split.amount (Dict.values d)) + spent_total expenses /\
    (forall e', Dict.get d' k = Some e' ->
       exists e0, Dict.get d k = Some e0 /\ Split.name e' = Split.name e0).
Proof.
  unfold consumed_by_shares, spent_total.
  induction expenses as [|e es IH]; intros d d' H.
  - injection H as <-. simpl. split; [ring|]. split; [ring|].
    intros e' E. exists e'. split; [exact E | reflexivity].
  - cbn [foldM] in H. apply bind_Ok_inv in H. destruct H as [d1 [H1 H2]].
    apply (split_one_person _ _ _ k) in H1. destruct H1 as [A1 [S1 N1]].
    apply IH in H2. destruct H2 as [A2 [S2 N2]].
    split; [|split].
    + rewrite A2, A1. simpl. ring.
    + rewrite S2, S1. simpl. ring.
    + intros e' E'. destruct (N2 e' E') as [e1 [E1 Hn1]].
      destruct (N1 e1 E1) as [e0 [E0 Hn]]. exists e0. split; [exact E0 | congruence].
Qed.


Lemma roommate_expenses_init_sum (roster : list Roommate.t) :
  Qsum (map Split.amount (Dict.values (roommate_expenses_init roster))) == 0.
Proof.
  pose proof (roommate_expenses_from_zero roster [] (Forall_nil _)) as H.
  fold (roommate_expenses_init roster) in H.
  induction H as [|e l He _ IH]; simpl; [reflexivity|].
  rewrite He, IH. ring.
Qed.




Lemma roommate_expenses_from_fresh (roster : list Roommate.t) :
  forall d,
    NoDup (Dict.keys d ++ map Roommate.id roster) ->
    fold_left
      (fun d roommate =>
         Dict.set d (Roommate.id roommate)
           {| Split.name := Roommate.name roommate; Split.amount := 0 |})
      roster d
    = (d ++ map (fun r => (Roommate.id r,
                           {| Split.name := Roommate.name r; Split.amount := 0 |}))
                roster)%list.
Proof.
  induction roster as [|r roster IH]; intros d Hnd; simpl.
  - rewrite app_nil_r. reflexivity.
  - simpl in Hnd. pose proof (NoDup_remove_2 _ _ _ Hnd) as Hnin.
    rewrite set_absent by (intros H; apply Hnin; apply in_app_iff; now left).
    rewrite IH.
    + rewrite <- app_assoc. reflexivity.
    + unfold Dict.keys in *. rewrite map_app. simpl.
      rewrite <- app_assoc. exact Hnd.
Qed.

Lemma get_init_member (roster : list Roommate.t) (p : Roommate.t) :
  NoDup (map Roommate.id roster) -> In p roster ->
  Dict.get (map (fun r => (Roommate.id r,
                           {| Split.name := Roommate.name r; Split.amount := 0 |}))
                roster) (Roommate.id p)
  = Some {| Split.name := Roommate.name p; Split.amount := 0 |}.
Proof.
  induction roster as [|r roster IH]; simpl; intros Hnd Hin.
  - destruct Hin.
  - inversion Hnd as [|? ? Hnin Hnd']; subst.
    destruct (String.eqb_spec (Roommate.id r) (Roommate.id p)) as [E|Hne].
    + destruct Hin as [->|Hin]; [reflexivity|].
      elim Hnin. rewrite E. apply in_map. exact Hin.
    + destruct Hin as [->|Hin]; [now elim Hne|]. apply IH; assumption.
Qed.

(** X10.  With distinct roommate ids, whenever [split_expense] returns, its
    mapping lists the roster in roster order, and the entry of every
    roommate carries that roommate's name. *)
Theorem split_expense_keeps_roster
    (roster : list Roommate.t) (expenses : list Expense.t)
    (roommate_expenses : dict Split.entry) :
  NoDup (map Roommate.id roster) ->
  split_expense roster expenses = Ok roommate_expenses ->
  Dict.keys roommate_expenses = map Roommate.id roster /\
  forall p, In p roster ->
    exists e, Dict.get roommate_expenses (Roommate.id p) = Some e /\
              Split.name e = Roommate.name p.
Proof.
  intros Hnd H.
  assert (Einit : roommate_expenses_init roster
                  = map (fun r => (Roommate.id r,
                                   {| Split.name := Roommate.name r;
                                      Split.amount := 0 |})) roster).
  { unfold roommate_expenses_init.
    rewrite roommate_expenses_from_fresh; [reflexivity | exact Hnd]. }
  pose proof (split_loop_outcome expenses (roommate_expenses_init roster)) as Hout.
  unfold split_expense in H. rewrite H in Hout. destruct Hout as [_ [_ K]].
  assert (Kinit : Dict.keys (roommate_expenses_init roster) = map Roommate.id roster).
  { rewrite Einit. unfold Dict.keys. rewrite map_map. reflexivity. }
  split; [congruence|].
  intros p Hp.
  destruct (in_keys_get roommate_expenses (Roommate.id p)) as [e He].
  { rewrite K, Kinit. apply in_map. exact Hp. }
  exists e. split; [exact He|].
  apply (split_loop_person (Roommate.id p)) in H. destruct H as [_ [_ N]].
  destruct (N e He) as [e0 [E0 Hn]].
  rewrite Einit, (get_init_member roster p Hnd Hp) in E0.
  injection E0 as <-. exact Hn.
Qed.

(** ** Settlement: what the transfers are *)





(** ** Settlement: how far a balance moves *)




(** ** Settlement: what the report records and what can go wrong *)

(** The state lines 241-250 leave. *)
Lemma pay_shape (rid oid : string) (amount : Q) (st st' : settle_state) :
  rid <> oid ->
  pay rid oid amount st = Ok st' ->
  exists creditor other b ob,
    Dict.get (s_report st) rid = Some creditor /\
    Dict.get (s_report st) oid = Some other /\
    Dict.get (balances st) rid = Some b /\
    Dict.get (balances st) oid = Some ob /\
    s_report st'
      = Dict.set
          (Dict.set (s_report st) rid
             (add_owed_by creditor {| user := Report.name other; amount := amount |}))
          oid
          (add_owes_to other {| user := Report.name creditor; amount := amount |}) /\
    balances st'
      = Dict.set (Dict.set (balances st) rid (b - amount)) oid (ob + amount) /\
    trace st' = (trace st ++
                 [{| t_from := oid; t_to := rid; t_amount := amount |}])%list.
Proof.
  intros Hne H. unfold pay in H.
  apply bind_Ok_inv in H. destruct H as [creditor [Hc H]].
  apply bind_Ok_inv in H. destruct H as [other [Ho H]].
  apply bind_Ok_inv in H. destruct H as [other1 [Ho1 H]].
  apply bind_Ok_inv in H. destruct H as [creditor1 [Hc1 H]].
  apply bind_Ok_inv in H. destruct H as [b [Hb H]].
  apply bind_Ok_inv in H. destruct H as [ob [Hob H]].
  apply getitem_Some in Hc, Ho, Ho1, Hc1, Hb, Hob.
  rewrite get_set_other in Ho1 by exact Hne.
  rewrite get_set_same in Hc1.
  rewrite get_set_other in Hob by exact Hne.
  assert (other1 = other) by congruence. subst other1.
  injection Hc1 as <-.
  exists creditor, other, b, ob.
  injection H as <-. simpl. repeat split; assumption.
Qed.

Lemma records_transfers_nil (rep : dict Report.t) : records_transfers rep [] rep.
Proof.
  split; [reflexivity|]. intros k r Hr. exists r.
  unfold owed_by_of, owes_to_of. simpl. rewrite !app_nil_r.
  repeat split; try reflexivity. exact Hr.
Qed.

Lemma records_transfers_names (rep rep' : dict Report.t) (ts : list transfer) :
  records_transfers rep ts rep' -> forall k, name_of rep' k = name_of rep k.
Proof.
  intros [K H] k. unfold name_of.
  destruct (Dict.get rep k) as [r|] eqn:E.
  - destruct (H k r E) as [r' [E' [Hn _]]]. rewrite E'. exact Hn.
  - assert (E' : Dict.get rep' k = None).
    { apply get_None_keys. rewrite K. apply get_None_keys. exact E. }
    rewrite E'. reflexivity.
Qed.

Lemma records_transfers_app (rep rep1 rep2 : dict Report.t) (ts1 ts2 : list transfer) :
  records_transfers rep ts1 rep1 ->
  records_transfers rep1 ts2 rep2 ->
  records_transfers rep (ts1 ++ ts2) rep2.
Proof.
  intros H1 H2. pose proof (records_transfers_names _ _ _ H1) as Hn.
  destruct H1 as [K1 H1]. destruct H2 as [K2 H2].
  split; [congruence|]. intros k r Hr.
  destruct (H1 k r Hr) as [r1 [E1 [N1 [A1 [C1 [I1 [B1 T1]]]]]]].
  destruct (H2 k r1 E1) as [r2 [E2 [N2 [A2 [C2 [I2 [B2 T2]]]]]]].
  exists r2. split; [exact E2|].
  split; [congruence|]. split; [congruence|].
  split; [congruence|]. split; [congruence|].
  assert (Eowed : owed_by_of rep1 k ts2 = owed_by_of rep k ts2).
  { unfold owed_by_of. apply map_ext. intros t. rewrite Hn. reflexivity. }
  assert (Eowes : owes_to_of rep1 k ts2 = owes_to_of rep k ts2).
  { unfold owes_to_of. apply map_ext. intros t. rewrite Hn. reflexivity. }
  split.
  - rewrite B2, B1, Eowed. unfold owed_by_of.
    rewrite filter_app, map_app, app_assoc. reflexivity.
  - rewrite T2, T1, Eowes. unfold owes_to_of.
    rewrite filter_app, map_app, app_assoc. reflexivity.
Qed.

(** Lines 241-248 record the transfer they make. *)
Lemma pay_records (rid oid : string) (amount : Q) (st st' : settle_state) :
  rid <> oid ->
  pay rid oid amount st = Ok st' ->
  records_transfers (s_report st)
    [{| t_from := oid; t_to := rid; t_amount := amount |}] (s_report st').
Proof.
  intros Hne H. destruct (pay_shape _ _ _ _ _ Hne H)
    as [creditor [other [b [ob [Hc [Ho [_ [_ [R _]]]]]]]]].
  rewrite R. split.
  - rewrite keys_set_present.
    + apply keys_set_present. apply get_in_keys. rewrite Hc. discriminate.
    + apply in_keys_set. right. apply get_in_keys. rewrite Ho. discriminate.
  - intros k r Hr. unfold owed_by_of, owes_to_of, name_of. simpl.
    destruct (string_dec k oid) as [->|Hko].
    + rewrite get_set_same. eexists. split; [reflexivity|].
      assert (r = other) by congruence. subst r.
      apply not_eq_sym in Hne. apply String.eqb_neq in Hne.
      rewrite String.eqb_sym in Hne. rewrite Hne.
      rewrite String.eqb_refl. simpl. rewrite Hc, app_nil_r.
      repeat split; reflexivity.
    + rewrite get_set_other by congruence.
      destruct (string_dec k rid) as [->|Hkr].
      * rewrite get_set_same. eexists. split; [reflexivity|].
        assert (r = creditor) by congruence. subst r.
        apply String.eqb_neq in Hne. rewrite String.eqb_sym in Hne.
        rewrite Hne, String.eqb_refl. simpl. rewrite Ho, app_nil_r.
        repeat split; reflexivity.
      * rewrite get_set_other by congruence. exists r.
        apply not_eq_sym in Hko, Hkr. apply String.eqb_neq in Hko, Hkr.
        rewrite Hko, Hkr. simpl. rewrite !app_nil_r.
        repeat split; try reflexivity. exact Hr.
Qed.

Lemma settle_with_records (rid : string) (balance : Q) (others : list string) :
  forall st st',
    settle_with rid balance others st = Ok st' ->
    exists ts,
      trace st' = (trace st ++ ts)%list /\
      records_transfers (s_report st) ts (s_report st').
Proof.
  induction others as [|oid rest IH]; intros st st' H; cbn [settle_with] in H.
  - injection H as <-. exists []. rewrite app_nil_r.
    split; [reflexivity | apply records_transfers_nil].
  - apply bind_Ok_inv in H. destruct H as [ob [_ H]].
    destruct (negb (String.eqb oid rid) && Qltb ob 0) eqn:G; [|apply IH; exact H].
    apply andb_true_iff in G. destruct G as [Gne _].
    apply negb_true_iff, String.eqb_neq, not_eq_sym in Gne.
    apply bind_Ok_inv in H. destruct H as [st1 [H1 H]].
    apply bind_Ok_inv in H. destruct H as [b [_ H]].
    pose proof (pay_records _ _ _ _ _ Gne H1) as R1.
    destruct (pay_shape _ _ _ _ _ Gne H1) as [_ [_ [_ [_ [_ [_ [_ [_ [_ [_ T1]]]]]]]]]].
    destruct (Qeq_bool b 0).
    + injection H as <-. eexists. split; [exact T1 | exact R1].
    + destruct (IH _ _ H) as [ts [T2 R2]].
      eexists. split.
      * rewrite T2, T1, <- app_assoc. reflexivity.
      * apply (records_transfers_app _ _ _ _ _ R1 R2).
Qed.

Lemma settle_all_records (ids : list string) :
  forall st st',
    settle_all ids st = Ok st' ->
    exists ts,
      trace st' = (trace st ++ ts)%list /\
      records_transfers (s_report st) ts (s_report st').
Proof.
  induction ids as [|rid rest IH]; intros st st' H; cbn [settle_all] in H.
  - injection H as <-. exists []. rewrite app_nil_r.
    split; [reflexivity | apply records_transfers_nil].
  - apply bind_Ok_inv in H. destruct H as [balance [_ H]].
    destruct (Qltb 0 balance); [|apply IH; exact H].
    apply bind_Ok_inv in H. destruct H as [st1 [H1 H]].
    destruct (settle_with_records _ _ _ _ _ H1) as [ts1 [T1 R1]].
    destruct (IH _ _ H) as [ts2 [T2 R2]].
    exists (ts1 ++ ts2)%list. split.
    + rewrite T2, T1, <- app_assoc. reflexivity.
    + apply (records_transfers_app _ _ _ _ _ R1 R2).
Qed.

(** X15.  Whenever settlement returns, the report it leaves is the report
    it was given with the transfers recorded and nothing else changed: the
    same persons in the same order, every name, [total_amount],
    [total_items] and [items] as before, and for every transfer one debt
    appended to the receiver's [owed_by] under the payer's name and one to
    the payer's [owes_to] under the receiver's name, in the order of the
    transfers. *)
Theorem settle_records_its_transfers (st st' : settle_state) :
  settle st = Ok st' ->
  exists ts,
    trace st' = (trace st ++ ts)%list /\
    records_transfers (s_report st) ts (s_report st').
Proof.
  unfold settle. apply settle_all_records.
Qed.

(** Lines 241-250 raise for a person without a record only. *)
Lemma pay_outcome (rid oid : string) (amount : Q) (st : settle_state) :
  rid <> oid ->
  In rid (Dict.keys (balances st)) ->
  In oid (Dict.keys (balances st)) ->
  match pay rid oid amount st with
  | Ok st' =>
      Dict.keys (s_report st') = Dict.keys (s_report st) /\
      Dict.keys (balances st') = Dict.keys (balances st)
  | Raise x =>
      exists k, x = KeyError k /\ (k = rid \/ k = oid) /\
                ~ In k (Dict.keys (s_report st))
  end.
Proof.
  intros Hne Hr Ho.
  destruct (pay rid oid amount st) as [st'|x] eqn:E.
  - pose proof (pay_records _ _ _ _ _ Hne E) as [K _].
    split; [exact K|].
    destruct (pay_shape _ _ _ _ _ Hne E)
      as [_ [_ [b [ob [_ [_ [Hb [Hob [_ [B _]]]]]]]]]].
    rewrite B. rewrite keys_set_present.
    + apply keys_set_present. exact Hr.
    + apply in_keys_set. now right.
  - unfold pay in E.
    destruct (Dict.get (s_report st) rid) as [creditor|] eqn:Gc.
    + destruct (Dict.get (s_report st) oid) as [other|] eqn:Go.
      * exfalso.
        assert (Hcov : forall k, k = rid \/ k = oid -> In k (Dict.keys (s_report st))).
        { intros k [->| ->]; apply get_in_keys; [rewrite Gc | rewrite Go]; discriminate. }
        unfold Dict.getitem at 1 in E. rewrite Gc in E. simpl bind in E.
        unfold Dict.getitem at 1 in E. rewrite Go in E. simpl bind in E.
        unfold Dict.getitem at 1 in E.
        rewrite get_set_other, Go in E by exact Hne. simpl bind in E.
        unfold Dict.getitem at 1 in E. rewrite get_set_same in E. simpl bind in E.
        destruct (in_keys_get _ _ Hr) as [b Hb].
        unfold Dict.getitem at 1 in E. rewrite Hb in E. simpl bind in E.
        destruct (in_keys_get _ _ Ho) as [ob Hob].
        unfold Dict.getitem at 1 in E.
        rewrite get_set_other, Hob in E by exact Hne. simpl bind in E.
        discriminate E.
      * unfold Dict.getitem at 1 in E. rewrite Gc in E. simpl bind in E.
        unfold Dict.getitem at 1 in E. rewrite Go in E. simpl bind in E.
        injection E as <-. exists oid. split; [reflexivity|].
        split; [now right | apply get_None_keys; exact Go].
    + unfold Dict.getitem at 1 in E. rewrite Gc in E. simpl bind in E.
      injection E as <-. exists rid. split; [reflexivity|].
      split; [now left | apply get_None_keys; exact Gc].
Qed.

Lemma settle_with_outcome (rid : string) (balance : Q) (others : list string) :
  forall st,
    In rid (Dict.keys (balances st)) ->
    incl others (Dict.keys (balances st)) ->
    match settle_with rid balance others st with
    | Ok st' =>
        Dict.keys (s_report st') = Dict.keys (s_report st) /\
        Dict.keys (balances st') = Dict.keys (balances st)
    | Raise x =>
        exists k, x = KeyError k /\ In k (Dict.keys (balances st)) /\
                  ~ In k (Dict.keys (s_report st))
    end.
Proof.
  induction others as [|oid rest IH]; intros st Hr Hothers; cbn [settle_with].
  - split; reflexivity.
  - assert (Ho : In oid (Dict.keys (balances st))) by (apply Hothers; now left).
    assert (Hrest : incl rest (Dict.keys (balances st)))
      by (intros k Hk; apply Hothers; now right).
    destruct (in_keys_get _ _ Ho) as [ob Hob].
    unfold Dict.getitem at 1. rewrite Hob. simpl bind.
    destruct (negb (String.eqb oid rid) && Qltb ob 0) eqn:G;
      [|apply IH; assumption].
    apply andb_true_iff in G. destruct G as [Gne _].
    apply negb_true_iff, String.eqb_neq, not_eq_sym in Gne.
    pose proof (pay_outcome rid oid (pymin balance (- ob)) st Gne Hr Ho) as P.
    destruct (pay rid oid (pymin balance (- ob)) st) as [st1|x]; simpl bind.
    + destruct P as [K1 KB1].
      destruct (in_keys_get (balances st1) rid) as [b Hb]; [rewrite KB1; exact Hr|].
      unfold Dict.getitem at 1. rewrite Hb. simpl bind.
      destruct (Qeq_bool b 0); [split; assumption|].
      specialize (IH st1). rewrite KB1, K1 in IH. apply IH; assumption.
    + destruct P as [k [-> [Hk Hnin]]]. exists k. split; [reflexivity|].
      split; [destruct Hk as [->| ->]; assumption | exact Hnin].
Qed.

Lemma settle_all_outcome (ids : list string) :
  forall st,
    incl ids (Dict.keys (balances st)) ->
    match settle_all ids st with
    | Ok st' =>
        Dict.keys (s_report st') = Dict.keys (s_report st) /\
        Dict.keys (balances st') = Dict.keys (balances st)
    | Raise x =>
        exists k, x = KeyError k /\ In k (Dict.keys (balances st)) /\
                  ~ In k (Dict.keys (s_report st))
    end.
Proof.
  induction ids as [|rid rest IH]; intros st Hids; cbn [settle_all].
  - split; reflexivity.
  - assert (Hr : In rid (Dict.keys (balances st))) by (apply Hids; now left).
    assert (Hrest : incl rest (Dict.keys (balances st)))
      by (intros k Hk; apply Hids; now right).
    destruct (in_keys_get _ _ Hr) as [balance Hb].
    unfold Dict.getitem at 1. rewrite Hb. simpl bind.
    destruct (Qltb 0 balance); [|apply IH; assumption].
    pose proof (settle_with_outcome rid balance (Dict.keys (balances st)) st
                  Hr (incl_refl _)) as W.
    destruct (settle_with rid balance (Dict.keys (balances st)) st) as [st1|x];
      simpl bind; [|exact W].
    destruct W as [K1 KB1].
    specialize (IH st1). rewrite KB1, K1 in IH. apply IH. exact Hrest.
Qed.

(** C5, as stated, fails: [weekly_report] returns on an expense nobody
    consumed (it never divides for it), and [split_expense] fails on a
    missing roster entry before it reaches such an expense. *)
Lemma empty_group_other_outcomes :
  weekly_report [unshared] = Ok [] /\
  split_expense household [bought "tea" 4 ann [zed]; unshared]
    = Raise (KeyError "Z").
Proof. split; vm_compute; reflexivity. Qed.

(** C5, amended.  [split_expense] does not return on a week that has an
    expense with an empty consumer group, and a [ZeroDivisionError] of
    [split_expense] (line 181; the code has no error kind of its own) comes
    from such an expense only.  [weekly_report] never raises
    [ZeroDivisionError]: it divides inside the loop over the consumers
    (line 220), which an expense without consumers does not enter. *)
Theorem split_expense_empty_group
    (roster : list Roommate.t) (expenses : list Expense.t) :
  ((exists expense, In expense expenses /\ Expense.consumed_by expense = []) ->
   forall roommate_expenses,
     split_expense roster expenses <> Ok roommate_expenses) /\
  (split_expense roster expenses = Raise ZeroDivisionError ->
   exists expense, In expense expenses /\ Expense.consumed_by expense = []) /\
  weekly_report expenses <> Raise ZeroDivisionError.
Proof.
  pose proof (split_loop_outcome expenses (roommate_expenses_init roster)) as H.
  fold (split_expense roster expenses) in H.
  split; [|split].
  - intros [e [He Hempty]] out Hout. rewrite Hout in H.
    destruct H as [Hne _]. exact (Hne e He Hempty).
  - intros Hx. rewrite Hx in H. exact H.
  - intros Hx. destruct (aggregate_total expenses) as [st Hagg].
    unfold weekly_report, weekly_run in Hx. rewrite Hagg in Hx. simpl bind in Hx.
    pose proof (settle_all_outcome (Dict.keys (balances (settle_input st)))
                  (settle_input st) (incl_refl _)) as O.
    fold (settle (settle_input st)) in O.
    destruct (settle (settle_input st)) as [st'|y]; [discriminate Hx|].
    simpl in Hx. injection Hx as ->.
    destruct O as [k [E _]]. discriminate E.
Qed.

(** ** The week of a request *)

Lemma weekday_range (d : Z) : (0 <= Date.weekday d < 7)%Z.
Proof. unfold Date.weekday. apply Z.mod_pos_bound. lia. Qed.

(** The Monday of the week of [d]. *)
Lemma monday_of (d : Z) :
  exists q, (d - Date.weekday d = 7 * q - 6)%Z /\ (d + 6 = 7 * q + Date.weekday d)%Z.
Proof.
  exists ((d + 6) / 7)%Z. unfold Date.weekday.
  pose proof (Z.div_mod (d + 6) 7 ltac:(lia)). lia.
Qed.

Lemma weekday_monday (q : Z) : Date.weekday (7 * q - 6) = 0%Z.
Proof.
  unfold Date.weekday. replace (7 * q - 6 + 6)%Z with (q * 7)%Z by lia.
  apply Z.mod_mul. lia.
Qed.

Lemma add_days_in (d n : Z) :
  (Date.min <= d + n <= Date.max)%Z -> Date.add_days d n = Some (d + n)%Z.
Proof.
  intros [H1 H2]. unfold Date.add_days. cbv zeta.
  apply Z.leb_le in H1, H2. rewrite H1, H2. reflexivity.
Qed.

Lemma add_days_out (d n : Z) :
  (d + n < Date.min \/ Date.max < d + n)%Z -> Date.add_days d n = None.
Proof.
  intros H. unfold Date.add_days. cbv zeta.
  destruct H as [H|H]; apply Z.leb_gt in H; rewrite H;
    [reflexivity | rewrite andb_false_r; reflexivity].
Qed.

Lemma week_of_spec (d : Z) :
  Date.valid d ->
  exists q,
    (7 * q - 6 <= d <= 7 * q)%Z /\ (1 <= 7 * q - 6)%Z /\
    week_of d = if (7 * q <=? Date.max)%Z then Some (7 * q - 6, 7 * q)%Z else None.
Proof.
  intros [Hlo Hhi]. unfold Date.min, Date.max in *.
  destruct (monday_of d) as [q [Hq Hq']].
  pose proof (weekday_range d) as Hw.
  exists q. split; [lia|]. split; [lia|].
  unfold week_of.
  rewrite add_days_in by (unfold Date.min, Date.max; lia).
  replace (d + - Date.weekday d)%Z with (7 * q - 6)%Z by lia.
  destruct (Z.leb_spec (7 * q) 3652059).
  - rewrite add_days_in by (unfold Date.min, Date.max; lia).
    replace (7 * q - 6 + 6)%Z with (7 * q)%Z by lia. reflexivity.
  - rewrite add_days_out by (unfold Date.min, Date.max; lia). reflexivity.
Qed.

(** X17.  For every date the routes can be asked about, the week they
    query is the Monday-to-Sunday week of that date: it starts on a Monday
    that is a date, holds the date, and ends six days later.  The Monday
    never falls before [date.min]; for the dates from 9999-12-27 on, the
    Sunday falls after [date.max] and both routes raise [OverflowError]. *)
Theorem week_of_is_the_monday_week (d : Z) :
  Date.valid d ->
  ((d < 3652055)%Z ->
     exists start_of_week end_of_week,
       week_of d = Some (start_of_week, end_of_week) /\
       Date.weekday start_of_week = 0%Z /\
       (start_of_week <= d <= end_of_week)%Z /\
       end_of_week = (start_of_week + 6)%Z /\
       Date.valid start_of_week /\ Date.valid end_of_week) /\
  ((3652055 <= d)%Z ->
     week_of d = None /\
     (forall roster db, split_expense_route roster db d = RaisesOverflowError) /\
     (forall db, weekly_report_route db d = RaisesOverflowError)).
Proof.
  intros Hd. destruct (week_of_spec d Hd) as [q [Hin [Hq1 Hw]]].
  unfold Date.max in Hw. split.
  - intros Hlt.
    assert (Hle : (7 * q <= 3652059)%Z) by lia.
    apply Z.leb_le in Hle. rewrite Hle in Hw.
    exists (7 * q - 6)%Z, (7 * q)%Z.
    split; [exact Hw|]. split; [apply weekday_monday|].
    split; [lia|]. split; [lia|].
    apply Z.leb_le in Hle. unfold Date.valid, Date.min, Date.max. lia.
  - intros Hge.
    assert (Hgt : (7 * q <=? 3652059)%Z = false) by (apply Z.leb_gt; lia).
    rewrite Hgt in Hw. split; [exact Hw|].
    unfold split_expense_route, weekly_report_route. rewrite Hw.
    split; reflexivity.
Qed.

Lemma week_of_same_week (d1 d2 lo hi : Z) :
  Date.valid d1 ->
  week_of d1 = Some (lo, hi) ->
  (lo <= d2 <= hi)%Z ->
  week_of d2 = Some (lo, hi).
Proof.
  intros Hd1 Hw H2.
  destruct (week_of_spec d1 Hd1) as [q [Hin [Hq1 Hw1]]].
  rewrite Hw in Hw1. unfold Date.max in Hw1.
  destruct (Z.leb_spec (7 * q) 3652059) as [Hle|]; [|discriminate Hw1].
  assert (E : (lo, hi) = ((7 * q - 6)%Z, (7 * q)%Z)) by congruence.
  assert (Elo : lo = (7 * q - 6)%Z) by exact (f_equal fst E).
  assert (Ehi : hi = (7 * q)%Z) by exact (f_equal snd E).
  clear E Hw1. subst lo hi.
  assert (Hd2 : Date.valid d2) by (unfold Date.valid, Date.min, Date.max; lia).
  destruct (week_of_spec d2 Hd2) as [q2 [Hin2 [_ Hw2]]].
  assert (q2 = q) by lia. subst q2.
  rewrite Hw2. unfold Date.max.
  apply Z.leb_le in Hle. rewrite Hle. reflexivity.
Qed.

(** X18.  Both routes answer for the week, not for the day: any two dates
    of the same Monday-to-Sunday week get the same answer from
    [split_expense] and from [weekly_report]. *)
Theorem routes_depend_on_the_week_only
    (roster : list Roommate.t) (db : list Stored.t) (d1 d2 lo hi : Z) :
  Date.valid d1 ->
  week_of d1 = Some (lo, hi) ->
  (lo <= d2 <= hi)%Z ->
  split_expense_route roster db d2 = split_expense_route roster db d1 /\
  weekly_report_route db d2 = weekly_report_route db d1.
Proof.
  intros Hd1 Hw H2.
  pose proof (week_of_same_week d1 d2 lo hi Hd1 Hw H2) as Hw2.
  unfold split_expense_route, weekly_report_route. rewrite Hw, Hw2.
  split; reflexivity.
Qed.

(** ** The checks of [add_expense] *)

Lemma lacks_false (o : dict json) (field : string) :
  lacks o field = false <->
  exists v, Dict.get o field = Some v /\ truthy v = true.
Proof.
  unfold lacks. destruct (Dict.get o field) as [v|].
  - rewrite negb_false_iff. split.
    + intros H. exists v. split; [reflexivity | exact H].
    + intros [v' [E H]]. injection E as <-. exact H.
  - split; [discriminate | intros [v [E _]]; discriminate E].
Qed.

(** On an object line 94 raises nothing. *)
Lemma absent_or_empty_object (o : dict json) (field : string) :
  absent_or_empty (JObject o) field = inl (lacks o field).
Proof.
  unfold absent_or_empty, has_field, subscript, Dict.contains, lacks.
  destruct (Dict.get o field); reflexivity.
Qed.

Lemma missing_among_object (o : dict json) (fields : list string) :
  missing_among (JObject o) fields = inl (filter (lacks o) fields).
Proof.
  induction fields as [|f fields IH]; [reflexivity|].
  cbn [missing_among filter]. rewrite absent_or_empty_object, IH.
  destruct (lacks o f); reflexivity.
Qed.

Lemma filter_lacks_nil (o : dict json) (fields : list string) :
  filter (lacks o) fields = [] <->
  forall field, In field fields -> lacks o field = false.
Proof.
  induction fields as [|f l IH]; simpl.
  - split; [intros _ field [] | reflexivity].
  - destruct (lacks o f) eqn:E.
    + split; [discriminate|]. intros H. specialize (H f (or_introl eq_refl)).
      congruence.
    + rewrite IH. split.
      * intros H field [<-|Hin]; [exact E | apply H; exact Hin].
      * intros H field Hin. apply H. now right.
Qed.

Lemma is_list_of_true (p : json -> bool) (v : json) :
  is_list_of p v = true <->
  exists l, v = JArray l /\ Forall (fun x => p x = true) l.
Proof.
  destruct v; simpl;
    try (split; [discriminate | intros [l' [E _]]; discriminate E]).
  rewrite forallb_forall, <- Forall_forall. split.
  - intros H. exists l. split; [reflexivity | exact H].
  - intros [l' [E H]]. injection E as <-. exact H.
Qed.

(** The checks on an object. *)
Lemma add_expense_checks_object (o : dict json) :
  (add_expense_checks (JObject o) = None <-> well_formed_expense (JObject o)) /\
  (forall message status,
      add_expense_checks (JObject o) = Some (message, status) ->
      status = 400%nat).
Proof.
  unfold add_expense_checks, add_expense_guard, missing_fields.
  rewrite missing_among_object.
  destruct (filter (lacks o) required_fields) as [|f fs] eqn:M.
  - pose proof (proj1 (filter_lacks_nil o required_fields) M) as Hall.
    assert (Hf : forall field, In field required_fields ->
                 exists v, Dict.get o field = Some v /\ truthy v = true).
    { intros field Hin. apply lacks_false. apply Hall. exact Hin. }
    destruct (Hf "items"%string) as [items [Ei Ti]]; [simpl; tauto|].
    destruct (Hf "consumedBy"%string) as [cons [Ec Tc]]; [simpl; tauto|].
    unfold subscript. rewrite Ei, Ec.
    destruct (is_list_of is_dict items) eqn:Li; simpl.
    + destruct (is_list_of is_str cons) eqn:Lc; simpl.
      * split; [|intros m s H; discriminate H].
        split; [intros _|reflexivity].
        apply is_list_of_true in Li, Lc.
        destruct Li as [li [-> Fi]]. destruct Lc as [lc [-> Fc]].
        exists o. split; [reflexivity|].
        split; [apply Hf; simpl; tauto|].
        split; [apply Hf; simpl; tauto|].
        split; [apply Hf; simpl; tauto|].
        split.
        -- exists li. split; [exact Ei|]. split; [|exact Fi].
           intros ->. discriminate Ti.
        -- exists lc. split; [exact Ec|]. split; [|exact Fc].
           intros ->. discriminate Tc.
      * split; [|intros m s H; injection H as _ <-; reflexivity].
        split; [discriminate|].
        intros [o' [Eo [_ [_ [_ [_ [lc [Ec' [_ Fc]]]]]]]]].
        injection Eo as <-.
        rewrite Ec in Ec'. injection Ec' as ->.
        assert (is_list_of is_str (JArray lc) = true)
          by (apply is_list_of_true; exists lc; split; [reflexivity | exact Fc]).
        congruence.
    + split; [|intros m s H; injection H as _ <-; reflexivity].
      split; [discriminate|].
      intros [o' [Eo [_ [_ [_ [[li [Ei' [_ Fi]]] _]]]]]].
      injection Eo as <-.
      rewrite Ei in Ei'. injection Ei' as ->.
      assert (is_list_of is_dict (JArray li) = true)
        by (apply is_list_of_true; exists li; split; [reflexivity | exact Fi]).
      congruence.
  - split; [|intros m s H; injection H as _ <-; reflexivity].
    split; [discriminate|].
    intros [o' [Eo [Hd [Hm [Hp [[li [Ei [Ni _]]] [lc [Ec [Nc _]]]]]]]]].
    injection Eo as <-.
    assert (Hnil : filter (lacks o) required_fields = []).
    { apply filter_lacks_nil. intros field Hin.
      apply lacks_false.
      simpl in Hin.
      destruct Hin as [<-|[<-|[<-|[<-|[<-|[]]]]]]; try assumption.
      - exists (JArray li). split; [exact Ei|]. destruct li; [now elim Ni | reflexivity].
      - exists (JArray lc). split; [exact Ec|]. destruct lc; [now elim Nc | reflexivity]. }
    congruence.
Qed.

(** Line 94 on a list or a string: a field that is found is then used as
    a subscript, which raises; a field that is not found is missing. *)
Lemma missing_among_unsubscriptable (data : json) (present : string -> bool) :
  (forall field, has_field data field = inl (present field)) ->
  (forall field, subscript data field = inr TypeError) ->
  forall fields,
    missing_among data fields
    = if existsb present fields then inr TypeError else inl fields.
Proof.
  intros Hh Hs. induction fields as [|f fields IH]; [reflexivity|].
  cbn [missing_among existsb]. unfold absent_or_empty.
  rewrite Hh, Hs. destruct (present f); [reflexivity|].
  rewrite IH. simpl. destruct (existsb present fields); reflexivity.
Qed.

Lemma add_expense_checks_unsubscriptable (data : json) (present : string -> bool) :
  (forall field, has_field data field = inl (present field)) ->
  (forall field, subscript data field = inr TypeError) ->
  add_expense_checks data
  = if existsb present required_fields then Some server_error
    else Some ("Missing or empty required fields: date, mealType, items, purchasedBy, consumedBy"%string,
               400%nat).
Proof.
  intros Hh Hs. unfold add_expense_checks, add_expense_guard, missing_fields.
  rewrite (missing_among_unsubscriptable data present Hh Hs).
  destruct (existsb present required_fields); reflexivity.
Qed.

(** X19.  The checks of [add_expense] let a body through exactly when it is
    a JSON object in which [date], [mealType] and [purchasedBy] are present
    and not empty, [items] is a non-empty list of objects and [consumedBy]
    a non-empty list of strings; in particular an expense without consumers
    or without items is not stored through this route.  An object that does
    not pass is answered with status 400.  A body that is [null], a boolean
    or a number is answered with the 500 of the handler, and so is a list
    or a string in which line 94 finds one of the field names; a list or a
    string in which it finds none is answered with status 400, all five
    fields missing. *)
Theorem add_expense_checks_outcome (data : json) :
  (add_expense_checks data = None <-> well_formed_expense data) /\
  match data with
  | JObject _ =>
      forall message status,
        add_expense_checks data = Some (message, status) -> status = 400%nat
  | JArray _ | JString _ =>
      ((exists field, In field required_fields /\ has_field data field = inl true) ->
       add_expense_checks data = Some server_error) /\
      ((forall field, In field required_fields -> has_field data field = inl false) ->
       add_expense_checks data
       = Some ("Missing or empty required fields: date, mealType, items, purchasedBy, consumedBy"%string,
               400%nat))
  | JNull | JBool _ | JNumber _ =>
      add_expense_checks data = Some server_error
  end.
Proof.
  assert (Hno : forall d, (forall o, d <> JObject o) ->
                          add_expense_checks d <> None ->
                          (add_expense_checks d = None <-> well_formed_expense d)).
  { intros d Hd Hn. split; [intros H; now elim Hn|].
    intros [o [E _]]. now elim (Hd o). }
  assert (Hcase : forall d present,
             (forall field, has_field d field = inl (present field)) ->
             (forall field, subscript d field = inr TypeError) ->
             add_expense_checks d <> None /\
             ((exists field, In field required_fields /\ has_field d field = inl true) ->
              add_expense_checks d = Some server_error) /\
             ((forall field, In field required_fields -> has_field d field = inl false) ->
              add_expense_checks d
              = Some ("Missing or empty required fields: date, mealType, items, purchasedBy, consumedBy"%string,
                      400%nat))).
  { intros d present Hh Hs.
    pose proof (add_expense_checks_unsubscriptable d present Hh Hs) as E.
    split; [|split].
    - rewrite E. destruct (existsb present required_fields); discriminate.
    - intros [field [Hin Hf]]. rewrite E.
      assert (X : existsb present required_fields = true).
      { apply existsb_exists. exists field. split; [exact Hin|].
        rewrite Hh in Hf. injection Hf as ->. reflexivity. }
      rewrite X. reflexivity.
    - intros Hall. rewrite E.
      assert (X : existsb present required_fields = false).
      { destruct (existsb present required_fields) eqn:X; [|reflexivity].
        apply existsb_exists in X. destruct X as [field [Hin Hp]].
        specialize (Hall field Hin). rewrite Hh, Hp in Hall. discriminate Hall. }
      rewrite X. reflexivity. }
  destruct data as [|b|q|s|l|o].
  - split; [apply Hno; [discriminate | discriminate] | reflexivity].
  - split; [apply Hno; [discriminate | discriminate] | reflexivity].
  - split; [apply Hno; [discriminate | discriminate] | reflexivity].
  - destruct (Hcase (JString s) (fun field => occurs_in field s))
      as [Hn Hrest]; [reflexivity | reflexivity |].
    split; [apply Hno; [discriminate | exact Hn] | exact Hrest].
  - destruct (Hcase (JArray l) (fun field => existsb (is_string field) l))
      as [Hn Hrest]; [reflexivity | reflexivity |].
    split; [apply Hno; [discriminate | exact Hn] | exact Hrest].
  - apply add_expense_checks_object.
Qed.

(** ** [add_roommate] and [login] *)

Lemma matching_In (db : list Account.t) (name password : string) (a : Account.t) :
  In a (matching db name password)
  <-> In a db /\ Account.name a = name /\ Account.password a = password.
Proof.
  unfold matching. rewrite filter_In, andb_true_iff, !String.eqb_eq. tauto.
Qed.

(** X20.  [login] answers 200 only for a name and password that exactly one
    roommate has, and then with that roommate's name and id; it answers 401
    exactly when no roommate has them; when several roommates have them it
    raises. *)
Theorem login_outcome (db : list Account.t) (name password : string) :
  (forall n i, login db name password = LoginSuccessful n i ->
     n = name /\
     exists a, matching db name password = [a] /\ In a db /\
               Account.id a = i /\ Account.name a = name /\
               Account.password a = password) /\
  (login db name password = InvalidNameOrPassword <->
     forall a, In a db ->
       ~ (Account.name a = name /\ Account.password a = password)) /\
  (login db name password = MultipleObjectsReturned <->
     (2 <= List.length (matching db name password))%nat).
Proof.
  unfold login.
  destruct (matching db name password) as [|a [|a' l]] eqn:M.
  - split; [intros n i H; discriminate H|]. split.
    + split; [intros _|reflexivity].
      intros a Ha [Hn Hp].
      assert (Hin : In a (matching db name password))
        by (apply matching_In; tauto).
      rewrite M in Hin. destruct Hin.
    + simpl. split; [discriminate | lia].
  - assert (Ha : In a (matching db name password)) by (rewrite M; now left).
    apply matching_In in Ha. destruct Ha as [Hin [Hn Hp]].
    split; [|split].
    + intros n i H. injection H as <- <-. split; [exact Hn|].
      exists a. repeat split; assumption.
    + split; [discriminate|]. intros H. elim (H a Hin). tauto.
    + simpl. split; [discriminate | lia].
  - assert (Ha : In a (matching db name password)) by (rewrite M; now left).
    apply matching_In in Ha. destruct Ha as [Hin [Hn Hp]].
    split; [intros n i H; discriminate H|]. split.
    + split; [discriminate|]. intros H. elim (H a Hin). tauto.
    + simpl. split; [lia | reflexivity].
Qed.

Lemma matching_add (new_id : string) (db : list Account.t)
    (uname uemail upass uphone name password : string) :
  matching (add_roommate new_id db uname uemail upass uphone) name password
  = (matching db name password ++
     if String.eqb uname name && String.eqb upass password
     then [{| Account.id := new_id; Account.name := uname;
              Account.email := uemail; Account.password := upass;
              Account.phone := uphone |}]
     else [])%list.
Proof.
  unfold matching, add_roommate. rewrite filter_app. simpl.
  destruct (String.eqb uname name && String.eqb upass password); reflexivity.
Qed.

(** X21.  [add_roommate] checks nothing: after it, the new roommate can log
    in when nobody had that name and password before, and gets its own name
    and id; when somebody had them, neither can log in any more ([login]
    raises); and logging in with any other name or password is as
    before. *)
Theorem add_roommate_then_login (new_id : string) (db : list Account.t)
    (uname uemail upass uphone : string) :
  let db' := add_roommate new_id db uname uemail upass uphone in
  (login db uname upass = InvalidNameOrPassword ->
   login db' uname upass = LoginSuccessful uname new_id) /\
  (login db uname upass <> InvalidNameOrPassword ->
   login db' uname upass = MultipleObjectsReturned) /\
  (forall name password,
     ~ (name = uname /\ password = upass) ->
     login db' name password = login db name password).
Proof.
  cbv zeta. unfold login. split; [|split].
  - rewrite matching_add, !String.eqb_refl. simpl.
    destruct (matching db uname upass) as [|a [|a' l]];
      intros H; [reflexivity | discriminate H | discriminate H].
  - rewrite matching_add, !String.eqb_refl. simpl.
    destruct (matching db uname upass) as [|a [|a' l]];
      intros H; [now elim H | reflexivity | reflexivity].
  - intros name password Hne. rewrite matching_add.
    destruct (String.eqb uname name && String.eqb upass password) eqn:E.
    + apply andb_true_iff in E. destruct E as [E1 E2].
      apply String.eqb_eq in E1, E2. elim Hne. split; congruence.
    + rewrite app_nil_r. reflexivity.
Qed.

(** ** Instances of the further properties *)

Lemma item_totals_take_full_costs_witness :
  exists st r,
    aggregate [shared_meal] = Ok st /\
    Dict.get (report st) "B" = Some r /\
    (forall n, Report.items r @ n = running_sum (costs_charged "B" n [shared_meal])) /\
    Report.total_amount r = running_sum (totals_charged "B" [shared_meal]) /\
    costs_charged "B" "meat" [shared_meal] = [20] /\
    totals_charged "B" [shared_meal] = [0 + 20 + 10].
Proof.
  do 2 eexists. split; [vm_compute; reflexivity|].
  split; [vm_compute; reflexivity|].
  destruct (item_totals_take_full_costs [shared_meal] _ "B" _ eq_refl eq_refl)
    as [I T].
  split; [exact I|]. split; [exact T|]. split; reflexivity.
Defined.

Lemma split_expense_empty_group_witness :
  (exists expense,
      In expense [shared_meal; unshared] /\ Expense.consumed_by expense = []) /\
  (forall roommate_expenses,
      split_expense household [shared_meal; unshared] <> Ok roommate_expenses) /\
  split_expense household [shared_meal; unshared] = Raise ZeroDivisionError /\
  weekly_report [shared_meal; unshared] <> Raise ZeroDivisionError.
Proof.
  destruct (split_expense_empty_group household [shared_meal; unshared])
    as [H1 [H2 H3]].
  assert (E : split_expense household [shared_meal; unshared]
              = Raise ZeroDivisionError) by (vm_compute; reflexivity).
  split; [exact (H2 E)|].
  split; [exact (H1 (H2 E))|].
  split; [exact E | exact H3].
Defined.

Lemma weekly_aggregation_footprint_witness :
  exists st,
    aggregate [shared_meal] = Ok st /\
    Dict.keys (spending st) = ["A"]%string /\
    Dict.keys (report st) = ["A"; "B"; "C"]%string /\
    (forall k, In k (Dict.keys (report st)) <-> In k (consumers [shared_meal])) /\
    NoDup (Dict.keys (consumption st)).
Proof.
  eexists. split; [vm_compute; reflexivity|].
  split; [reflexivity|]. split; [reflexivity|].
  destruct (weekly_aggregation_footprint [shared_meal] _ eq_refl)
    as [_ [KR [_ [_ [_ NC]]]]].
  split; [exact KR | exact NC].
Defined.

Lemma split_expense_outcome_witness :
  exists roommate_expenses,
    split_expense household [shared_meal] = Ok roommate_expenses /\
    (forall e, In e [shared_meal] -> Expense.consumed_by e <> []) /\
    incl (consumers [shared_meal]) (map Roommate.id household).
Proof.
  eexists. split; [vm_compute; reflexivity|].
  apply (split_expense_outcome household [shared_meal] _ eq_refl).
Defined.



Lemma split_expense_keeps_roster_witness :
  exists roommate_expenses,
    split_expense household [shared_meal] = Ok roommate_expenses /\
    Dict.keys roommate_expenses = map Roommate.id household /\
    exists e, Dict.get roommate_expenses "D" = Some e /\
              Split.name e = "Dee"%string.
Proof.
  eexists. split; [vm_compute; reflexivity|].
  destruct (split_expense_keeps_roster household [shared_meal] _
              ltac:(repeat constructor; simpl; intuition discriminate) eq_refl)
    as [K H].
  split; [exact K|]. apply (H dee). simpl. tauto.
Defined.



Lemma settle_records_its_transfers_witness :
  exists st' ts,
    settle {| s_report := plain_report; balances := two_balances; trace := [] |}
      = Ok st' /\
    trace st' = ([] ++ ts)%list /\
    records_transfers plain_report ts (s_report st').
Proof.
  destruct (settle_spec
              {| s_report := plain_report; balances := two_balances; trace := [] |}
              (incl_refl _)) as [st' [H _]].
  exists st'.
  destruct (settle_records_its_transfers _ st' H) as [ts [T R]].
  exists ts. split; [exact H|]. split; [exact T | exact R].
Defined.

Lemma week_of_is_the_monday_week_witness :
  exists start_of_week end_of_week,
    week_of 739000 = Some (start_of_week, end_of_week) /\
    Date.weekday start_of_week = 0%Z /\
    (start_of_week <= 739000 <= end_of_week)%Z /\
    end_of_week = (start_of_week + 6)%Z /\
    Date.valid start_of_week /\ Date.valid end_of_week.
Proof.
  apply (proj1 (week_of_is_the_monday_week 739000
                  ltac:(unfold Date.valid, Date.min, Date.max; lia))).
  lia.
Defined.

Lemma routes_depend_on_the_week_only_witness :
  split_expense_route household one_meal_db 739003
    = split_expense_route household one_meal_db 739000 /\
  weekly_report_route one_meal_db 739003 = weekly_report_route one_meal_db 739000.
Proof.
  apply (routes_depend_on_the_week_only household one_meal_db
           739000 739003 738998 739004).
  - unfold Date.valid, Date.min, Date.max. lia.
  - reflexivity.
  - lia.
Defined.
